(** * Quality-tiered rasterization and page-combination pipeline

    A shallow embedding of the image and PDF pre-processing code of the
    multimodal chatbot (src/anthropic_ocr.py and its variants under
    src/new_test and src/testing), and the properties its specification
    states about it.

    Python integers are unbounded and are modelled by [Z] (page indices, which
    only count up from zero, by [nat]).  Python floats are IEEE 754 binary64
    values and are modelled by the Standard Library's [spec_float] with
    [prec = 53] and [emax = 1024], so that [int(img.width * zoom)] is computed
    with the same rounding as the interpreter does.  Dictionaries are [gmap]s.
    Exceptions, [st.error] reports and the opening and closing of PyMuPDF
    document handles are threaded through a small trace-and-error monad. *)

From Stdlib Require Import ZArith List Lia Bool Ascii String.
From Stdlib Require Import Floats.SpecFloat.
From stdpp Require Import gmap strings list pretty.

Local Open Scope Z_scope.

(** ** Python floats *)

Module PyFloat.

Definition prec : Z := 53.
Definition emax : Z := 1024.

Definition float : Type := spec_float.

(** [float(n)] for an integer [n], rounded to nearest even. *)
Definition of_int (n : Z) : float := binary_normalize prec emax n 0 false.

Definition mul : float → float → float := SFmul prec emax.
Definition div : float → float → float := SFdiv prec emax.
Definition ltb : float → float → bool := SFltb.
Definition leb : float → float → bool := SFleb.

(** A decimal literal [num/den] (such as [0.45] = 45/100) and the true
    division of two integers ([1/6]) both denote the binary64 value nearest
    to the rational: the correctly rounded quotient. *)
Definition literal (num den : Z) : float := div (of_int num) (of_int den).

(** [int(x)]: truncation towards zero; [None] for infinities and NaN, on
    which Python raises. *)
Definition to_int (x : float) : option Z :=
  match x with
  | S754_zero _ => Some 0
  | S754_finite s m e =>
      let a := match e with
               | Z0 => Zpos m
               | Zpos _ => Z.shiftl (Zpos m) e
               | Zneg _ => Z.shiftr (Zpos m) (- e)
               end in
      Some (if s then - a else a)
  | S754_infinity _ | S754_nan => None
  end.

(** [math.ceil(x)] for a float [x]. *)
Definition ceil (x : float) : option Z :=
  match x with
  | S754_zero _ => Some 0
  | S754_finite s m e =>
      match e with
      | Z0 => Some (if s then Zneg m else Zpos m)
      | Zpos _ => Some (if s then - Z.shiftl (Zpos m) e else Z.shiftl (Zpos m) e)
      | Zneg _ =>
          let q := Z.shiftr (Zpos m) (- e) in
          let exact := Z.shiftl q (- e) =? Zpos m in
          Some (if s then - q else if exact then q else q + 1)
      end
  | S754_infinity _ | S754_nan => None
  end.

(** [math.ceil(a / b)] on binary64 values, for integers [a] and [b ≠ 0]. *)
Definition ceil_truediv (a b : Z) : option Z := ceil (div (of_int a) (of_int b)).

End PyFloat.

Definition float : Type := PyFloat.float.

Arguments PyFloat.of_int : simpl never.
Arguments PyFloat.mul : simpl never.
Arguments PyFloat.div : simpl never.
Arguments PyFloat.literal : simpl never.
Arguments PyFloat.to_int : simpl never.

(** ** Exceptions and effects *)

(** The exceptions the modelled code can meet.  [LibError] stands for an
    exception raised inside PyMuPDF or Pillow (a corrupt page, undecodable
    bytes); its argument is the text [str(e)] gives. *)
Inductive exn : Type :=
  | KeyError (key : string)
  | ValueError (msg : string)
  | IndexError (msg : string)
  | AttributeError (msg : string)
  | NameError (msg : string)
  | ZeroDivisionError
  | LibError (msg : string).

(** [repr(s)] of a string.  A character of a string is a code point below
    256.  The text is written between single quotes, or between double quotes
    when it holds a single quote and no double quote; the quote in use and
    the backslash are escaped with a backslash, tab, line feed and carriage
    return are written [\t], [\n] and [\r], and every other character that
    is not printable (the control characters below 32 and from 127 to 159,
    the no-break space 160 and the soft hyphen 173) as [\x] and two
    hexadecimal digits. *)
Definition hex_digit (n : nat) : ascii :=
  nth n (String.list_ascii_of_string "0123456789abcdef") "0"%char.

Definition single_quote : ascii := "039"%char.
Definition double_quote : ascii := "034"%char.
Definition backslash : ascii := "092"%char.

Definition repr_char (quote c : ascii) : list ascii :=
  let n := nat_of_ascii c in
  if bool_decide (c = quote) || bool_decide (c = backslash) then [backslash; c]
  else if bool_decide (n = 9%nat) then [backslash; "t"%char]
  else if bool_decide (n = 10%nat) then [backslash; "n"%char]
  else if bool_decide (n = 13%nat) then [backslash; "r"%char]
  else if bool_decide (n < 32 ∨ 127 ≤ n ≤ 160 ∨ n = 173)%nat then
    [backslash; "x"%char; hex_digit (Nat.div n 16); hex_digit (Nat.modulo n 16)]
  else [c].

Definition py_repr (s : string) : string :=
  let chars := String.list_ascii_of_string s in
  let quote :=
    if bool_decide (single_quote ∈ chars) && negb (bool_decide (double_quote ∈ chars))
    then double_quote else single_quote in
  String.string_of_list_ascii
    ([quote] ++ concat (repr_char quote <$> chars) ++ [quote]).

(** [str(e)]: the message of the exception; for a [KeyError], [repr] of the
    key. *)
Definition str_exn (e : exn) : string :=
  match e with
  | KeyError k => py_repr k
  | ValueError m | IndexError m | AttributeError m | NameError m | LibError m => m
  | ZeroDivisionError => "division by zero"
  end.

Inductive result (A : Type) : Type :=
  | Ok (a : A)
  | Raise (e : exn).
Arguments Ok {A} a.
Arguments Raise {A} e.

(** What a run leaves behind besides its return value: the PyMuPDF document
    handles it opened and closed, and the errors it showed with [st.error]. *)
Inductive event : Type :=
  | EvOpen (doc_name : string)
  | EvClose (doc_name : string)
  | EvStError (msg : string).

Definition M (A : Type) : Type := list event * result A.

Definition raise {A} (e : exn) : M A := ([], Raise e).
Definition emit (ev : event) : M unit := ([ev], Ok tt).
Definition lift {A} (r : result A) : M A := ([], r).

#[global] Instance M_ret : MRet M := fun A a => ([], Ok a).

#[global] Instance M_bind : MBind M := fun A B f m =>
  match m with
  | (t, Ok a) => let '(t', r) := f a in (t ++ t', r)
  | (t, Raise e) => (t, Raise e)
  end.

(** [try: m  except Exception as e: handler e]. *)
Definition try_except {A} (m : M A) (handler : exn → M A) : M A :=
  match m with
  | (t, Ok a) => (t, Ok a)
  | (t, Raise e) => let '(t', r) := handler e in (t ++ t', r)
  end.

Definition is_ok {A} (r : result A) : bool :=
  match r with
  | Ok _ => true
  | Raise _ => false
  end.

Definition trace {A} (m : M A) : list event := fst m.
Definition outcome {A} (m : M A) : result A := snd m.

(** Code that raises but neither opens a document nor reports runs in
    [result] alone. *)
#[global] Instance result_ret : MRet result := fun A a => Ok a.

#[global] Instance result_bind : MBind result := fun A B f r =>
  match r with
  | Ok a => f a
  | Raise e => Raise e
  end.

(** [for a in l: s = body(s, a)], the shape of every loop of the code: the
    loop state [s] holds the lists the body appends to and the counters it
    advances. *)
Fixpoint for_each `{MBind T, MRet T} {A S} (l : list A) (body : S → A → T S)
    (s : S) : T S :=
  match l with
  | [] => mret s
  | a :: l' => s' ← body s a; for_each l' body s'
  end.

(** The results of [f] on the elements of [l] in order, up to the first one
    that raises. *)
Fixpoint try_map {A B} (f : A → result B) (l : list A) : result (list B) :=
  match l with
  | [] => Ok []
  | a :: l' => b ← f a; bs ← try_map f l'; Ok (b :: bs)
  end.

(** [range(start, stop)]. *)
Definition py_range (start stop : Z) : list Z := seqZ start (stop - start).

(** [range(start, stop, step)]; its length is computed as CPython does. *)
Definition py_range_step (start stop step : Z) : result (list Z) :=
  if step =? 0 then Raise (ValueError "range() arg 3 must not be zero")
  else
    let len :=
      if 0 <? step then (stop - start + step - 1) / step
      else (start - stop - step - 1) / (- step) in
    Ok ((λ k, start + k * step) <$> seqZ 0 len).

(** [math.ceil(a / b)] for integers [a] and [b].  The true division is
    correctly rounded; for operands below 2^53 (a page count is a C [int] in
    PyMuPDF and the divisor is at most 8) a quotient that is not an integer
    lies at least [1/b] away from the nearest one, far more than the rounding
    error of the division, so the ceiling of the float is the ceiling of the
    exact quotient, which is what this definition computes.
    [PyFloat.ceil_truediv] is the same computation on binary64 values. *)
Definition ceil_truediv (a b : Z) : result Z :=
  if b =? 0 then Raise ZeroDivisionError else Ok (- ((- a) / b)).

(** [d[k]] on a dictionary: [KeyError] when the key is absent. *)
Definition dict_getitem {V} (d : gmap string V) (k : string) : result V :=
  match d !! k with
  | Some v => Ok v
  | None => Raise (KeyError k)
  end.

(** ** Quality levels *)

(** The five positions of the quality sliders, lowest first, as [main] lists
    them in [options=[...]]. *)
Inductive QualityLevel : Type := VeryLow | Low | Medium | High | VeryHigh.

Definition level_name (q : QualityLevel) : string :=
  match q with
  | VeryLow => "Very Low"
  | Low => "Low"
  | Medium => "Medium"
  | High => "High"
  | VeryHigh => "Very High"
  end.

Definition slider_options : list string :=
  ["Very Low"; "Low"; "Medium"; "High"; "Very High"].

(** Position of a level on the slider. *)
Definition level_rank (q : QualityLevel) : nat :=
  match q with
  | VeryLow => 0
  | Low => 1
  | Medium => 2
  | High => 3
  | VeryHigh => 4
  end.

(** ** Pillow

    The Pillow operations the code calls, with the part of their documented
    behaviour the properties below rest on.  Pixel data is read through
    [getpixel], which gives the band values at a position.  [paste] is
    [canvas.paste(im, box, mask)]: it updates the canvas in place; every
    canvas of the code is created by the function that pastes into it and is
    aliased nowhere else, so the update is modelled by the new value. *)

Definition in_box (ox oy w h x y : Z) : bool :=
  (ox <=? x) && (x <? ox + w) && (oy <=? y) && (y <? oy + h).

(** The colour ['white'], which is also [(255, 255, 255)]. *)
Definition white : list Z := [255; 255; 255].

Class PIL : Type := {
  Image : Type;
  mode : Image → string;
  width : Image → Z;
  height : Image → Z;
  (** [key in img.info] *)
  has_info : Image → string → bool;
  getpixel : Image → Z * Z → list Z;
  (** [Image.new(mode, size, color)] *)
  Image_new : string → Z * Z → list Z → result Image;
  (** [Image.frombytes(mode, size, data)] *)
  Image_frombytes : string → Z * Z → list Z → result Image;
  (** [img.convert(mode)] *)
  convert : Image → string → Image;
  (** [img.split()[-1]] *)
  split_last : Image → Image;
  paste : Image → Image → Z * Z → option Image → Image;
  (** [img.resize(size, Image.Resampling.LANCZOS)] *)
  resize : Image → Z * Z → result Image;

  width_nonneg : ∀ img, 0 ≤ width img;
  height_nonneg : ∀ img, 0 ≤ height img;

  Image_new_ok : ∀ m w h c, 0 ≤ w → 0 ≤ h →
    ∃ img, Image_new m (w, h) c = Ok img ∧
      mode img = m ∧ width img = w ∧ height img = h ∧
      ∀ x y, 0 ≤ x < w → 0 ≤ y < h → getpixel img (x, y) = c;

  Image_new_size : ∀ m w h c img, Image_new m (w, h) c = Ok img →
    mode img = m ∧ width img = w ∧ height img = h;

  convert_mode : ∀ img m, mode (convert img m) = m;
  convert_width : ∀ img m, width (convert img m) = width img;
  convert_height : ∀ img m, height (convert img m) = height img;
  convert_same : ∀ img, convert img (mode img) = img;
  (** converting RGBA to RGB drops the alpha band *)
  convert_rgba_rgb : ∀ img x y r g b a,
    mode img = "RGBA" → getpixel img (x, y) = [r; g; b; a] →
    getpixel (convert img "RGB") (x, y) = [r; g; b];

  split_last_width : ∀ img, width (split_last img) = width img;
  split_last_height : ∀ img, height (split_last img) = height img;
  split_last_getpixel : ∀ img x y a,
    last (getpixel img (x, y)) = Some a →
    getpixel (split_last img) (x, y) = [a];

  paste_mode : ∀ c s box mk, mode (paste c s box mk) = mode c;
  paste_width : ∀ c s box mk, width (paste c s box mk) = width c;
  paste_height : ∀ c s box mk, height (paste c s box mk) = height c;
  (** without a mask the region of the box is replaced by the pasted image,
      converted to the mode of the canvas; the part of the box outside the
      canvas is clipped *)
  paste_getpixel : ∀ c s ox oy x y,
    0 ≤ x < width c → 0 ≤ y < height c →
    getpixel (paste c s (ox, oy) None) (x, y) =
      if in_box ox oy (width s) (height s) x y
      then getpixel (convert s (mode c)) (x - ox, y - oy)
      else getpixel c (x, y);
  (** with a mask: where the mask is 255 the pasted image is copied as it is,
      where it is 0 the canvas keeps its value *)
  paste_mask_0 : ∀ c s mk ox oy x y,
    width mk = width s → height mk = height s →
    0 ≤ x < width c → 0 ≤ y < height c →
    in_box ox oy (width s) (height s) x y = true →
    getpixel mk (x - ox, y - oy) = [0] →
    getpixel (paste c s (ox, oy) (Some mk)) (x, y) = getpixel c (x, y);
  paste_mask_255 : ∀ c s mk ox oy x y,
    width mk = width s → height mk = height s →
    0 ≤ x < width c → 0 ≤ y < height c →
    in_box ox oy (width s) (height s) x y = true →
    getpixel mk (x - ox, y - oy) = [255] →
    getpixel (paste c s (ox, oy) (Some mk)) (x, y) =
      getpixel (convert s (mode c)) (x - ox, y - oy);

  (** resizing to an empty size raises
      [ValueError: height and width must be > 0], unless it is the size the
      image has already, for which [resize] returns a copy at once *)
  resize_ok : ∀ img w h, 1 ≤ w → 1 ≤ h →
    ∃ r, resize img (w, h) = Ok r ∧
      mode r = mode img ∧ width r = w ∧ height r = h;
  resize_empty : ∀ img w h, w < 1 ∨ h < 1 →
    (w, h) ≠ (width img, height img) →
    ∃ e, resize img (w, h) = Raise e;
}.

Section Files.
Context `{PIL}.

(** A JPEG buffer, [img.save(buf, format='JPEG', quality=q)], kept as the
    image it encodes and the quality setting. *)
Record Payload : Type := {
  encoded : Image;
  jpeg_quality : Z;
}.

Definition save_jpeg (img : Image) (quality : Z) : Payload :=
  {| encoded := img; jpeg_quality := quality |}.

(** ** PyMuPDF *)

Record Pixmap : Type := {
  pix_width : Z;
  pix_height : Z;
  pix_samples : list Z;
}.

(** A page: its rectangle, and [page.get_pixmap(matrix=fitz.Matrix(z, z))]
    as a function of [z], which raises on a page that cannot be rendered. *)
Record Page : Type := {
  rect_width : float;
  rect_height : float;
  get_pixmap : float → result Pixmap;
}.

Record Document : Type := {
  doc_pages : list Page;
}.

Definition page_count (doc : Document) : Z := Z.of_nat (length (doc_pages doc)).

(** [doc[i]]: a negative index counts from the end. *)
Definition doc_getitem (doc : Document) (i : Z) : result Page :=
  if i <? page_count doc then
    match doc_pages doc !! Z.to_nat (if 0 <=? i then i else i `mod` page_count doc) with
    | Some page => Ok page
    | None => Raise (IndexError "page not in document")
    end
  else Raise (IndexError "page not in document").

(** An uploaded file: its name and MIME type, and what decoding its bytes
    gives: [fitz.open(stream=f.read(), filetype="pdf")] and
    [Image.open(f)], each of which raises on bytes it cannot decode. *)
Record UploadedFile : Type := {
  name : string;
  type : string;
  fitz_open : result Document;
  Image_open : result Image;
  (** [pdf2image.convert_from_path(path, dpi=200, fmt="jpeg")] on the file
      written to a temporary directory *)
  convert_from_path : result (list Image);
}.

(** Opening a document leaves an open handle behind. *)
Definition open_document (f : UploadedFile) : M Document :=
  match fitz_open f with
  | Ok doc => emit (EvOpen (name f));; mret doc
  | Raise e => raise e
  end.

(** [pdf_document.close()] *)
Definition close_document (f : UploadedFile) : M unit := emit (EvClose (name f)).

(** [Image.frombytes("RGB", [pix.width, pix.height], pix.samples)] *)
Definition image_of_pixmap (pix : Pixmap) : result Image :=
  Image_frombytes "RGB" (pix_width pix, pix_height pix) (pix_samples pix).

(** The page rasterizer, the three lines every page loop starts with:
    [page = pdf_document[page_num]], [pix = page.get_pixmap(matrix=...)]
    with [fitz.Matrix(zoom, zoom)], and the conversion to a Pillow image. *)
Definition rasterize_page (pdf_document : Document) (zoom : float) (page_num : Z)
    : result Image :=
  page ← doc_getitem pdf_document page_num;
  pix ← get_pixmap page zoom;
  image_of_pixmap pix.

End Files.

(** ** base64

    [base64.b64encode(s)], the encoding of RFC 4648 with the standard
    alphabet and [=] padding: every three bytes give four characters, and a
    last group of one or two bytes is padded to four. *)

Module base64.

Definition table_b2a : list ascii :=
  String.list_ascii_of_string
    "ABCDEFGHIJKLMNOPQRSTUVWXYZabcdefghijklmnopqrstuvwxyz0123456789+/".

Definition byte_val (b : Byte.byte) : Z := Z.of_N (Byte.to_N b).

(** The character of a six-bit value. *)
Definition b2a (v : Z) : ascii := nth (Z.to_nat v) table_b2a "="%char.

(** The four characters of a 24-bit group. *)
Definition sextets (n : Z) : list ascii :=
  [b2a (n `div` 262144); b2a ((n `div` 4096) `mod` 64);
   b2a ((n `div` 64) `mod` 64); b2a (n `mod` 64)].

Fixpoint b64encode (s : list Byte.byte) : list ascii :=
  match s with
  | [] => []
  | [b0] => take 2 (sextets (byte_val b0 * 65536)) ++ ["="%char; "="%char]
  | [b0; b1] =>
      take 3 (sextets (byte_val b0 * 65536 + byte_val b1 * 256)) ++ ["="%char]
  | b0 :: b1 :: b2 :: s' =>
      sextets (byte_val b0 * 65536 + byte_val b1 * 256 + byte_val b2)
        ++ b64encode s'
  end.

(** The six-bit value of a character of the alphabet. *)
Definition a2b (c : ascii) : option Z :=
  (λ p : nat * ascii, Z.of_nat p.1) <$> list_find (λ x, x = c) table_b2a.

Definition to_byte (v : Z) : option Byte.byte := Byte.of_N (Z.to_N v).

(** Decoding, for the receiving side: groups of four characters, of which
    only the last can carry padding.  Anything else is refused. *)
Fixpoint b64decode (s : list ascii) : option (list Byte.byte) :=
  match s with
  | [] => Some []
  | c0 :: c1 :: c2 :: c3 :: s' =>
      v0 ← a2b c0;
      v1 ← a2b c1;
      if bool_decide (c3 = "="%char ∧ s' = []) then
        if bool_decide (c2 = "="%char) then
          b0 ← to_byte ((v0 * 64 + v1) `div` 16);
          Some [b0]
        else
          v2 ← a2b c2;
          let n := v0 * 4096 + v1 * 64 + v2 in
          b0 ← to_byte (n `div` 1024);
          b1 ← to_byte ((n `div` 4) `mod` 256);
          Some [b0; b1]
      else
        v2 ← a2b c2;
        v3 ← a2b c3;
        let n := v0 * 262144 + v1 * 4096 + v2 * 64 + v3 in
        b0 ← to_byte (n `div` 65536);
        b1 ← to_byte ((n `div` 256) `mod` 256);
        b2 ← to_byte (n `mod` 256);
        rest ← b64decode s';
        Some (b0 :: b1 :: b2 :: rest)
  | _ => None
  end.

End base64.

(** What [encode_image] is given: an [io.BytesIO] buffer, of which
    [getvalue()] is the whole content wherever its cursor stands, or a
    [bytes] object. *)
Inductive ImageBytes : Type :=
  | BytesIO (getvalue : list Byte.byte)
  | Bytes (b : list Byte.byte).

(** ** The chat layer *)

(** An entry of [st.session_state.messages]:
    [{"role": ..., "content": ...}]. *)
Record ChatMessage : Type := {
  msg_role : string;
  msg_content : string;
}.

(** [l[i]] on a list; a negative index counts from the end. *)
Definition list_getitem {A} (l : list A) (i : Z) : result A :=
  let n := Z.of_nat (length l) in
  let k := if i <? 0 then i + n else i in
  match (if (0 <=? k) && (k <? n) then l !! Z.to_nat k else None) with
  | Some a => Ok a
  | None => Raise (IndexError "list index out of range")
  end.

(** A truthy string: [if s:] holds for a string that is neither [None] nor
    empty. *)
Definition truthy (s : option string) : option string :=
  match s with
  | Some s => if bool_decide (s = "") then None else Some s
  | None => None
  end.

(** The parts of the content of a request message:
    [{"type": "text", "text": ...}],
    [{"type": "image", "source": {"type": "base64", "media_type": ...,
    "data": ...}}] and [{"type": "image_url", "image_url": {"url": ...}}]. *)
Inductive ContentBlock : Type :=
  | TextBlock (text : string)
  | ImageBlock (media_type data : string)
  | ImageUrlBlock (url : string).

(** *** The Anthropic client *)

(** [{"role": ..., "content": [...]}] *)
Record MessageParam : Type := {
  param_role : string;
  param_content : list ContentBlock;
}.

(** The arguments of [client.messages.create]. *)
Record CreateParams : Type := {
  create_model : string;
  create_max_tokens : Z;
  create_temperature : float;
  create_messages : list MessageParam;
}.

(** A block of the content of the answer: a text block has a [text], a
    tool-use block has none. *)
Inductive ResponseBlock : Type :=
  | ResponseText (text : string)
  | ToolUseBlock.

(** What [client.messages.create] does: it returns a message with its
    content, raises an [anthropic.APIError] (or one of its subclasses), or
    raises another exception; [msg] is what [str(e)] gives. *)
Inductive CreateOutcome : Type :=
  | Created (response_content : list ResponseBlock)
  | APIError (msg : string)
  | OtherException (msg : string).

(** *** The OpenAI endpoint, through [requests] *)

(** The content of a message of the payload: a string, or a list of
    parts. *)
Inductive ApiContent : Type :=
  | Plain (s : string)
  | Parts (l : list ContentBlock).

Record ApiMessage : Type := {
  api_role : string;
  api_content : ApiContent;
}.

(** [requests.post(url, headers=headers, json=payload)] *)
Record PostRequest : Type := {
  post_url : string;
  post_content_type : string;
  post_authorization : string;
  post_model : string;
  post_messages : list ApiMessage;
  post_max_tokens : Z;
}.

(** A decoded JSON document, as [response.json()] returns it: [None],
    [bool], [int], [float], [str], [list], and [dict] as the list of its
    items. *)
#[warnings="-register-all"]
Inductive Json : Type :=
  | JNull
  | JBool (b : bool)
  | JInt (n : Z)
  | JFloat (x : float)
  | JStr (s : string)
  | JArr (items : list Json)
  | JObj (items : list (string * Json)).

(** The exceptions of this layer.  [ReprKeyError] carries [repr(key)], which
    is what [str(e)] shows of a [KeyError]; [RequestException] stands for
    [requests.exceptions.RequestException] and its subclasses. *)
Inductive api_exn : Type :=
  | ReprKeyError (key_repr : string)
  | ListIndexError
  | StringIndexError
  | TypeError
  | RequestException (msg : string).

Inductive attempt (A : Type) : Type :=
  | Returned (a : A)
  | Escaped (e : api_exn).
Arguments Returned {A} a.
Arguments Escaped {A} e.

#[global] Instance attempt_ret : MRet attempt := fun A a => Returned a.

#[global] Instance attempt_bind : MBind attempt := fun A B f r =>
  match r with
  | Returned a => f a
  | Escaped e => Escaped e
  end.

Inductive Subscript : Type :=
  | Key (k : string)
  | Index (i : Z).

(** [d[k]] on the items of a dict: the value of the last item with that
    key, as [json.loads] keeps it. *)
Fixpoint obj_lookup (k : string) (items : list (string * Json)) : option Json :=
  match items with
  | [] => None
  | (k', v) :: items' =>
      match obj_lookup k items' with
      | Some v' => Some v'
      | None => if bool_decide (k' = k) then Some v else None
      end
  end.

(** Where a sequence of length [n] is read at index [i]. *)
Definition seq_position (n i : Z) : option nat :=
  let k := if i <? 0 then i + n else i in
  if (0 <=? k) && (k <? n) then Some (Z.to_nat k) else None.

(** [j[s]] on a decoded JSON value. *)
Definition json_getitem (j : Json) (s : Subscript) : attempt Json :=
  match j, s with
  | JObj items, Key k =>
      match obj_lookup k items with
      | Some v => Returned v
      | None => Escaped (ReprKeyError (py_repr k))
      end
  | JObj _, Index i => Escaped (ReprKeyError (pretty i))
  | JArr items, Index i =>
      match seq_position (Z.of_nat (length items)) i ≫= (items !!.) with
      | Some v => Returned v
      | None => Escaped ListIndexError
      end
  | JStr s, Index i =>
      let chars := String.list_ascii_of_string s in
      match seq_position (Z.of_nat (length chars)) i ≫= (chars !!.) with
      | Some c => Returned (JStr (String.string_of_list_ascii [c]))
      | None => Escaped StringIndexError
      end
  | _, _ => Escaped TypeError
  end.

(** What the server sent back: [raise_for_status()] raises an [HTTPError]
    with this message on a 4xx or 5xx status, and [json()] gives the decoded
    body, or raises [requests.exceptions.JSONDecodeError] (a
    [RequestException] since requests 2.27) with this message. *)
Record Response : Type := {
  http_error : option string;
  json : string + Json;
}.

(** What [requests.post] does: it raises a [RequestException] (no
    connection, a timeout) or returns a response. *)
Inductive PostOutcome : Type :=
  | PostRaised (msg : string)
  | Responded (response : Response).

(** [analyze_images] of the variants that ask the OpenAI endpoint
    (src/new_test/fix_rgba_filedata_error.py, src/testing/img_pdf_v2.py,
    src/testing/st_img_4o_pdf.py).  The copies differ in how an image
    becomes base64 text, in two texts and in [max_tokens]. *)
Section analyze_images.
Context {I : Type}.
Variable encode : I → string.
Variables no_images_reply system_prompt : string.
Variable max_tokens : Z.
(** [os.getenv("OPENAI_API_KEY")] *)
Variable api_key : option string.
(** What the endpoint answers to a request. *)
Variable post : PostRequest → PostOutcome.

Definition image_url_part (img : I) : ContentBlock :=
  ImageUrlBlock ("data:image/jpeg;base64," +:+ encode img).

(** The messages of the payload: the system prompt, the first message of
    the history with every image, and the rest of the history. *)
Definition api_messages_of (images : list I) (messages : list ChatMessage)
    : result (list ApiMessage) :=
  let api_messages :=
    [{| api_role := "system"; api_content := Plain system_prompt |}] in
  first ← list_getitem messages 0;
  let first_content := [TextBlock (msg_content first)] in
  let first_content :=
    foldl (λ first_content img, first_content ++ [image_url_part img])
      first_content images in
  let api_messages :=
    api_messages ++ [{| api_role := "user"; api_content := Parts first_content |}] in
  let api_messages :=
    foldl (λ api_messages message,
             api_messages ++ [{| api_role := msg_role message;
                                 api_content := Plain (msg_content message) |}])
      api_messages (drop 1 messages) in
  Ok api_messages.

Definition post_request (api_messages : list ApiMessage) : PostRequest :=
  {| post_url := "https://api.openai.com/v1/chat/completions";
     post_content_type := "application/json";
     post_authorization := "Bearer " +:+ default "None" api_key;
     post_model := "gpt-4o";
     post_messages := api_messages;
     post_max_tokens := max_tokens |}.

(** The body of the [try]:
    [response.json()["choices"][0]["message"]["content"]]. *)
Definition reply_content (request : PostRequest) : attempt Json :=
  match post request with
  | PostRaised msg => Escaped (RequestException msg)
  | Responded response =>
      match http_error response with
      | Some msg => Escaped (RequestException msg)
      | None =>
          match json response with
          | inl msg => Escaped (RequestException msg)
          | inr data =>
              choices ← json_getitem data (Key "choices");
              choice ← json_getitem choices (Index 0);
              message ← json_getitem choice (Key "message");
              json_getitem message (Key "content")
          end
      end
  end.

(** The two handlers: [except requests.exceptions.RequestException] and
    [except KeyError]. *)
Definition handle_reply (r : attempt Json) : attempt Json :=
  match r with
  | Escaped (RequestException msg) =>
      Returned (JStr ("Error making request to OpenAI API: " +:+ msg))
  | Escaped (ReprKeyError key_repr) =>
      Returned (JStr ("Error parsing API response: " +:+ key_repr))
  | _ => r
  end.

Definition analyze_images_with (images : list I) (messages : list ChatMessage)
    : attempt Json :=
  match images with
  | [] => Returned (JStr no_images_reply)
  | _ =>
      match api_messages_of images messages with
      | Ok api_messages => handle_reply (reply_content (post_request api_messages))
      | Raise _ => Escaped ListIndexError
      end
  end.

End analyze_images.

(** ** src/anthropic_ocr.py *)

Module anthropic_ocr.

Definition zoom_quality_map : gmap string float :=
  <["Very High" := PyFloat.literal 1 1]>
  (<["High" := PyFloat.literal 7 10]>
  (<["Medium" := PyFloat.literal 45 100]>
  (<["Low" := PyFloat.literal 3 10]>
  (<["Very Low" := PyFloat.literal 2 10]> ∅)))).

Definition get_zoom_factor (quality : string) : result float :=
  dict_getitem zoom_quality_map quality.

Definition pages_quality_map : gmap string Z :=
  <["Very High" := 1]>
  (<["High" := 2]>
  (<["Medium" := 4]>
  (<["Low" := 6]>
  (<["Very Low" := 8]> ∅)))).

Definition get_pages_per_image (pdf_quality : string) : result Z :=
  dict_getitem pages_quality_map pdf_quality.

(** The page groups the outer loop of [pdf_to_images] walks through:
    [(start_page, end_page)] for each [group_idx]. *)
Definition page_groups (total_pages pages_per_image : Z) : result (list (Z * Z)) :=
  num_combined_images ← ceil_truediv total_pages pages_per_image;
  Ok ((λ group_idx,
         let start_page := group_idx * pages_per_image in
         (start_page, Z.min (start_page + pages_per_image) total_pages))
      <$> py_range 0 num_combined_images).

Section with_pil.
Context `{PIL}.

(** One round of the paste loop: the state is the canvas and [y_offset]. *)
Definition paste_step (max_width : Z) (st : Image * Z) (img : Image) : Image * Z :=
  let '(combined, y_offset) := st in
  let x_offset := (max_width - width img) `div` 2 in
  (paste combined img (x_offset, y_offset) None, y_offset + height img).

Definition combine_images_vertically (images : list Image) : result (option Image) :=
  match images with
  | [] => Ok None
  | first :: rest =>
      let total_height := foldl Z.add 0 (height <$> images) in
      let max_width := foldl Z.max (width first) (width <$> rest) in
      combined ← Image_new "RGB" (max_width, total_height) white;
      Ok (Some (foldl (paste_step max_width) (combined, 0) images).1)
  end.

(** Lines 71-79 of [process_image]: flattening to RGB. *)
Definition has_alpha (img : Image) : bool :=
  bool_decide (mode img = "RGBA") || bool_decide (mode img = "LA")
  || (bool_decide (mode img = "P") && has_info img "transparency").

Definition to_rgb (img : Image) : result Image :=
  if has_alpha img then
    background ← Image_new "RGB" (width img, height img) white;
    let img := if bool_decide (mode img = "P") then convert img "RGBA" else img in
    Ok (paste background img (0, 0) (Some (split_last img)))
  else if bool_decide (mode img ≠ "RGB") then Ok (convert img "RGB")
  else Ok img.

(** [int(n * zoom)] for an integer [n] and a float [zoom]. *)
Definition scale_dim (n : Z) (zoom : float) : result Z :=
  match PyFloat.to_int (PyFloat.mul (PyFloat.of_int n) zoom) with
  | Some k => Ok k
  | None => Raise (ValueError "cannot convert float to integer")
  end.

Section process_image.
(** The zoom table is the only difference between this function and
    its copy in src/new_test/fix_rgba_filedata_error.py. *)
Variable zoom_of : string → result float.

Definition process_image_with (image_file : UploadedFile) (quality : string)
    : result Payload :=
  img ← Image_open image_file;
  img ← to_rgb img;
  if bool_decide (quality = "Very High") then Ok (save_jpeg img 95)
  else
    zoom ← zoom_of quality;
    new_width ← scale_dim (width img) zoom;
    new_height ← scale_dim (height img) zoom;
    resized_img ← resize img (new_width, new_height);
    Ok (save_jpeg resized_img 95).
End process_image.

Definition process_image : UploadedFile → string → result Payload :=
  process_image_with get_zoom_factor.

(** The body of the inner loop: one page to an image. *)
Definition render_page (pdf_document : Document) (zoom_factor : float)
    (page_images : list Image) (page_num : Z) : result (list Image) :=
  img_data ← rasterize_page pdf_document zoom_factor page_num;
  Ok (page_images ++ [img_data]).

Definition page_range (start_page end_page : Z) : string :=
  if bool_decide (end_page = start_page + 1)
  then "Page " +:+ pretty (start_page + 1)
  else "Pages " +:+ pretty (start_page + 1) +:+ "-" +:+ pretty end_page.

(** Lines 121-137: the pages [start_page .. end_page - 1] rendered,
    combined and saved. *)
Definition group_payload (pdf_document : Document) (zoom_factor : float)
    (start_page end_page : Z) : result Payload :=
  page_images ← for_each (py_range start_page end_page)
                   (render_page pdf_document zoom_factor) [];
  combined_image ← combine_images_vertically page_images;
  match combined_image with
  | None => Raise (AttributeError "'NoneType' object has no attribute 'save'")
  | Some combined_image => Ok (save_jpeg combined_image 95)
  end.

(** The body of the outer loop: one group of pages to a payload and its
    caption. *)
Definition convert_group (pdf_file : UploadedFile) (pdf_document : Document)
    (zoom_factor : float) (pages_per_image total_pages : Z)
    (acc : list Payload * list string) (group_idx : Z)
    : result (list Payload * list string) :=
  let '(images, captions) := acc in
  let start_page := group_idx * pages_per_image in
  let end_page := Z.min (start_page + pages_per_image) total_pages in
  img_byte_arr ← group_payload pdf_document zoom_factor start_page end_page;
  Ok (images ++ [img_byte_arr],
      captions ++ [name pdf_file +:+ " - " +:+ page_range start_page end_page]).

(** Lines 110-145: what happens between opening and closing the document. *)
Definition pdf_to_images_body (pdf_file : UploadedFile) (pdf_document : Document)
    (quality pdf_quality : string) : result (list Payload * list string) :=
  zoom_factor ← get_zoom_factor quality;
  pages_per_image ← get_pages_per_image pdf_quality;
  let total_pages := page_count pdf_document in
  num_combined_images ← ceil_truediv total_pages pages_per_image;
  for_each (py_range 0 num_combined_images)
    (convert_group pdf_file pdf_document zoom_factor pages_per_image total_pages)
    ([], []).

Definition pdf_to_images (pdf_file : UploadedFile) (quality pdf_quality : string)
    : M (list Payload * list string) :=
  try_except
    (pdf_document ← open_document pdf_file;
     r ← lift (pdf_to_images_body pdf_file pdf_document quality pdf_quality);
     close_document pdf_file;;
     mret r)
    (λ e,
       emit (EvStError ("Error processing PDF " +:+ name pdf_file +:+ ": " +:+ str_exn e));;
       mret ([], [])).

(** [st.session_state.processed_images] and [image_captions]. *)
Record Session : Type := {
  processed_images : list Payload;
  image_captions : list string;
}.

(** One round of the upload loop of [main] (lines 276-290). *)
Definition process_upload (quality pdf_quality : string) (s : Session)
    (file : UploadedFile) : M Session :=
  try_except
    (if bool_decide (type file = "application/pdf") then
       '(pdf_images, pdf_captions) ← pdf_to_images file quality pdf_quality;
       mret {| processed_images := processed_images s ++ pdf_images;
               image_captions := image_captions s ++ pdf_captions |}
     else
       processed_img ← lift (process_image file quality);
       mret {| processed_images := processed_images s ++ [processed_img];
               image_captions := image_captions s ++ [name file] |})
    (λ e,
       emit (EvStError ("Error processing file " +:+ name file +:+ ": " +:+ str_exn e));;
       mret s).

(** [if uploaded_files: ...] in [main]. *)
Definition process_uploads (quality pdf_quality : string) (s : Session)
    (uploaded_files : list UploadedFile) : M Session :=
  match uploaded_files with
  | [] => mret s
  | _ =>
      for_each uploaded_files (process_upload quality pdf_quality)
        {| processed_images := []; image_captions := [] |}
  end.

(** *** The chat with the model *)

Definition encode_image (image_bytes : ImageBytes) : string :=
  match image_bytes with
  | BytesIO value => String.string_of_list_ascii (base64.b64encode value)
  | Bytes b => String.string_of_list_ascii (base64.b64encode b)
  end.

Definition system_message : string :=
  "You are Claude, an AI assistant analyzing images and engaging in conversation about them.".

(** [message.content[0].text] *)
Definition first_text (response_content : list ResponseBlock) : result string :=
  block ← list_getitem response_content 0;
  match block with
  | ResponseText text => Ok text
  | ToolUseBlock =>
      Raise (AttributeError "'ToolUseBlock' object has no attribute 'text'")
  end.

Section chat.
(** The bytes of a payload: what [img.save(buf, format='JPEG', quality=95)]
    wrote into the buffer. *)
Variable jpeg_bytes : Payload → list Byte.byte.

(** The image part of a payload. *)
Definition image_content (img : Payload) : ContentBlock :=
  ImageBlock "image/jpeg" (encode_image (BytesIO (jpeg_bytes img))).

(** Lines 169-201 of [analyze_images]: the content of the one message of
    the request. *)
Definition request_content (images : list Payload) (messages : list ChatMessage)
    : result (list ContentBlock) :=
  let content := [] in
  let content := content ++ [TextBlock system_message] in
  first ← list_getitem messages 0;
  let content := content ++ [TextBlock (msg_content first)] in
  let content := foldl (λ content img, content ++ [image_content img]) content images in
  let content :=
    foldl (λ content message, content ++ [TextBlock (msg_content message)])
      content (drop 1 messages) in
  Ok content.

Definition create_params (content : list ContentBlock) : CreateParams :=
  {| create_model := "claude-3-sonnet-20240229";
     create_max_tokens := 4096;
     create_temperature := PyFloat.literal 7 10;
     create_messages := [{| param_role := "user"; param_content := content |}] |}.

(** What the API answers to a request. *)
Variable create : CreateParams → CreateOutcome.

(** Lines 203-221: the call and its two handlers. *)
Definition request_reply (content : list ContentBlock) : string :=
  match create (create_params content) with
  | Created response_content =>
      match first_text response_content with
      | Ok text => text
      | Raise e => "Error processing request: " +:+ str_exn e
      end
  | APIError msg => "Error making request to Anthropic API: " +:+ msg
  | OtherException msg => "Error processing request: " +:+ msg
  end.

Definition analyze_images (images : list Payload) (messages : list ChatMessage)
    : result string :=
  match images with
  | [] => Ok "Please upload at least one image."
  | _ =>
      content ← request_content images messages;
      Ok (request_reply content)
  end.

(** The session after [initialize_session_state]: the chat history, and the
    processed images and their captions. *)
Record AppState : Type := {
  messages : list ChatMessage;
  session : Session;
}.

(** [if st.button("Clear Chat History"):] at the end of [main]. *)
Definition clear_chat_history (clicked : bool) (state : AppState) : AppState :=
  if clicked then {| messages := []; session := session state |} else state.

(** One run of [main]: the sidebar with its upload loop, then the chat
    input, then the button.  Each of the two [return]s of the chat input
    ends the run before the button is reached. *)
Definition main (api_key : option string) (quality pdf_quality : string)
    (uploaded_files : list UploadedFile) (prompt : option string)
    (clear_clicked : bool) (state : AppState) : M AppState :=
  session ← process_uploads quality pdf_quality (session state) uploaded_files;
  let state := {| messages := messages state; session := session |} in
  match truthy prompt with
  | Some prompt =>
      match processed_images session with
      | [] =>
          emit (EvStError "Please upload at least one file first.");;
          mret state
      | _ =>
          match truthy api_key with
          | None =>
              emit (EvStError "OpenAI API key not found. Please check your .env file.");;
              mret state
          | Some _ =>
              let history :=
                messages state ++ [{| msg_role := "user"; msg_content := prompt |}] in
              response ← lift (analyze_images (processed_images session) history);
              let history :=
                history ++ [{| msg_role := "assistant"; msg_content := response |}] in
              mret (clear_chat_history clear_clicked
                      {| messages := history; session := session |})
          end
      end
  | None => mret (clear_chat_history clear_clicked state)
  end.

End chat.

End with_pil.

End anthropic_ocr.

(** ** src/new_test/fix_rgba_filedata_error.py *)

Module fix_rgba_filedata_error.

Definition zoom_quality_map : gmap string float :=
  <["Very High" := PyFloat.literal 1 1]>
  (<["High" := PyFloat.literal 5 10]>
  (<["Medium" := PyFloat.literal 33 100]>
  (<["Low" := PyFloat.literal 25 100]>
  (<["Very Low" := PyFloat.literal 1 6]> ∅)))).

Definition get_zoom_factor (quality : string) : result float :=
  dict_getitem zoom_quality_map quality.

Definition encode_image (image_bytes : ImageBytes) : string :=
  match image_bytes with
  | BytesIO value => String.string_of_list_ascii (base64.b64encode value)
  | Bytes b => String.string_of_list_ascii (base64.b64encode b)
  end.

Definition analyze_images
    : option string → (PostRequest → PostOutcome) →
      list ImageBytes → list ChatMessage → attempt Json :=
  analyze_images_with encode_image
    "Please upload at least one image."
    "You are an AI assistant analyzing images and engaging in conversation about them."
    5000.

Section with_pil.
Context `{PIL}.

Definition process_image : UploadedFile → string → result Payload :=
  anthropic_ocr.process_image_with get_zoom_factor.

(** The body of the page loop: every page is a payload of its own. *)
Definition convert_page (pdf_file : UploadedFile) (pdf_document : Document)
    (zoom_factor : float) (acc : list Payload * list string) (page_num : Z)
    : result (list Payload * list string) :=
  let '(images, captions) := acc in
  img_data ← rasterize_page pdf_document zoom_factor page_num;
  Ok (images ++ [save_jpeg img_data 95],
      captions ++ [name pdf_file +:+ " - Page " +:+ pretty (page_num + 1)]).

Definition pdf_to_images_body (pdf_file : UploadedFile) (pdf_document : Document)
    (quality : string) : result (list Payload * list string) :=
  zoom_factor ← get_zoom_factor quality;
  for_each (py_range 0 (page_count pdf_document))
    (convert_page pdf_file pdf_document zoom_factor) ([], []).

Definition pdf_to_images (pdf_file : UploadedFile) (quality : string)
    : M (list Payload * list string) :=
  try_except
    (pdf_document ← open_document pdf_file;
     r ← lift (pdf_to_images_body pdf_file pdf_document quality);
     close_document pdf_file;;
     mret r)
    (λ e,
       emit (EvStError ("Error processing PDF: " +:+ str_exn e));;
       mret ([], [])).

(** One round of the upload loop of [main] (lines 210-224), on the same
    two lists of the session as in src/anthropic_ocr.py. *)
Definition process_upload (quality : string) (s : anthropic_ocr.Session)
    (file : UploadedFile) : M anthropic_ocr.Session :=
  try_except
    (if bool_decide (type file = "application/pdf") then
       '(pdf_images, pdf_captions) ← pdf_to_images file quality;
       mret {| anthropic_ocr.processed_images :=
                 anthropic_ocr.processed_images s ++ pdf_images;
               anthropic_ocr.image_captions :=
                 anthropic_ocr.image_captions s ++ pdf_captions |}
     else
       processed_img ← lift (process_image file quality);
       mret {| anthropic_ocr.processed_images :=
                 anthropic_ocr.processed_images s ++ [processed_img];
               anthropic_ocr.image_captions :=
                 anthropic_ocr.image_captions s ++ [name file] |})
    (λ e,
       emit (EvStError ("Error processing file " +:+ name file +:+ ": " +:+ str_exn e));;
       mret s).

(** [if uploaded_files: ...] in [main]. *)
Definition process_uploads (quality : string) (s : anthropic_ocr.Session)
    (uploaded_files : list UploadedFile) : M anthropic_ocr.Session :=
  match uploaded_files with
  | [] => mret s
  | _ =>
      for_each uploaded_files (process_upload quality)
        {| anthropic_ocr.processed_images := []; anthropic_ocr.image_captions := [] |}
  end.

End with_pil.

End fix_rgba_filedata_error.

(** ** Helpers of the variants under src/testing *)

(** [s.rsplit('.', 1)[0]]: the part of [s] before its last dot, all of [s]
    when it has none. *)
Fixpoint before_last_dot (l : list ascii) : option (list ascii) :=
  match l with
  | [] => None
  | c :: l' =>
      match before_last_dot l' with
      | Some p => Some (c :: p)
      | None => if bool_decide (c = "."%char) then Some [] else None
      end
  end.

Definition rsplit_dot_head (s : string) : string :=
  match before_last_dot (String.list_ascii_of_string s) with
  | Some p => String.string_of_list_ascii p
  | None => s
  end.

(** [enumerate(l)] *)
Definition py_enumerate {A} (l : list A) : list (Z * A) :=
  zip (seqZ 0 (Z.of_nat (length l))) l.

(** ** src/testing/img_pdf_v2.py *)

Module img_pdf_v2.

Definition encode_image (image_bytes : list Byte.byte) : string :=
  String.string_of_list_ascii (base64.b64encode image_bytes).

(** [analyze_images], on the buffers [img.getvalue()] gives. *)
Definition analyze_images
    : option string → (PostRequest → PostOutcome) →
      list (list Byte.byte) → list ChatMessage → attempt Json :=
  analyze_images_with encode_image
    "Please upload at least one image or PDF."
    "You are an AI assistant analyzing images and PDFs, engaging in conversation about them."
    300.

Definition pages_map : gmap Z Z :=
  <[5 := 1]> (<[4 := 2]> (<[3 := 4]> (<[2 := 6]> (<[1 := 8]> ∅)))).

(** [pages_map.get(quality_level, 1)] *)
Definition get_pages_per_image (quality_level : Z) : Z :=
  default 1 (pages_map !! quality_level).

(** The test of line 49, on which the loop skips to the next group. *)
Definition skips (i pages_per_image total_pages : Z) : bool :=
  let end_idx := Z.min (i + pages_per_image) total_pages in
  let current_pages := end_idx - i in
  (current_pages <? pages_per_image) && (i + pages_per_image <? total_pages).

(** The groups the loop does not skip: [(i, end_idx)]. *)
Definition emitted_groups (total_pages pages_per_image : Z) : result (list (Z * Z)) :=
  starts ← py_range_step 0 total_pages pages_per_image;
  Ok ((λ i, (i, Z.min (i + pages_per_image) total_pages))
      <$> filter (λ i, skips i pages_per_image total_pages = false) (starts : list Z)).

Section with_pil.
Context `{PIL}.

Record NamedImage : Type := {
  ni_name : string;
  ni_data : Payload;
}.

(** [int(x * zoom)] with [zoom = 2]. *)
Definition int_times_zoom (x : float) : result Z :=
  match PyFloat.to_int (PyFloat.mul x (PyFloat.of_int 2)) with
  | Some k => Ok k
  | None => Raise (ValueError "cannot convert float to integer")
  end.

(** The body of the inner loop: page [page_idx] pasted as the [j]-th of
    its group, [int(rect.height * zoom)] below the one before, where [rect]
    is the rectangle of the first page of the group. *)
Definition paste_page (pdf_document : Document) (first_rect_height : float)
    (combined_image : Image) (jp : Z * Z) : result Image :=
  let '(j, page_idx) := jp in
  img ← rasterize_page pdf_document (PyFloat.of_int 2) page_idx;
  row_height ← int_times_zoom first_rect_height;
  Ok (paste combined_image img (0, j * row_height) None).

(** Lines 52-73: the composite of the pages [i .. end_idx - 1]. *)
Definition combine_group (pdf_document : Document) (i end_idx : Z) : result Image :=
  let current_pages := end_idx - i in
  first_page ← doc_getitem pdf_document i;
  combined_width ← int_times_zoom (rect_width first_page);
  combined_height ←
    match PyFloat.to_int
            (PyFloat.mul (PyFloat.mul (rect_height first_page) (PyFloat.of_int 2))
               (PyFloat.of_int current_pages)) with
    | Some k => Ok k
    | None => Raise (ValueError "cannot convert float to integer")
    end;
  combined_image ← Image_new "RGB" (combined_width, combined_height) white;
  for_each (py_enumerate (py_range i end_idx))
    (paste_page pdf_document (rect_height first_page)) combined_image.

(** The body of the outer loop. *)
Definition convert_group (pdf_file : UploadedFile) (pdf_document : Document)
    (pages_per_image total_pages : Z) (processed_images : list NamedImage) (i : Z)
    : result (list NamedImage) :=
  let end_idx := Z.min (i + pages_per_image) total_pages in
  if skips i pages_per_image total_pages then Ok processed_images
  else
    combined_image ← combine_group pdf_document i end_idx;
    let filename :=
      rsplit_dot_head (name pdf_file) +:+ "_pages_" +:+ pretty (i + 1) +:+ "-"
        +:+ pretty end_idx +:+ ".jpg" in
    Ok (processed_images
          ++ [{| ni_name := filename; ni_data := save_jpeg combined_image 95 |}]).

Definition convert_pdf_to_images_body (pdf_file : UploadedFile)
    (pdf_document : Document) (quality_level : Z) : result (list NamedImage) :=
  let total_pages := page_count pdf_document in
  let pages_per_image := get_pages_per_image quality_level in
  starts ← py_range_step 0 total_pages pages_per_image;
  for_each starts (convert_group pdf_file pdf_document pages_per_image total_pages) [].

Definition convert_pdf_to_images (pdf_file : UploadedFile) (quality_level : Z)
    : M (list NamedImage) :=
  try_except
    (pdf_document ← open_document pdf_file;
     r ← lift (convert_pdf_to_images_body pdf_file pdf_document quality_level);
     close_document pdf_file;;
     mret r)
    (λ e,
       emit (EvStError ("Error processing PDF: " +:+ str_exn e));;
       mret []).

(** *** The sidebar of [main] (lines 207-237) *)






End with_pil.

End img_pdf_v2.

(** ** src/testing/st_img_4o_pdf.py *)

Module st_img_4o_pdf.

Definition pages_map : gmap Z Z :=
  <[5 := 1]> (<[4 := 2]> (<[3 := 4]> (<[2 := 6]> (<[1 := 8]> ∅)))).

(** [pages_map.get(quality_level, 1)] *)
Definition get_pages_per_image (quality_level : Z) : Z :=
  default 1 (pages_map !! quality_level).

(** The test of line 55: only full sets of pages are processed. *)
Definition is_full (i pages_per_image total_pages : Z) : bool :=
  Z.min (i + pages_per_image) total_pages - i =? pages_per_image.

(** The groups that pass the test: [(i, end_idx)]. *)
Definition admitted_groups (total_pages pages_per_image : Z) : result (list (Z * Z)) :=
  starts ← py_range_step 0 total_pages pages_per_image;
  Ok ((λ i, (i, Z.min (i + pages_per_image) total_pages))
      <$> filter (λ i, is_full i pages_per_image total_pages = true) (starts : list Z)).

Section with_pil.
Context `{PIL}.

(** The body of the loop.  The module imports neither [Image] nor [io], so
    the body of a full group stops at [Image.new] with a [NameError]; the
    rest of it is not reached. *)
Definition convert_group (pdf_images : list Image) (pages_per_image total_pages : Z)
    (processed_images : list img_pdf_v2.NamedImage) (i : Z)
    : result (list img_pdf_v2.NamedImage) :=
  if is_full i pages_per_image total_pages then
    match pdf_images !! Z.to_nat i with
    | Some first =>
        let width := width first in
        let height := height first * pages_per_image in
        Raise (NameError "name 'Image' is not defined")
    | None => Raise (IndexError "list index out of range")
    end
  else Ok processed_images.

Definition convert_pdf_to_images (pdf_file : UploadedFile) (quality_level : Z)
    : result (list img_pdf_v2.NamedImage) :=
  pdf_images ← convert_from_path pdf_file;
  let pages_per_image := get_pages_per_image quality_level in
  let total_pages := Z.of_nat (length pdf_images) in
  starts ← py_range_step 0 total_pages pages_per_image;
  for_each starts (convert_group pdf_images pages_per_image total_pages) [].

End with_pil.

End st_img_4o_pdf.

(** ** A reference implementation of the Pillow operations

    Images as a mode, a size, the keys of [info] and a pixel function.  It
    shows that the behaviour assumed of Pillow is consistent and lets the
    pipelines run on concrete inputs. *)

Module RefImage.

Record t : Type := {
  r_mode : string;
  r_width : nat;
  r_height : nat;
  r_info : list string;
  r_pixel : Z → Z → list Z;
}.

Definition new (m : string) (size : Z * Z) (c : list Z) : result t :=
  let '(w, h) := size in
  if (0 <=? w) && (0 <=? h) then
    Ok {| r_mode := m; r_width := Z.to_nat w; r_height := Z.to_nat h;
          r_info := []; r_pixel := λ _ _, c |}
  else Raise (ValueError "Width and height must be >= 0").

Definition frombytes (m : string) (size : Z * Z) (data : list Z) : result t :=
  let '(w, h) := size in
  if (0 <=? w) && (0 <=? h) && (Z.of_nat (length data) =? 3 * w * h) then
    Ok {| r_mode := m; r_width := Z.to_nat w; r_height := Z.to_nat h;
          r_info := [];
          r_pixel := λ x y,
            let k := Z.to_nat (3 * (y * w + x)) in
            [nth k data 0; nth (k + 1) data 0; nth (k + 2) data 0] |}
  else Raise (ValueError "not enough image data").

Definition convert_pixel (dst : string) (p : list Z) : list Z :=
  if bool_decide (dst = "RGB") then
    match p with
    | [l] | [l; _] => [l; l; l]
    | r :: g :: b :: _ => [r; g; b]
    | [] => []
    end
  else if bool_decide (dst = "RGBA") then
    match p with
    | [l] => [l; l; l; 255]
    | [l; a] => [l; l; l; a]
    | [r; g; b] => [r; g; b; 255]
    | _ => p
    end
  else p.

Definition convert (img : t) (m : string) : t :=
  if bool_decide (m = r_mode img) then img
  else {| r_mode := m; r_width := r_width img; r_height := r_height img;
          r_info := r_info img;
          r_pixel := λ x y, convert_pixel m (r_pixel img x y) |}.

Definition split_last (img : t) : t :=
  {| r_mode := "L"; r_width := r_width img; r_height := r_height img;
     r_info := r_info img;
     r_pixel := λ x y, match last (r_pixel img x y) with Some a => [a] | None => [] end |}.

Definition blend (a : Z) (src dst : list Z) : list Z :=
  zip_with (λ s d, (s * a + d * (255 - a)) `div` 255) src dst.

Definition paste (c s : t) (box : Z * Z) (mk : option t) : t :=
  let '(ox, oy) := box in
  {| r_mode := r_mode c; r_width := r_width c; r_height := r_height c;
     r_info := r_info c;
     r_pixel := λ x y,
       if in_box ox oy (Z.of_nat (r_width s)) (Z.of_nat (r_height s)) x y then
         let sp := r_pixel (convert s (r_mode c)) (x - ox) (y - oy) in
         match mk with
         | None => sp
         | Some m =>
             match r_pixel m (x - ox) (y - oy) with
             | [a] => if a =? 255 then sp
                      else if a =? 0 then r_pixel c x y
                      else blend a sp (r_pixel c x y)
             | _ => r_pixel c x y
             end
         end
       else r_pixel c x y |}.

Definition resize (img : t) (size : Z * Z) : result t :=
  let '(w, h) := size in
  if (w =? Z.of_nat (r_width img)) && (h =? Z.of_nat (r_height img)) then Ok img
  else if (1 <=? w) && (1 <=? h) then
    Ok {| r_mode := r_mode img; r_width := Z.to_nat w; r_height := Z.to_nat h;
          r_info := r_info img;
          r_pixel := λ x y,
            r_pixel img (x * Z.of_nat (r_width img) `div` w)
                        (y * Z.of_nat (r_height img) `div` h) |}
  else Raise (ValueError "height and width must be > 0").

End RefImage.

(** The reference implementation meets the interface. *)
#[global, refine] Instance ref_PIL : PIL := {|
  Image := RefImage.t;
  mode := RefImage.r_mode;
  width := λ img, Z.of_nat (RefImage.r_width img);
  height := λ img, Z.of_nat (RefImage.r_height img);
  has_info := λ img key, bool_decide (key ∈ RefImage.r_info img);
  getpixel := λ img xy, RefImage.r_pixel img xy.1 xy.2;
  Image_new := RefImage.new;
  Image_frombytes := RefImage.frombytes;
  convert := RefImage.convert;
  split_last := RefImage.split_last;
  paste := RefImage.paste;
  resize := RefImage.resize;
|}.
Proof.
  - abstract (intros; lia).
  - abstract (intros; lia).
  - abstract
      (intros m w h c Hw Hh; unfold RefImage.new;
      rewrite (proj2 (Z.leb_le 0 w) Hw), (proj2 (Z.leb_le 0 h) Hh); simpl;
      eexists; split; [reflexivity|]; simpl; repeat split; auto; lia).
  - abstract
      (intros m w h c img; unfold RefImage.new;
      destruct (0 <=? w) eqn:Ew; destruct (0 <=? h) eqn:Eh; simpl; try discriminate;
      apply Z.leb_le in Ew, Eh; intros [= <-]; simpl; repeat split; lia).
  - abstract (intros img m; unfold RefImage.convert; case_bool_decide; simpl; congruence).
  - abstract (intros img m; unfold RefImage.convert; case_bool_decide; reflexivity).
  - abstract (intros img m; unfold RefImage.convert; case_bool_decide; reflexivity).
  - abstract (intros img; unfold RefImage.convert; case_bool_decide; congruence).
  - abstract
      (intros img x y r g b a Hm Hp; simpl in *; unfold RefImage.convert; rewrite Hm;
      case_bool_decide; [discriminate|]; simpl; rewrite Hp; reflexivity).
  - abstract (reflexivity).
  - abstract (reflexivity).
  - abstract (intros img x y a Hl; simpl in *; rewrite Hl; reflexivity).
  - abstract (intros c s [ox oy] mk; reflexivity).
  - abstract (intros c s [ox oy] mk; reflexivity).
  - abstract (intros c s [ox oy] mk; reflexivity).
  - abstract (intros c s ox oy x y _ _; reflexivity).
  - abstract
      (intros c s mk ox oy x y _ _ _ _ Hb Hm; simpl in Hm |- *;
      rewrite Hb, Hm; reflexivity).
  - abstract
      (intros c s mk ox oy x y _ _ _ _ Hb Hm; simpl in Hm |- *;
      rewrite Hb, Hm; reflexivity).
  - abstract
      (intros img w h Hw Hh; unfold RefImage.resize;
      destruct ((w =? Z.of_nat (RefImage.r_width img))
                && (h =? Z.of_nat (RefImage.r_height img))) eqn:Esame;
      [apply andb_true_iff in Esame as [Ew Eh]; apply Z.eqb_eq in Ew, Eh;
       exists img; repeat split; done
      |rewrite (proj2 (Z.leb_le 1 w) Hw), (proj2 (Z.leb_le 1 h) Hh); simpl;
       eexists; split; [reflexivity|]; simpl; repeat split; lia]).
  - abstract
      (intros img w h Hwh Hne; unfold RefImage.resize;
      destruct ((w =? Z.of_nat (RefImage.r_width img))
                && (h =? Z.of_nat (RefImage.r_height img))) eqn:Esame;
      [apply andb_true_iff in Esame as [Ew Eh]; apply Z.eqb_eq in Ew, Eh;
       exfalso; apply Hne; congruence
      |destruct (1 <=? w) eqn:Ew; destruct (1 <=? h) eqn:Eh; simpl; eauto;
       apply Z.leb_le in Ew, Eh; lia]).
Defined.

(** ** Sample inputs *)

Definition blank_pixmap (w h : Z) : Pixmap :=
  {| pix_width := w; pix_height := h;
     pix_samples := replicate (Z.to_nat (3 * w * h)) 255 |}.

(** A blank page of [w] by [h] points; at zoom [z] its pixmap measures
    [int(w * z)] by [int(h * z)]. *)
Definition sample_page (w h : Z) : Page :=
  {| rect_width := PyFloat.of_int w;
     rect_height := PyFloat.of_int h;
     get_pixmap := λ z,
       match PyFloat.to_int (PyFloat.mul (PyFloat.of_int w) z),
             PyFloat.to_int (PyFloat.mul (PyFloat.of_int h) z) with
       | Some pw, Some ph => Ok (blank_pixmap pw ph)
       | _, _ => Raise (LibError "cannot render page")
       end |}.

(** A page whose content stream cannot be rendered. *)
Definition broken_page : Page :=
  {| rect_width := PyFloat.of_int 10;
     rect_height := PyFloat.of_int 10;
     get_pixmap := λ _, Raise (LibError "cannot render page") |}.

Definition sample_image (m : string) (w h : nat) (pixel : Z → Z → list Z) : RefImage.t :=
  {| RefImage.r_mode := m; RefImage.r_width := w; RefImage.r_height := h;
     RefImage.r_info := []; RefImage.r_pixel := pixel |}.

Definition pdf_upload (file_name : string) (pages : list Page) : UploadedFile :=
  {| name := file_name;
     type := "application/pdf";
     fitz_open := Ok {| doc_pages := pages |};
     Image_open := Raise (LibError "cannot identify image file");
     convert_from_path :=
       Ok ((λ _, sample_image "RGB" 20 20 (λ _ _, white)) <$> pages) |}.

Definition image_upload (file_name : string) (img : @Image ref_PIL) : UploadedFile :=
  {| name := file_name;
     type := "image/png";
     fitz_open := Raise (LibError "cannot open broken document");
     Image_open := Ok img;
     convert_from_path := Raise (LibError "Unable to get page count") |}.

Definition ten_pages : UploadedFile := pdf_upload "report.pdf" (replicate 10 (sample_page 10 10)).

Definition three_pages : UploadedFile := pdf_upload "scan.pdf" (replicate 3 (sample_page 10 10)).

(** A document whose third page cannot be rendered. *)
Definition third_page_broken : UploadedFile :=
  pdf_upload "broken.pdf" [sample_page 10 10; sample_page 10 10; broken_page; sample_page 10 10].

(** Two pages of different sizes. *)
Definition mixed_pages : Document :=
  {| doc_pages := [sample_page 10 10; sample_page 20 30] |}.

(** A 90 by 10 photo, and a two-pixel RGBA image whose left pixel is
    transparent and whose right pixel is opaque. *)
Definition photo : @Image ref_PIL := sample_image "RGB" 90 10 (λ _ _, [12; 34; 56]).

Definition sticker : @Image ref_PIL :=
  sample_image "RGBA" 2 1 (λ x _, if x =? 0 then [10; 20; 30; 0] else [40; 50; 60; 255]).

Definition dot : @Image ref_PIL := sample_image "RGB" 1 1 (λ _ _, [0; 0; 0]).

(** A file with two dots in its name. *)
Definition dotted_name : UploadedFile :=
  pdf_upload "report.final.pdf" (replicate 3 (sample_page 10 10)).

(** ** Definitions for the statements *)

Section statements.
Context `{PIL}.

(** The tables as the specification lists them, highest level first:
    zoom 1.0/0.7/0.45/0.3/0.2 and pages per group 1/2/4/6/8. *)
Definition spec_zoom_table (q : QualityLevel) : float :=
  match q with
  | VeryHigh => PyFloat.literal 1 1
  | High => PyFloat.literal 7 10
  | Medium => PyFloat.literal 45 100
  | Low => PyFloat.literal 3 10
  | VeryLow => PyFloat.literal 2 10
  end.

Definition spec_pages_table (q : QualityLevel) : Z :=
  match q with
  | VeryHigh => 1
  | High => 2
  | Medium => 4
  | Low => 6
  | VeryLow => 8
  end.

Definition float_zero : float := S754_zero false.

(** The zoom table of src/new_test/fix_rgba_filedata_error.py. *)
Definition fix_rgba_zoom_table (q : QualityLevel) : float :=
  match q with
  | VeryHigh => PyFloat.literal 1 1
  | High => PyFloat.literal 5 10
  | Medium => PyFloat.literal 33 100
  | Low => PyFloat.literal 25 100
  | VeryLow => PyFloat.literal 1 6
  end.

(** The sources that carry an alpha or transparency channel, in the
    specification's words: RGBA, luminance with alpha, or a palette with
    transparency. *)
Definition spec_has_alpha (img : Image) : Prop :=
  mode img = "RGBA" ∨ mode img = "LA" ∨
  (mode img = "P" ∧ has_info img "transparency" = true).

(** The image pasted in the alpha branch: a palette image is first
    converted to RGBA. *)
Definition alpha_source (img : Image) : Image :=
  if bool_decide (mode img = "P") then convert img "RGBA" else img.

(** The sum of a list of integers; [sum(...)] adds from the left. *)
Definition sumZ (l : list Z) : Z := foldr Z.add 0 l.

(** Where the [k]-th image of a group lands on a canvas of width
    [max_width]. *)
Definition x_offset_of (max_width : Z) (img : Image) : Z :=
  (max_width - width img) `div` 2.

Definition y_offset_of (images : list Image) (k : nat) : Z :=
  sumZ (height <$> take k images).

(** The span of pages of the group [group_idx]. *)
Definition group_span (pages_per_image total_pages group_idx : Z) : Z * Z :=
  (group_idx * pages_per_image,
   Z.min (group_idx * pages_per_image + pages_per_image) total_pages).

(** The document handles a trace leaves open. *)
Fixpoint remove_first (x : string) (l : list string) : list string :=
  match l with
  | [] => []
  | y :: l' => if bool_decide (x = y) then l' else y :: remove_first x l'
  end.

Definition open_handles (t : list event) : list string :=
  foldl (λ opened ev,
           match ev with
           | EvOpen n => opened ++ [n]
           | EvClose n => remove_first n opened
           | EvStError _ => opened
           end) [] t.

(** The errors a trace shows. *)
Definition st_errors (t : list event) : list string :=
  omap (λ ev, match ev with EvStError msg => Some msg | _ => None end) t.

(** The caption of the group of pages [start .. end - 1], in the
    specification's words. *)
Definition spec_caption (document_name : string) (start end_ : Z) : string :=
  if bool_decide (end_ - start = 1)
  then document_name +:+ " - Page " +:+ pretty (start + 1)
  else document_name +:+ " - Pages " +:+ pretty (start + 1) +:+ "-" +:+ pretty end_.

(** What a run of [pdf_to_images] leaves behind, by cases on where it
    fails. *)
Definition pdf_error_message (f : UploadedFile) (e : exn) : string :=
  "Error processing PDF " +:+ name f +:+ ": " +:+ str_exn e.

(** What one file adds to the session and to the trace when it is processed
    on its own. *)
Definition empty_session : anthropic_ocr.Session :=
  {| anthropic_ocr.processed_images := []; anthropic_ocr.image_captions := [] |}.

Definition alone (quality pdf_quality : string) (file : UploadedFile)
    : M anthropic_ocr.Session :=
  anthropic_ocr.process_upload quality pdf_quality empty_session file.

Definition alone_trace (quality pdf_quality : string) (file : UploadedFile)
    : list event :=
  trace (alone quality pdf_quality file).

Definition alone_session (quality pdf_quality : string) (file : UploadedFile)
    : anthropic_ocr.Session :=
  match outcome (alone quality pdf_quality file) with
  | Ok s => s
  | Raise _ => empty_session
  end.

Definition session_app (s1 s2 : anthropic_ocr.Session) : anthropic_ocr.Session :=
  {| anthropic_ocr.processed_images :=
       anthropic_ocr.processed_images s1 ++ anthropic_ocr.processed_images s2;
     anthropic_ocr.image_captions :=
       anthropic_ocr.image_captions s1 ++ anthropic_ocr.image_captions s2 |}.

(** One group of src/testing/img_pdf_v2.py: its composite under its file
    name. *)
Definition v2_named_group (f : UploadedFile) (doc : Document) (p total i : Z)
    : result img_pdf_v2.NamedImage :=
  c ← img_pdf_v2.combine_group doc i (Z.min (i + p) total);
  Ok {| img_pdf_v2.ni_name :=
          rsplit_dot_head (name f) +:+ "_pages_" +:+ pretty (i + 1) +:+ "-"
            +:+ pretty (Z.min (i + p) total) +:+ ".jpg";
        img_pdf_v2.ni_data := save_jpeg c 95 |}.

(** [int(rect.height * zoom * current_pages)] with [zoom = 2]. *)
Definition v2_combined_height (first_page : Page) (current_pages : Z) : option Z :=
  PyFloat.to_int
    (PyFloat.mul (PyFloat.mul (rect_height first_page) (PyFloat.of_int 2))
       (PyFloat.of_int current_pages)).

(** Pasting the pages of a group one below the other, [row_height] apart. *)
Definition v2_paste_rows (row_height : Z) (canvas : Image)
    (rows : list ((Z * Z) * Image)) : Image :=
  foldl (λ c row, paste c row.2 (0, row.1.1 * row_height) None) canvas rows.

(** A document fails to convert when its bytes cannot be opened or when one
    of its pages cannot be rasterized. *)
Definition fails_to_convert (f : UploadedFile) (quality pdf_quality : string) : Prop :=
  (∃ e, fitz_open f = Raise e) ∨
  (∃ doc z p k e,
     fitz_open f = Ok doc ∧
     anthropic_ocr.get_zoom_factor quality = Ok z ∧
     anthropic_ocr.get_pages_per_image pdf_quality = Ok p ∧
     0 ≤ k < page_count doc ∧ rasterize_page doc z k = Raise e).

(** What CPython 3.11 prints for [repr(chr(n))], [n] from 0 to 255, as
    character codes. *)
Definition interpreter_repr : list (list nat) :=
  ([[39; 92; 120; 48; 48; 39]; [39; 92; 120; 48; 49; 39]; [39; 92; 120; 48;
   50; 39]; [39; 92; 120; 48; 51; 39]; [39; 92; 120; 48; 52; 39]; [39; 92;
   120; 48; 53; 39]; [39; 92; 120; 48; 54; 39]; [39; 92; 120; 48; 55; 39];
   [39; 92; 120; 48; 56; 39]; [39; 92; 116; 39]; [39; 92; 110; 39]; [39; 92;
   120; 48; 98; 39]; [39; 92; 120; 48; 99; 39]; [39; 92; 114; 39]; [39; 92;
   120; 48; 101; 39]; [39; 92; 120; 48; 102; 39]; [39; 92; 120; 49; 48; 39];
   [39; 92; 120; 49; 49; 39]; [39; 92; 120; 49; 50; 39]; [39; 92; 120; 49;
   51; 39]; [39; 92; 120; 49; 52; 39]; [39; 92; 120; 49; 53; 39]; [39; 92;
   120; 49; 54; 39]; [39; 92; 120; 49; 55; 39]; [39; 92; 120; 49; 56; 39];
   [39; 92; 120; 49; 57; 39]; [39; 92; 120; 49; 97; 39]; [39; 92; 120; 49;
   98; 39]; [39; 92; 120; 49; 99; 39]; [39; 92; 120; 49; 100; 39]; [39; 92;
   120; 49; 101; 39]; [39; 92; 120; 49; 102; 39]; [39; 32; 39]; [39; 33; 39];
   [39; 34; 39]; [39; 35; 39]; [39; 36; 39]; [39; 37; 39]; [39; 38; 39]; [34;
   39; 34]; [39; 40; 39]; [39; 41; 39]; [39; 42; 39]; [39; 43; 39]; [39; 44;
   39]; [39; 45; 39]; [39; 46; 39]; [39; 47; 39]; [39; 48; 39]; [39; 49; 39];
   [39; 50; 39]; [39; 51; 39]; [39; 52; 39]; [39; 53; 39]; [39; 54; 39]; [39;
   55; 39]; [39; 56; 39]; [39; 57; 39]; [39; 58; 39]; [39; 59; 39]; [39; 60;
   39]; [39; 61; 39]; [39; 62; 39]; [39; 63; 39]; [39; 64; 39]; [39; 65; 39];
   [39; 66; 39]; [39; 67; 39]; [39; 68; 39]; [39; 69; 39]; [39; 70; 39]; [39;
   71; 39]; [39; 72; 39]; [39; 73; 39]; [39; 74; 39]; [39; 75; 39]; [39; 76;
   39]; [39; 77; 39]; [39; 78; 39]; [39; 79; 39]; [39; 80; 39]; [39; 81; 39];
   [39; 82; 39]; [39; 83; 39]; [39; 84; 39]; [39; 85; 39]; [39; 86; 39]; [39;
   87; 39]; [39; 88; 39]; [39; 89; 39]; [39; 90; 39]; [39; 91; 39]; [39; 92;
   92; 39]; [39; 93; 39]; [39; 94; 39]; [39; 95; 39]; [39; 96; 39]; [39; 97;
   39]; [39; 98; 39]; [39; 99; 39]; [39; 100; 39]; [39; 101; 39]; [39; 102;
   39]; [39; 103; 39]; [39; 104; 39]; [39; 105; 39]; [39; 106; 39]; [39; 107;
   39]; [39; 108; 39]; [39; 109; 39]; [39; 110; 39]; [39; 111; 39]; [39; 112;
   39]; [39; 113; 39]; [39; 114; 39]; [39; 115; 39]; [39; 116; 39]; [39; 117;
   39]; [39; 118; 39]; [39; 119; 39]; [39; 120; 39]; [39; 121; 39]; [39; 122;
   39]; [39; 123; 39]; [39; 124; 39]; [39; 125; 39]; [39; 126; 39]; [39; 92;
   120; 55; 102; 39]; [39; 92; 120; 56; 48; 39]; [39; 92; 120; 56; 49; 39];
   [39; 92; 120; 56; 50; 39]; [39; 92; 120; 56; 51; 39]; [39; 92; 120; 56;
   52; 39]; [39; 92; 120; 56; 53; 39]; [39; 92; 120; 56; 54; 39]; [39; 92;
   120; 56; 55; 39]; [39; 92; 120; 56; 56; 39]; [39; 92; 120; 56; 57; 39];
   [39; 92; 120; 56; 97; 39]; [39; 92; 120; 56; 98; 39]; [39; 92; 120; 56;
   99; 39]; [39; 92; 120; 56; 100; 39]; [39; 92; 120; 56; 101; 39]; [39; 92;
   120; 56; 102; 39]; [39; 92; 120; 57; 48; 39]; [39; 92; 120; 57; 49; 39];
   [39; 92; 120; 57; 50; 39]; [39; 92; 120; 57; 51; 39]; [39; 92; 120; 57;
   52; 39]; [39; 92; 120; 57; 53; 39]; [39; 92; 120; 57; 54; 39]; [39; 92;
   120; 57; 55; 39]; [39; 92; 120; 57; 56; 39]; [39; 92; 120; 57; 57; 39];
   [39; 92; 120; 57; 97; 39]; [39; 92; 120; 57; 98; 39]; [39; 92; 120; 57;
   99; 39]; [39; 92; 120; 57; 100; 39]; [39; 92; 120; 57; 101; 39]; [39; 92;
   120; 57; 102; 39]; [39; 92; 120; 97; 48; 39]; [39; 161; 39]; [39; 162;
   39]; [39; 163; 39]; [39; 164; 39]; [39; 165; 39]; [39; 166; 39]; [39; 167;
   39]; [39; 168; 39]; [39; 169; 39]; [39; 170; 39]; [39; 171; 39]; [39; 172;
   39]; [39; 92; 120; 97; 100; 39]; [39; 174; 39]; [39; 175; 39]; [39; 176;
   39]; [39; 177; 39]; [39; 178; 39]; [39; 179; 39]; [39; 180; 39]; [39; 181;
   39]; [39; 182; 39]; [39; 183; 39]; [39; 184; 39]; [39; 185; 39]; [39; 186;
   39]; [39; 187; 39]; [39; 188; 39]; [39; 189; 39]; [39; 190; 39]; [39; 191;
   39]; [39; 192; 39]; [39; 193; 39]; [39; 194; 39]; [39; 195; 39]; [39; 196;
   39]; [39; 197; 39]; [39; 198; 39]; [39; 199; 39]; [39; 200; 39]; [39; 201;
   39]; [39; 202; 39]; [39; 203; 39]; [39; 204; 39]; [39; 205; 39]; [39; 206;
   39]; [39; 207; 39]; [39; 208; 39]; [39; 209; 39]; [39; 210; 39]; [39; 211;
   39]; [39; 212; 39]; [39; 213; 39]; [39; 214; 39]; [39; 215; 39]; [39; 216;
   39]; [39; 217; 39]; [39; 218; 39]; [39; 219; 39]; [39; 220; 39]; [39; 221;
   39]; [39; 222; 39]; [39; 223; 39]; [39; 224; 39]; [39; 225; 39]; [39; 226;
   39]; [39; 227; 39]; [39; 228; 39]; [39; 229; 39]; [39; 230; 39]; [39; 231;
   39]; [39; 232; 39]; [39; 233; 39]; [39; 234; 39]; [39; 235; 39]; [39; 236;
   39]; [39; 237; 39]; [39; 238; 39]; [39; 239; 39]; [39; 240; 39]; [39; 241;
   39]; [39; 242; 39]; [39; 243; 39]; [39; 244; 39]; [39; 245; 39]; [39; 246;
   39]; [39; 247; 39]; [39; 248; 39]; [39; 249; 39]; [39; 250; 39]; [39; 251;
   39]; [39; 252; 39]; [39; 253; 39]; [39; 254; 39]; [39; 255; 39]])%nat.

(** A session in which every image has its caption. *)
Definition balanced (s : anthropic_ocr.Session) : Prop :=
  length (anthropic_ocr.processed_images s) = length (anthropic_ocr.image_captions s).

(** The shortest side, in pixels, that [int(side * zoom)] does not take to
    0 at a level: with the zoom table of src/anthropic_ocr.py, and with that
    of src/new_test/fix_rgba_filedata_error.py. *)
Definition smallest_side (q : QualityLevel) : Z :=
  match q with
  | VeryHigh => 1
  | High => 2
  | Medium => 3
  | Low => 4
  | VeryLow => 5
  end.

Definition fix_rgba_smallest_side (q : QualityLevel) : Z :=
  match q with
  | VeryHigh => 1
  | High => 2
  | Medium => 4
  | Low => 4
  | VeryLow => 6
  end.



(** The bytes [encode_image] encodes. *)
Definition raw_bytes (image_bytes : ImageBytes) : list Byte.byte :=
  match image_bytes with
  | BytesIO value => value
  | Bytes b => b
  end.

(** A chat history in which every question of the user is followed by one
    message of the assistant. *)
Definition paired (history : list ChatMessage) : Prop :=
  ∃ turns : list (string * string),
    history = concat ((λ turn : string * string,
                         [{| msg_role := "user"; msg_content := turn.1 |};
                          {| msg_role := "assistant"; msg_content := turn.2 |}])
                      <$> turns).

(** What one run of [main] of src/anthropic_ocr.py is given: the API key of
    the environment, the positions of the sliders, the uploaded files, the
    text of the chat input, whether the button was clicked, and what the API
    answers during the run. *)
Record Run : Type := {
  run_api_key : option string;
  run_quality : string;
  run_pdf_quality : string;
  run_uploaded_files : list UploadedFile;
  run_prompt : option string;
  run_clear_clicked : bool;
  run_create : CreateParams → CreateOutcome;
}.

Definition run_main (jpeg_bytes : Payload → list Byte.byte)
    (state : anthropic_ocr.AppState) (r : Run) : M anthropic_ocr.AppState :=
  anthropic_ocr.main jpeg_bytes (run_create r) (run_api_key r) (run_quality r)
    (run_pdf_quality r) (run_uploaded_files r) (run_prompt r) (run_clear_clicked r)
    state.

(** The session of a new visit, after [initialize_session_state]. *)
Definition new_visit : anthropic_ocr.AppState :=
  {| anthropic_ocr.messages := [];
     anthropic_ocr.session := empty_session |}.

End statements.

(** ** Sample inputs of the chat *)

(** A question of the user, the bytes taken for every JPEG buffer, an API
    that answers without content, an endpoint that answers without choices,
    and the run of a first visit: a photo is uploaded and a question is
    asked. *)
Definition question : ChatMessage :=
  {| msg_role := "user"; msg_content := "What is on page 2?" |}.

Definition sample_jpeg_bytes : @Payload ref_PIL → list Byte.byte :=
  λ _, [Byte.x4d; Byte.x61].

Definition empty_answer : CreateParams → CreateOutcome := λ _, Created [].

Definition no_choices : PostRequest → PostOutcome :=
  λ _, Responded {| http_error := None;
                    json := inr (JObj [("choices", JArr [])]) |}.

Definition first_run : @Run ref_PIL :=
  {| run_api_key := Some "key";
     run_quality := "High";
     run_pdf_quality := "High";
     run_uploaded_files := [image_upload "photo.png" photo];
     run_prompt := Some "What is on page 2?";
     run_clear_clicked := false;
     run_create := λ _, Created [ResponseText "A photo."] |}.

(** * Properties *)

(** ** Quality policy *)

(** The rank of a level is its position among the options of the sliders. *)
Lemma slider_options_rank (q : QualityLevel) :
  slider_options !! level_rank q = Some (level_name q).
Proof. destruct q; reflexivity. Qed.

Lemma zoom_table_bits :
  spec_zoom_table <$> [VeryHigh; High; Medium; Low; VeryLow] =
  [S754_finite false 4503599627370496 (-52);
   S754_finite false 6305039478318694 (-53);
   S754_finite false 8106479329266893 (-54);
   S754_finite false 5404319552844595 (-54);
   S754_finite false 7205759403792794 (-55)].
Proof. vm_compute. reflexivity. Qed.

Lemma get_zoom_factor_level q :
  anthropic_ocr.get_zoom_factor (level_name q) = Ok (spec_zoom_table q).
Proof. destruct q; vm_compute; reflexivity. Qed.

Lemma get_pages_per_image_level q :
  anthropic_ocr.get_pages_per_image (level_name q) = Ok (spec_pages_table q).
Proof. destruct q; vm_compute; reflexivity. Qed.

Lemma fix_rgba_get_zoom_factor_level q :
  fix_rgba_filedata_error.get_zoom_factor (level_name q) = Ok (fix_rgba_zoom_table q).
Proof. destruct q; vm_compute; reflexivity. Qed.

Lemma fix_rgba_zoom_table_bits :
  fix_rgba_zoom_table <$> [VeryHigh; High; Medium; Low; VeryLow] =
  [S754_finite false 4503599627370496 (-52);
   S754_finite false 4503599627370496 (-53);
   S754_finite false 5944751508129055 (-54);
   S754_finite false 4503599627370496 (-54);
   S754_finite false 6004799503160661 (-55)].
Proof. vm_compute. reflexivity. Qed.

(** C4, table by table: for each of the five quality levels
    [get_zoom_factor] and [get_pages_per_image] of src/anthropic_ocr.py are
    defined and positive and take the values of the tables
    1.0/0.7/0.45/0.3/0.2 and 1/2/4/6/8; a higher level has a zoom factor at
    least as large and at most as many pages per image as a lower one.
    [get_zoom_factor] of src/new_test/fix_rgba_filedata_error.py is defined,
    positive and monotone as well, on a table of its own, 1.0/0.5/0.33/0.25/(1/6):
    the same factor at "Very High" and a smaller one at every other level. *)
Theorem quality_policy_monotone (q1 q2 : QualityLevel) :
  (level_rank q1 ≤ level_rank q2)%nat →
  ∃ z1 z2 p1 p2 z1' z2',
    anthropic_ocr.get_zoom_factor (level_name q1) = Ok z1 ∧
    anthropic_ocr.get_zoom_factor (level_name q2) = Ok z2 ∧
    anthropic_ocr.get_pages_per_image (level_name q1) = Ok p1 ∧
    anthropic_ocr.get_pages_per_image (level_name q2) = Ok p2 ∧
    z1 = spec_zoom_table q1 ∧ z2 = spec_zoom_table q2 ∧
    p1 = spec_pages_table q1 ∧ p2 = spec_pages_table q2 ∧
    PyFloat.ltb float_zero z1 = true ∧ PyFloat.ltb float_zero z2 = true ∧
    0 < p1 ∧ 0 < p2 ∧
    PyFloat.leb z1 z2 = true ∧ p2 ≤ p1 ∧
    fix_rgba_filedata_error.get_zoom_factor (level_name q1) = Ok z1' ∧
    fix_rgba_filedata_error.get_zoom_factor (level_name q2) = Ok z2' ∧
    z1' = fix_rgba_zoom_table q1 ∧ z2' = fix_rgba_zoom_table q2 ∧
    PyFloat.ltb float_zero z1' = true ∧ PyFloat.ltb float_zero z2' = true ∧
    PyFloat.leb z1' z2' = true ∧
    (q1 = VeryHigh → z1' = z1) ∧
    (q1 ≠ VeryHigh → PyFloat.ltb z1' z1 = true).
Proof.
  intros Hle.
  exists (spec_zoom_table q1), (spec_zoom_table q2),
    (spec_pages_table q1), (spec_pages_table q2),
    (fix_rgba_zoom_table q1), (fix_rgba_zoom_table q2).
  rewrite !get_zoom_factor_level, !get_pages_per_image_level,
    !fix_rgba_get_zoom_factor_level.
  destruct q1, q2; simpl in Hle; try lia;
    repeat split; try reflexivity; try (vm_compute; congruence);
    try (intros [=]); try (intros Hq; by (reflexivity || destruct Hq)).
Qed.

Lemma quality_policy_monotone_witness :
  ∃ z1 z2 p1 p2 z1' z2',
    anthropic_ocr.get_zoom_factor "Low" = Ok z1 ∧
    anthropic_ocr.get_zoom_factor "High" = Ok z2 ∧
    anthropic_ocr.get_pages_per_image "Low" = Ok p1 ∧
    anthropic_ocr.get_pages_per_image "High" = Ok p2 ∧
    z1 = spec_zoom_table Low ∧ z2 = spec_zoom_table High ∧
    p1 = spec_pages_table Low ∧ p2 = spec_pages_table High ∧
    PyFloat.ltb float_zero z1 = true ∧ PyFloat.ltb float_zero z2 = true ∧
    0 < p1 ∧ 0 < p2 ∧
    PyFloat.leb z1 z2 = true ∧ p2 ≤ p1 ∧
    fix_rgba_filedata_error.get_zoom_factor "Low" = Ok z1' ∧
    fix_rgba_filedata_error.get_zoom_factor "High" = Ok z2' ∧
    z1' = fix_rgba_zoom_table Low ∧ z2' = fix_rgba_zoom_table High ∧
    PyFloat.ltb float_zero z1' = true ∧ PyFloat.ltb float_zero z2' = true ∧
    PyFloat.leb z1' z2' = true ∧
    (Low = VeryHigh → z1' = z1) ∧
    (Low ≠ VeryHigh → PyFloat.ltb z1' z1 = true).
Proof. apply (quality_policy_monotone Low High). simpl. lia. Defined.

(** At "High" the zoom factor of src/new_test/fix_rgba_filedata_error.py is
    0.5, not the 0.7 of the table 1.0/0.7/0.45/0.3/0.2. *)
Lemma quality_policy_monotone_counterexample :
  fix_rgba_filedata_error.get_zoom_factor "High" = Ok (PyFloat.literal 5 10) ∧
  spec_zoom_table High = PyFloat.literal 7 10 ∧
  PyFloat.literal 5 10 ≠ PyFloat.literal 7 10 ∧
  fix_rgba_filedata_error.get_zoom_factor "High" ≠ Ok (spec_zoom_table High).
Proof.
  split; [reflexivity|]. split; [reflexivity|].
  split; vm_compute; congruence.
Qed.

(** ** The integer-tier lookup *)

Lemma pages_map_outside (q : Z) :
  ¬ (1 ≤ q ≤ 5) → img_pdf_v2.pages_map !! q = None.
Proof.
  intros Hq. unfold img_pdf_v2.pages_map.
  rewrite !lookup_insert_ne by lia. apply lookup_empty.
Qed.

(** C10: [get_pages_per_image] of src/testing/img_pdf_v2.py and of
    src/testing/st_img_4o_pdf.py returns 1, and raises nothing, for every
    integer quality level outside 1..5. *)
Theorem get_pages_per_image_default (quality_level : Z) :
  ¬ (1 ≤ quality_level ≤ 5) →
  img_pdf_v2.get_pages_per_image quality_level = 1 ∧
  st_img_4o_pdf.get_pages_per_image quality_level = 1.
Proof.
  intros Hq. unfold img_pdf_v2.get_pages_per_image, st_img_4o_pdf.get_pages_per_image.
  change st_img_4o_pdf.pages_map with img_pdf_v2.pages_map.
  rewrite (pages_map_outside _ Hq). split; reflexivity.
Qed.

Lemma get_pages_per_image_default_witness :
  img_pdf_v2.get_pages_per_image 9 = 1 ∧ st_img_4o_pdf.get_pages_per_image 9 = 1.
Proof. apply (get_pages_per_image_default 9). lia. Defined.

(** ** Colour normalization *)

Section color.
Context `{PIL}.

Lemma has_alpha_spec (img : Image) :
  anthropic_ocr.has_alpha img = true ↔ spec_has_alpha img.
Proof.
  unfold anthropic_ocr.has_alpha, spec_has_alpha.
  rewrite !orb_true_iff, andb_true_iff, !bool_decide_eq_true. tauto.
Qed.

Lemma has_alpha_rgb (img : Image) :
  mode img = "RGB" → anthropic_ocr.has_alpha img = false.
Proof.
  intros Hm. apply not_true_is_false. rewrite has_alpha_spec.
  unfold spec_has_alpha. rewrite Hm. intros [?|[?|[? _]]]; discriminate.
Qed.

Lemma alpha_source_size (img : Image) :
  width (alpha_source img) = width img ∧ height (alpha_source img) = height img.
Proof.
  unfold alpha_source. case_bool_decide; [|done].
  by rewrite convert_width, convert_height.
Qed.

Lemma to_rgb_ok (img : Image) :
  ∃ out, anthropic_ocr.to_rgb img = Ok out ∧
    mode out = "RGB" ∧ width out = width img ∧ height out = height img.
Proof.
  unfold anthropic_ocr.to_rgb. destruct (anthropic_ocr.has_alpha img).
  - destruct (Image_new_ok "RGB" (width img) (height img) white)
      as (bg & Hnew & Hbm & Hbw & Hbh & _);
      [apply width_nonneg | apply height_nonneg |].
    rewrite Hnew. eexists; split; [reflexivity|].
    by rewrite paste_mode, paste_width, paste_height.
  - case_bool_decide as Hm.
    + eexists; split; [reflexivity|].
      by rewrite convert_mode, convert_width, convert_height.
    + eexists; split; [reflexivity|]. done.
Qed.

(** The pixels of the alpha branch: where the mask is 0 the white canvas
    shows, where it is 255 the pasted image does. *)
Lemma to_rgb_alpha_pixels (img background : Image) :
  Image_new "RGB" (width img, height img) white = Ok background →
  let out := paste background (alpha_source img) (0, 0)
               (Some (split_last (alpha_source img))) in
  (∀ x y, 0 ≤ x < width img → 0 ≤ y < height img →
     last (getpixel (alpha_source img) (x, y)) = Some 0 →
     getpixel out (x, y) = white) ∧
  (∀ x y, 0 ≤ x < width img → 0 ≤ y < height img →
     last (getpixel (alpha_source img) (x, y)) = Some 255 →
     getpixel out (x, y) = getpixel (convert (alpha_source img) "RGB") (x, y)).
Proof.
  intros Hnew out.
  destruct (Image_new_ok "RGB" (width img) (height img) white)
    as (bg & Hnew' & Hbm & Hbw & Hbh & Hbp);
    [apply width_nonneg | apply height_nonneg |].
  assert (bg = background) as -> by congruence.
  destruct (alpha_source_size img) as [Hsw Hsh].
  assert (Hbox : ∀ x y, 0 ≤ x < width img → 0 ≤ y < height img →
    in_box 0 0 (width (alpha_source img)) (height (alpha_source img)) x y = true).
  { intros x y Hx Hy. unfold in_box. rewrite Hsw, Hsh.
    rewrite !andb_true_iff, !Z.leb_le, !Z.ltb_lt. lia. }
  unfold out. split; intros x y Hx Hy Hl.
  - rewrite paste_mask_0; rewrite ?split_last_width, ?split_last_height;
      try reflexivity; try lia; auto.
    rewrite !Z.sub_0_r. by apply split_last_getpixel.
  - rewrite paste_mask_255; rewrite ?split_last_width, ?split_last_height;
      try reflexivity; try lia; auto.
    + by rewrite Hbm, !Z.sub_0_r.
    + rewrite !Z.sub_0_r. by apply split_last_getpixel.
Qed.

(** C5: the normalizer of [process_image] always returns an image in
    mode RGB of the width and height of its input.  When the input is RGBA,
    LA, or P with transparency, the result is the input (a P image first
    converted to RGBA) pasted on a white RGB canvas of the input's size with
    its last band as the mask, so that a pixel whose alpha is 0 becomes white
    and a pixel whose alpha is 255 keeps its colour; otherwise an input that
    is not RGB is converted with [convert('RGB')]. *)
Theorem to_rgb_spec (img : Image) :
  ∃ out, anthropic_ocr.to_rgb img = Ok out ∧
    mode out = "RGB" ∧ width out = width img ∧ height out = height img ∧
    (spec_has_alpha img →
       ∃ background,
         Image_new "RGB" (width img, height img) white = Ok background ∧
         out = paste background (alpha_source img) (0, 0)
                 (Some (split_last (alpha_source img))) ∧
         (∀ x y, 0 ≤ x < width img → 0 ≤ y < height img →
            last (getpixel (alpha_source img) (x, y)) = Some 0 →
            getpixel out (x, y) = white) ∧
         (∀ x y, 0 ≤ x < width img → 0 ≤ y < height img →
            last (getpixel (alpha_source img) (x, y)) = Some 255 →
            getpixel out (x, y) = getpixel (convert (alpha_source img) "RGB") (x, y))) ∧
    (mode img = "RGBA" →
       ∀ x y r g b a, 0 ≤ x < width img → 0 ≤ y < height img →
         getpixel img (x, y) = [r; g; b; a] →
         (a = 0 → getpixel out (x, y) = white) ∧
         (a = 255 → getpixel out (x, y) = [r; g; b])) ∧
    (¬ spec_has_alpha img → mode img ≠ "RGB" → out = convert img "RGB").
Proof.
  unfold anthropic_ocr.to_rgb.
  destruct (anthropic_ocr.has_alpha img) eqn:Ha.
  - destruct (Image_new_ok "RGB" (width img) (height img) white)
      as (bg & Hnew & _); [apply width_nonneg | apply height_nonneg |].
    rewrite Hnew. simpl. fold (alpha_source img).
    destruct (to_rgb_alpha_pixels img bg Hnew) as [Ht Ho].
    eexists; split; [reflexivity|].
    rewrite paste_mode, paste_width, paste_height.
    destruct (Image_new_size _ _ _ _ _ Hnew) as (Hbm & Hbw & Hbh).
    split; [exact Hbm|]. split; [exact Hbw|]. split; [exact Hbh|].
    split; [|split].
    + intros _. exists bg. by repeat split.
    + intros Hm x y r g b a Hx Hy Hp.
      assert (Hsrc : alpha_source img = img).
      { unfold alpha_source. rewrite Hm. by case_bool_decide. }
      rewrite Hsrc in Ht, Ho |- *. split; intros ->.
      * apply Ht; try assumption. by rewrite Hp.
      * rewrite Ho; try assumption; [|by rewrite Hp].
        by apply convert_rgba_rgb with 255.
    + intros Hn. exfalso. apply Hn. by apply has_alpha_spec.
  - assert (Hrgba : mode img ≠ "RGBA").
    { intros Hm. apply not_true_iff_false in Ha. apply Ha, has_alpha_spec. by left. }
    case_bool_decide as Hm.
    + eexists; split; [reflexivity|].
      rewrite convert_mode, convert_width, convert_height.
      repeat split; try reflexivity; try contradiction.
      intros Hs. apply has_alpha_spec in Hs. congruence.
    + eexists; split; [reflexivity|]. repeat split; try assumption; try contradiction.
      intros Hs. apply has_alpha_spec in Hs. congruence.
Qed.

Lemma to_rgb_rgb (img : Image) :
  mode img = "RGB" → anthropic_ocr.to_rgb img = Ok img.
Proof.
  intros Hm. unfold anthropic_ocr.to_rgb. rewrite (has_alpha_rgb _ Hm).
  case_bool_decide; [contradiction | reflexivity].
Qed.

(** C9: an image already in mode RGB takes neither branch of the
    normalizer and is returned as it is; hence normalizing the result of the
    normalizer changes nothing. *)
Theorem to_rgb_idempotent (img : Image) :
  (mode img = "RGB" →
     anthropic_ocr.has_alpha img = false ∧ anthropic_ocr.to_rgb img = Ok img) ∧
  (∀ out, anthropic_ocr.to_rgb img = Ok out → anthropic_ocr.to_rgb out = Ok out).
Proof.
  split.
  - intros Hm. split; [by apply has_alpha_rgb | by apply to_rgb_rgb].
  - intros out Hout. destruct (to_rgb_ok img) as (out' & Hout' & Hm & _).
    rewrite Hout in Hout'. injection Hout' as <-. by apply to_rgb_rgb.
Qed.

End color.

(** ** Floats *)


















(** ** The image pipeline *)

Section image_pipeline.
Context `{PIL}.

Lemma level_name_very_high (q : QualityLevel) :
  level_name q = "Very High" ↔ q = VeryHigh.
Proof. destruct q; simpl; split; intros; congruence. Qed.




End image_pipeline.

(** ** The composite builder *)

Lemma foldl_add_sumZ (l : list Z) (a : Z) : foldl Z.add a l = a + sumZ l.
Proof.
  revert a. induction l as [|x l IH]; intros a; simpl; [lia|].
  rewrite IH. lia.
Qed.

Lemma foldl_max_ge (l : list Z) (a : Z) :
  a ≤ foldl Z.max a l ∧ ∀ x, x ∈ l → x ≤ foldl Z.max a l.
Proof.
  revert a. induction l as [|x l IH]; intros a; simpl.
  - split; [lia|]. intros x Hx. by apply elem_of_nil in Hx.
  - destruct (IH (Z.max a x)) as [H1 H2]. split; [lia|].
    intros y Hy. apply elem_of_cons in Hy as [->|Hy]; [lia | by apply H2].
Qed.

Lemma foldl_max_attained (l : list Z) (a : Z) :
  foldl Z.max a l = a ∨ foldl Z.max a l ∈ l.
Proof.
  revert a. induction l as [|x l IH]; intros a; simpl; [by left|].
  destruct (IH (Z.max a x)) as [H1|H1].
  - rewrite H1. destruct (Z.max_spec a x) as [[_ ->]|[_ ->]].
    + right. apply list_elem_of_here.
    + by left.
  - right. by apply list_elem_of_further.
Qed.

Section composite.
Context `{PIL}.

Lemma sumZ_heights_nonneg (images : list Image) : 0 ≤ sumZ (height <$> images).
Proof.
  induction images as [|img images IH]; csimpl; [lia|].
  pose proof (height_nonneg img). lia.
Qed.

Lemma in_box_true ox oy w h x y :
  in_box ox oy w h x y = true ↔ ox ≤ x < ox + w ∧ oy ≤ y < oy + h.
Proof.
  unfold in_box. rewrite !andb_true_iff, !Z.leb_le, !Z.ltb_lt. lia.
Qed.

Lemma in_box_false_above ox oy w h x y : y < oy → in_box ox oy w h x y = false.
Proof.
  intros Hy. apply not_true_is_false. rewrite in_box_true. lia.
Qed.

(** The paste loop, from any canvas and offset: rows above the offset are
    left alone, every image lands in its box, and nothing else changes. *)
Lemma paste_loop_spec (max_width : Z) (images : list Image) :
  ∀ (cv : Image) (y0 : Z),
    width cv = max_width →
    (∀ img, img ∈ images → width img ≤ max_width) →
    0 ≤ y0 → y0 + sumZ (height <$> images) ≤ height cv →
    let res := foldl (anthropic_ocr.paste_step max_width) (cv, y0) images in
    mode res.1 = mode cv ∧ width res.1 = width cv ∧ height res.1 = height cv ∧
    (∀ x y, 0 ≤ x < width cv → 0 ≤ y < y0 →
       getpixel res.1 (x, y) = getpixel cv (x, y)) ∧
    (∀ k img x y, images !! k = Some img →
       0 ≤ x < width img → 0 ≤ y < height img →
       getpixel res.1 (x_offset_of max_width img + x, y0 + y_offset_of images k + y)
         = getpixel (convert img (mode cv)) (x, y)) ∧
    (∀ x y, 0 ≤ x < width cv → 0 ≤ y < height cv →
       (∀ k img, images !! k = Some img →
          in_box (x_offset_of max_width img) (y0 + y_offset_of images k)
            (width img) (height img) x y = false) →
       getpixel res.1 (x, y) = getpixel cv (x, y)).
Proof.
  induction images as [|img rest IH]; intros cv y0 Hw Hle Hy0 Hfit; csimpl.
  - repeat split; auto. intros k img x y Hk. by rewrite lookup_nil in Hk.
  - csimpl in Hfit. pose proof (height_nonneg img) as Hh.
    pose proof (width_nonneg img) as Hwi.
    pose proof (sumZ_heights_nonneg rest) as Hrest.
    assert (Himg : width img ≤ max_width) by (apply Hle; apply list_elem_of_here).
    set (xo := (max_width - width img) `div` 2).
    assert (Hxo : 0 ≤ xo ∧ xo + width img ≤ max_width).
    { unfold xo. split; [apply Z.div_pos; lia|].
      assert ((max_width - width img) `div` 2 ≤ max_width - width img)
        by (apply Z.div_le_upper_bound; lia). lia. }
    set (cv1 := paste cv img (xo, y0) None).
    destruct (IH cv1 (y0 + height img)) as (Hm & Hrw & Hrh & Habove & Hin & Hout).
    { unfold cv1. by rewrite paste_width. }
    { intros i Hi. apply Hle. by apply list_elem_of_further. }
    { lia. }
    { unfold cv1. rewrite paste_height. lia. }
    unfold cv1 in Hm, Hrw, Hrh, Habove, Hin, Hout.
    rewrite paste_mode in Hm, Hin. rewrite paste_width in Hrw, Habove, Hout.
    rewrite paste_height in Hrh, Hout.
    repeat split; try assumption.
    + intros x y Hx Hy. rewrite Habove by lia.
      rewrite paste_getpixel by lia.
      rewrite in_box_false_above by lia. reflexivity.
    + intros [|k] i x y Hk Hx Hy.
      * simpl in Hk. injection Hk as <-.
        unfold y_offset_of, x_offset_of; csimpl. fold xo.
        rewrite Habove by lia. rewrite paste_getpixel by lia.
        assert (Hb : in_box xo y0 (width img) (height img) (xo + x) (y0 + 0 + y) = true)
          by (apply in_box_true; lia).
        rewrite Hb. f_equal. f_equal; lia.
      * simpl in Hk. specialize (Hin k i x y Hk Hx Hy).
        unfold y_offset_of in *. csimpl.
        replace (y0 + (height img + sumZ (height <$> take k rest)) + y)
          with (y0 + height img + sumZ (height <$> take k rest) + y) by lia.
        exact Hin.
    + intros x y Hx Hy Hnone. rewrite Hout; try lia.
      * rewrite paste_getpixel by lia.
        specialize (Hnone 0%nat img eq_refl).
        unfold y_offset_of, x_offset_of in Hnone; csimpl in Hnone. fold xo in Hnone.
        rewrite Z.add_0_r in Hnone. by rewrite Hnone.
      * intros k i Hk. specialize (Hnone (S k) i Hk).
        unfold y_offset_of in *. csimpl in Hnone.
        replace (y0 + height img + sumZ (height <$> take k rest))
          with (y0 + (height img + sumZ (height <$> take k rest))) by lia.
        exact Hnone.
Qed.

Lemma combine_images_vertically_ok (images : list Image) :
  images ≠ [] →
  ∃ combined,
    anthropic_ocr.combine_images_vertically images = Ok (Some combined) ∧
    mode combined = "RGB" ∧
    (∀ img, img ∈ images → width img ≤ width combined) ∧
    (∃ img, img ∈ images ∧ width img = width combined) ∧
    height combined = sumZ (height <$> images) ∧
    (∀ k img x y, images !! k = Some img →
       0 ≤ x < width img → 0 ≤ y < height img →
       getpixel combined
         (x_offset_of (width combined) img + x, y_offset_of images k + y)
         = getpixel (convert img "RGB") (x, y)) ∧
    (∀ x y, 0 ≤ x < width combined → 0 ≤ y < height combined →
       (∀ k img, images !! k = Some img →
          in_box (x_offset_of (width combined) img) (y_offset_of images k)
            (width img) (height img) x y = false) →
       getpixel combined (x, y) = white).
Proof.
  destruct images as [|first rest]; [done|]. intros _.
  unfold anthropic_ocr.combine_images_vertically.
  set (images := first :: rest).
  set (max_width := foldl Z.max (width first) (width <$> rest)).
  set (total_height := foldl Z.add 0 (height <$> images)).
  assert (Hth : total_height = sumZ (height <$> images)).
  { unfold total_height. rewrite foldl_add_sumZ. lia. }
  destruct (foldl_max_ge (width <$> rest) (width first)) as [Hfirst Hrest].
  fold max_width in Hfirst, Hrest.
  assert (Hall : ∀ img, img ∈ images → width img ≤ max_width).
  { intros img Hin. apply elem_of_cons in Hin as [->|Hin]; [assumption|].
    apply Hrest. by apply list_elem_of_fmap_2. }
  assert (Hatt : ∃ img, img ∈ images ∧ width img = max_width).
  { destruct (foldl_max_attained (width <$> rest) (width first)) as [Ha|Ha];
      fold max_width in Ha.
    - exists first. split; [apply list_elem_of_here | done].
    - apply list_elem_of_fmap_1 in Ha as (img & Hw & Hin).
      exists img. split; [by apply list_elem_of_further | done]. }
  pose proof (width_nonneg first) as Hw0.
  pose proof (sumZ_heights_nonneg images) as Hh0.
  destruct (Image_new_ok "RGB" max_width total_height white)
    as (canvas & Hnew & Hcm & Hcw & Hch & Hcp); [lia | lia |].
  destruct (paste_loop_spec max_width images canvas 0)
    as (Hm & Hrw & Hrh & _ & Hin & Hout); try assumption; try lia.
  exists (foldl (anthropic_ocr.paste_step max_width) (canvas, 0) images).1.
  split; [by rewrite Hnew|].
  rewrite Hm, Hrw, Hrh, Hcm, Hcw, Hch. rewrite Hcm in Hin.
  split; [reflexivity|]. split; [assumption|]. split; [assumption|].
  split; [assumption|]. split.
  - intros k img x y Hk Hx Hy. specialize (Hin k img x y Hk Hx Hy).
    by rewrite Z.add_0_l in Hin.
  - intros x y Hx Hy Hnone. rewrite Hout; try lia.
    + apply Hcp; lia.
    + intros k img Hk. rewrite Z.add_0_l. by apply Hnone.
Qed.

End composite.

(** ** Loops *)

Lemma try_map_ok_iff {A B} (f : A → result B) (l : list A) (xs : list B) :
  try_map f l = Ok xs ↔ Forall2 (λ a x, f a = Ok x) l xs.
Proof.
  revert xs. induction l as [|a l IH]; intros xs; simpl.
  - split.
    + intros [= <-]. constructor.
    + intros Hf. by apply Forall2_nil_inv_l in Hf as ->.
  - destruct (f a) as [b|e] eqn:Hfa; simpl.
    + destruct (try_map f l) as [bs|e] eqn:Hl; simpl.
      * split.
        -- intros [= <-]. constructor; [assumption | by apply IH].
        -- intros Hf. apply Forall2_cons_inv_l in Hf as (b' & bs' & Hb & Hbs & ->).
           apply IH in Hbs. congruence.
      * split; [discriminate|].
        intros Hf. apply Forall2_cons_inv_l in Hf as (b' & bs' & Hb & Hbs & ->).
        apply IH in Hbs. discriminate.
    + split; [discriminate|].
      intros Hf. apply Forall2_cons_inv_l in Hf as (b' & bs' & Hb & Hbs & ->).
      congruence.
Qed.

(** One element on which [f] raises makes the whole of [try_map] raise. *)
Lemma try_map_raises {A B} (f : A → result B) (l : list A) (a : A) (e : exn) :
  a ∈ l → f a = Raise e → ∃ e', try_map f l = Raise e'.
Proof.
  intros Hin Hfa. destruct (try_map f l) as [xs|e'] eqn:Hm; [|eauto].
  apply try_map_ok_iff in Hm.
  apply list_elem_of_lookup_1 in Hin as (i & Hi).
  destruct (Forall2_lookup_l _ _ _ _ _ Hm Hi) as (x & _ & Hx). congruence.
Qed.

Section loops.
Context `{PIL}.

Lemma render_page_loop (doc : Document) (z : float) (l : list Z) (acc : list Image) :
  for_each l (anthropic_ocr.render_page doc z) acc
  = (xs ← try_map (rasterize_page doc z) l; Ok (acc ++ xs)).
Proof.
  revert acc. induction l as [|a l IH]; intros acc; simpl.
  - by rewrite app_nil_r.
  - change (anthropic_ocr.render_page doc z acc a)
      with (img ← rasterize_page doc z a; Ok (acc ++ [img])).
    destruct (rasterize_page doc z a) as [img|e]; simpl; [|reflexivity].
    rewrite IH. destruct (try_map (rasterize_page doc z) l); simpl; [|reflexivity].
    by rewrite <- app_assoc.
Qed.

Lemma convert_group_loop (f : UploadedFile) (doc : Document) (z : float)
    (p total : Z) (l : list Z) (images : list Payload) (captions : list string) :
  for_each l (anthropic_ocr.convert_group f doc z p total) (images, captions)
  = (pls ← try_map (λ g, anthropic_ocr.group_payload doc z
                           (group_span p total g).1 (group_span p total g).2) l;
     Ok (images ++ pls,
         captions ++ ((λ g, name f +:+ " - " +:+
                        anthropic_ocr.page_range (group_span p total g).1
                          (group_span p total g).2) <$> l))).
Proof.
  revert images captions. induction l as [|g l IH]; intros images captions; csimpl.
  - by rewrite !app_nil_r.
  - destruct (anthropic_ocr.group_payload doc z (g * p) (Z.min (g * p + p) total))
      as [pl|e]; simpl; [|reflexivity].
    rewrite IH. destruct (try_map _ l); simpl; [|reflexivity].
    by rewrite <- !app_assoc.
Qed.

Lemma convert_page_loop (f : UploadedFile) (doc : Document) (z : float)
    (l : list Z) (images : list Payload) (captions : list string) :
  for_each l (fix_rgba_filedata_error.convert_page f doc z) (images, captions)
  = (imgs ← try_map (rasterize_page doc z) l;
     Ok (images ++ ((λ img, save_jpeg img 95) <$> imgs),
         captions ++ ((λ k, name f +:+ " - Page " +:+ pretty (k + 1)) <$> l))).
Proof.
  revert images captions. induction l as [|k l IH]; intros images captions; csimpl.
  - by rewrite !app_nil_r.
  - destruct (rasterize_page doc z k) as [img|e]; simpl; [|reflexivity].
    rewrite IH. destruct (try_map _ l); csimpl; [|reflexivity].
    by rewrite <- !app_assoc.
Qed.

End loops.

(** ** Page groups *)

Lemma ceil_truediv_spec (a b : Z) :
  0 < b → ∃ n, ceil_truediv a b = Ok n ∧ (n - 1) * b < a ≤ n * b.
Proof.
  intros Hb. unfold ceil_truediv.
  destruct (b =? 0) eqn:E; [apply Z.eqb_eq in E; lia|].
  eexists; split; [reflexivity|].
  pose proof (Z.div_mod (- a) b) as Hdm.
  pose proof (Z.mod_pos_bound (- a) b Hb) as Hr.
  nia.
Qed.

Lemma ceil_truediv_unique (a b n : Z) :
  0 < b → (n - 1) * b < a ≤ n * b → ceil_truediv a b = Ok n.
Proof.
  intros Hb Hn. destruct (ceil_truediv_spec a b Hb) as (m & Hm & Hbound).
  rewrite Hm. f_equal. nia.
Qed.

(** The ceiling of the binary64 quotient is the ceiling of the exact one:
    checked here for every page count up to 1000 and each of the table's
    divisors. *)
Lemma ceil_truediv_float_agrees :
  forallb (λ b,
    forallb (λ a,
      match ceil_truediv a b, PyFloat.ceil_truediv a b with
      | Ok n, Some m => n =? m
      | _, _ => false
      end) (seqZ 0 1001)) [1; 2; 4; 6; 8] = true.
Proof. vm_compute. reflexivity. Qed.

(** The length CPython gives [range(0, total, p)] is the same ceiling. *)
Lemma py_range_step_ceil (total p n : Z) :
  0 < p → ceil_truediv total p = Ok n →
  py_range_step 0 total p = Ok ((λ k, k * p) <$> seqZ 0 n).
Proof.
  intros Hp Hn. unfold py_range_step.
  destruct (p =? 0) eqn:E; [apply Z.eqb_eq in E; lia|].
  rewrite (proj2 (Z.ltb_lt 0 p) Hp).
  destruct (ceil_truediv_spec total p Hp) as (m & Hm & Hbound).
  assert (m = n) as -> by congruence.
  assert ((total - 0 + p - 1) `div` p = n) as ->.
  { symmetry. apply (Z.div_unique_pos _ _ _ (total - 0 + p - 1 - p * n)); lia. }
  reflexivity.
Qed.

Lemma filter_all {A} (P : A → Prop) `{∀ x, Decision (P x)} (l : list A) :
  (∀ x, x ∈ l → P x) → filter P l = l.
Proof.
  induction l as [|x l IH]; intros Hall; [done|].
  rewrite filter_cons_True by (apply Hall; apply list_elem_of_here).
  f_equal. apply IH. intros y Hy. apply Hall. by apply list_elem_of_further.
Qed.

Lemma filter_none {A} (P : A → Prop) `{∀ x, Decision (P x)} (l : list A) :
  (∀ x, x ∈ l → ¬ P x) → filter P l = [].
Proof.
  induction l as [|x l IH]; intros Hall; [done|].
  rewrite filter_cons_False by (apply Hall; apply list_elem_of_here).
  apply IH. intros y Hy. apply Hall. by apply list_elem_of_further.
Qed.

Lemma filter_fmap {A B} (f : A → B) (P : B → Prop) `{∀ x, Decision (P x)}
    (l : list A) :
  filter P (f <$> l) = f <$> filter (λ a, P (f a)) l.
Proof.
  induction l as [|a l IH]; [done|]. csimpl.
  rewrite !filter_cons. destruct (decide (P (f a))); csimpl; by rewrite IH.
Qed.

(** The test on which src/testing/img_pdf_v2.py skips a group never holds:
    a group is short only when it reaches the end of the document. *)
Lemma skips_never (i p total : Z) : img_pdf_v2.skips i p total = false.
Proof.
  unfold img_pdf_v2.skips. apply andb_false_iff.
  destruct (Z.ltb_spec (i + p) total) as [Hlt|Hge]; [left | by right].
  apply Z.ltb_ge. lia.
Qed.

Lemma is_full_iff (i p total : Z) :
  st_img_4o_pdf.is_full i p total = true ↔ i + p ≤ total.
Proof. unfold st_img_4o_pdf.is_full. rewrite Z.eqb_eq. lia. Qed.

Lemma group_spans_concat (p total : Z) (m : nat) :
  0 < p → Z.of_nat m * p ≤ total + p - 1 → 0 ≤ total →
  concat ((λ g, py_range (group_span p total g).1 (group_span p total g).2)
            <$> seqZ 0 (Z.of_nat m))
  = py_range 0 (Z.min (Z.of_nat m * p) total).
Proof.
  intros Hp Hm Ht. induction m as [|m IH].
  - simpl. unfold py_range. by rewrite seqZ_nil by lia.
  - rewrite seqZ_S, fmap_app, concat_app, IH by lia.
    csimpl. rewrite app_nil_r. unfold py_range. rewrite Z.add_0_l.
    replace (Z.min (Z.of_nat (S m) * p) total - 0)
      with ((Z.min (Z.of_nat m * p) total - 0)
            + (Z.min (Z.of_nat m * p + p) total - Z.of_nat m * p)) by lia.
    rewrite seqZ_app by lia. do 2 f_equal. lia.
Qed.

(** The groups of [pdf_to_images]: their number is the ceiling of
    [total/p], the [k]-th spans [k*p .. min((k+1)*p, total)], their page
    ranges laid end to end are [0 .. total - 1], and only the last one can be
    shorter than [p]. *)
Lemma page_groups_spec (total p : Z) :
  1 ≤ total → 1 ≤ p →
  ∃ groups n,
    anthropic_ocr.page_groups total p = Ok groups ∧
    Z.of_nat (length groups) = n ∧ (n - 1) * p < total ≤ n * p ∧
    (∀ k, 0 ≤ k < n →
       groups !! Z.to_nat k = Some (k * p, Z.min ((k + 1) * p) total)) ∧
    concat ((λ g, py_range g.1 g.2) <$> groups) = py_range 0 total ∧
    (∀ k s e, groups !! k = Some (s, e) →
       1 ≤ e - s ≤ p ∧ (e - s < p → S k = length groups)).
Proof.
  intros Ht Hp. destruct (ceil_truediv_spec total p) as (n & Hn & Hbound); [lia|].
  assert (1 ≤ n) by nia.
  exists (group_span p total <$> seqZ 0 n), n.
  split.
  { unfold anthropic_ocr.page_groups, py_range. rewrite Hn. csimpl.
    by rewrite Z.sub_0_r. }
  split; [rewrite length_fmap, length_seqZ; lia|].
  split; [assumption|]. split; [|split].
  - intros k Hk. rewrite list_lookup_fmap, lookup_seqZ_lt by lia. csimpl.
    unfold group_span. do 3 f_equal; lia.
  - rewrite <- list_fmap_compose.
    pose proof (group_spans_concat p total (Z.to_nat n)) as Hc.
    rewrite Z2Nat.id in Hc by lia. unfold compose. rewrite Hc by lia.
    f_equal. lia.
  - intros k s e Hk. rewrite list_lookup_fmap in Hk.
    destruct (seqZ 0 n !! k) as [g|] eqn:Hg; [|discriminate].
    apply lookup_seqZ in Hg as [-> Hlt]. injection Hk as <- <-.
    rewrite length_fmap, length_seqZ. split; [nia|]. intros Hshort. nia.
Qed.

(** The loop of src/testing/img_pdf_v2.py emits the same groups. *)
Lemma emitted_groups_eq (total p : Z) :
  1 ≤ p → img_pdf_v2.emitted_groups total p = anthropic_ocr.page_groups total p.
Proof.
  intros Hp. unfold img_pdf_v2.emitted_groups, anthropic_ocr.page_groups.
  destruct (ceil_truediv_spec total p) as (n & Hn & _); [lia|].
  rewrite (py_range_step_ceil total p n), Hn by (lia || done). csimpl.
  rewrite filter_all by (intros; apply skips_never).
  unfold py_range. rewrite <- list_fmap_compose, Z.sub_0_r. reflexivity.
Qed.

(** A document with fewer pages than one group takes is dropped whole by
    src/testing/st_img_4o_pdf.py. *)
Lemma st_convert_short `{PIL} (f : UploadedFile) (quality_level : Z)
    (pdf_images : list Image) :
  convert_from_path f = Ok pdf_images →
  1 ≤ Z.of_nat (length pdf_images)
    < st_img_4o_pdf.get_pages_per_image quality_level →
  st_img_4o_pdf.convert_pdf_to_images f quality_level = Ok [].
Proof.
  intros Hconv Hlen. unfold st_img_4o_pdf.convert_pdf_to_images.
  rewrite Hconv. csimpl.
  rewrite (py_range_step_ceil _ _ 1) by (lia || (apply ceil_truediv_unique; lia)).
  csimpl. unfold st_img_4o_pdf.convert_group.
  destruct (st_img_4o_pdf.is_full _ _ _) eqn:Hfull; [|reflexivity].
  apply is_full_iff in Hfull. lia.
Qed.

(** The test of src/testing/st_img_4o_pdf.py admits the full groups only:
    there are [total // p] of them. *)
Lemma admitted_groups_eq (total p : Z) :
  1 ≤ total → 1 ≤ p →
  st_img_4o_pdf.admitted_groups total p
  = Ok ((λ k, (k * p, k * p + p)) <$> seqZ 0 (total `div` p)).
Proof.
  intros Ht Hp. unfold st_img_4o_pdf.admitted_groups.
  destruct (ceil_truediv_spec total p) as (n & Hn & Hbound); [lia|].
  rewrite (py_range_step_ceil total p n) by (lia || done). csimpl.
  pose proof (Z.div_mod total p) as Hdm.
  pose proof (Z.mod_pos_bound total p) as Hr.
  assert (Hq : 0 ≤ total `div` p ≤ n) by (split; [apply Z.div_pos; lia | nia]).
  rewrite filter_fmap.
  replace n with (total `div` p + (n - total `div` p)) by lia.
  rewrite seqZ_app, filter_app by lia.
  rewrite filter_all, filter_none, app_nil_r.
  - rewrite <- list_fmap_compose. f_equal. apply list_fmap_ext.
    intros i k Hk. apply lookup_seqZ in Hk as [-> Hlt]. simpl.
    f_equal. nia.
  - intros k Hk. apply elem_of_seqZ in Hk. rewrite is_full_iff. nia.
  - intros k Hk. apply elem_of_seqZ in Hk. rewrite is_full_iff. nia.
Qed.

(** ** The document pipeline *)

Section pipeline.
Context `{PIL}.

Lemma page_range_caption (document_name : string) (start end_ : Z) :
  document_name +:+ " - " +:+ anthropic_ocr.page_range start end_
  = spec_caption document_name start end_.
Proof.
  unfold anthropic_ocr.page_range, spec_caption.
  repeat case_bool_decide; try lia; reflexivity.
Qed.

Lemma pdf_to_images_body_spec (f : UploadedFile) (doc : Document)
    (quality pdf_quality : string) (images : list Payload) (captions : list string) :
  anthropic_ocr.pdf_to_images_body f doc quality pdf_quality = Ok (images, captions) →
  ∃ z p groups,
    anthropic_ocr.get_zoom_factor quality = Ok z ∧
    anthropic_ocr.get_pages_per_image pdf_quality = Ok p ∧
    anthropic_ocr.page_groups (page_count doc) p = Ok groups ∧
    Forall2 (λ g pl, anthropic_ocr.group_payload doc z g.1 g.2 = Ok pl) groups images ∧
    captions = (λ g, spec_caption (name f) g.1 g.2) <$> groups.
Proof.
  unfold anthropic_ocr.pdf_to_images_body, anthropic_ocr.page_groups.
  destruct (anthropic_ocr.get_zoom_factor quality) as [z|]; [|discriminate].
  destruct (anthropic_ocr.get_pages_per_image pdf_quality) as [p|]; [|discriminate].
  csimpl.
  destruct (ceil_truediv (page_count doc) p) as [n|] eqn:Hn; [|discriminate]. csimpl.
  rewrite convert_group_loop.
  destruct (try_map _ (py_range 0 n)) as [pls|] eqn:Hm; [|discriminate].
  csimpl. intros [= <- <-]. exists z, p. eexists.
  split; [reflexivity|]. split; [reflexivity|]. rewrite Hn. csimpl.
  split; [reflexivity|]. split.
  - apply try_map_ok_iff in Hm. apply Forall2_fmap_l.
    eapply Forall2_impl; [exact Hm|]. done.
  - rewrite <- list_fmap_compose. apply list_fmap_ext. intros i g _. simpl.
    apply page_range_caption.
Qed.

Lemma fix_rgba_pdf_to_images_body_spec (f : UploadedFile) (doc : Document)
    (quality : string) (images : list Payload) (captions : list string) :
  fix_rgba_filedata_error.pdf_to_images_body f doc quality = Ok (images, captions) →
  ∃ z,
    fix_rgba_filedata_error.get_zoom_factor quality = Ok z ∧
    Forall2 (λ k pl, ∃ img, rasterize_page doc z k = Ok img ∧ pl = save_jpeg img 95)
      (py_range 0 (page_count doc)) images ∧
    captions = (λ k, spec_caption (name f) k (k + 1)) <$> py_range 0 (page_count doc).
Proof.
  unfold fix_rgba_filedata_error.pdf_to_images_body.
  destruct (fix_rgba_filedata_error.get_zoom_factor quality) as [z|]; [|discriminate].
  csimpl. rewrite convert_page_loop.
  destruct (try_map _ _) as [imgs|] eqn:Hm; [|discriminate].
  csimpl. intros [= <- <-]. exists z. split; [reflexivity|]. split.
  - apply try_map_ok_iff in Hm. apply Forall2_fmap_r.
    eapply Forall2_impl; [exact Hm|]. simpl. eauto.
  - apply list_fmap_ext. intros i k _. unfold spec_caption.
    case_bool_decide; [reflexivity | lia].
Qed.

Lemma pdf_to_images_run (f : UploadedFile) (quality pdf_quality : string) :
  anthropic_ocr.pdf_to_images f quality pdf_quality =
  match fitz_open f with
  | Raise e => ([EvStError (pdf_error_message f e)], Ok ([], []))
  | Ok doc =>
      match anthropic_ocr.pdf_to_images_body f doc quality pdf_quality with
      | Ok r => ([EvOpen (name f); EvClose (name f)], Ok r)
      | Raise e => ([EvOpen (name f); EvStError (pdf_error_message f e)], Ok ([], []))
      end
  end.
Proof.
  unfold anthropic_ocr.pdf_to_images, open_document.
  destruct (fitz_open f) as [doc|e]; [|reflexivity]. cbn.
  destruct (anthropic_ocr.pdf_to_images_body f doc quality pdf_quality); reflexivity.
Qed.

Lemma fix_rgba_pdf_to_images_run (f : UploadedFile) (quality : string) :
  fix_rgba_filedata_error.pdf_to_images f quality =
  match fitz_open f with
  | Raise e => ([EvStError ("Error processing PDF: " +:+ str_exn e)], Ok ([], []))
  | Ok doc =>
      match fix_rgba_filedata_error.pdf_to_images_body f doc quality with
      | Ok r => ([EvOpen (name f); EvClose (name f)], Ok r)
      | Raise e =>
          ([EvOpen (name f); EvStError ("Error processing PDF: " +:+ str_exn e)],
           Ok ([], []))
      end
  end.
Proof.
  unfold fix_rgba_filedata_error.pdf_to_images, open_document.
  destruct (fitz_open f) as [doc|e]; [|reflexivity]. cbn.
  destruct (fix_rgba_filedata_error.pdf_to_images_body f doc quality); reflexivity.
Qed.

Lemma get_pages_per_image_range (pdf_quality : string) (p : Z) :
  anthropic_ocr.get_pages_per_image pdf_quality = Ok p → 1 ≤ p ≤ 8.
Proof.
  unfold anthropic_ocr.get_pages_per_image, dict_getitem.
  destruct (anthropic_ocr.pages_quality_map !! pdf_quality) as [v|] eqn:Hl;
    [|discriminate].
  intros [= <-]. unfold anthropic_ocr.pages_quality_map in Hl.
  repeat (apply lookup_insert_Some in Hl as [[_ <-]|[_ Hl]]; [lia|]).
  by rewrite lookup_empty in Hl.
Qed.

(** A page that cannot be rasterized makes its group raise, and with it the
    whole body. *)
Lemma group_payload_raises (doc : Document) (z : float) (s e k : Z) (err : exn) :
  s ≤ k < e → rasterize_page doc z k = Raise err →
  ∃ e', anthropic_ocr.group_payload doc z s e = Raise e'.
Proof.
  intros Hk Hfail. unfold anthropic_ocr.group_payload. rewrite render_page_loop.
  destruct (try_map_raises (rasterize_page doc z) (py_range s e) k err) as (e' & He');
    [apply elem_of_seqZ; lia | assumption |].
  rewrite He'. simpl. eauto.
Qed.

Lemma pdf_to_images_body_raises (f : UploadedFile) (doc : Document)
    (quality pdf_quality : string) (z : float) (p k : Z) (err : exn) :
  anthropic_ocr.get_zoom_factor quality = Ok z →
  anthropic_ocr.get_pages_per_image pdf_quality = Ok p →
  0 ≤ k < page_count doc → rasterize_page doc z k = Raise err →
  ∃ e', anthropic_ocr.pdf_to_images_body f doc quality pdf_quality = Raise e'.
Proof.
  intros Hz Hp Hk Hfail. pose proof (get_pages_per_image_range _ _ Hp) as Hrange.
  unfold anthropic_ocr.pdf_to_images_body. rewrite Hz, Hp. csimpl.
  destruct (ceil_truediv_spec (page_count doc) p) as (n & Hn & Hbound); [lia|].
  rewrite Hn. csimpl. rewrite convert_group_loop.
  pose proof (Z.div_mod k p) as Hdm. pose proof (Z.mod_pos_bound k p) as Hr.
  assert (Hg : 0 ≤ k `div` p) by (apply Z.div_pos; lia).
  destruct (group_payload_raises doc z
              (group_span p (page_count doc) (k `div` p)).1
              (group_span p (page_count doc) (k `div` p)).2 k err) as (e1 & He1);
    [simpl; nia | assumption |].
  destruct (try_map_raises
              (λ g, anthropic_ocr.group_payload doc z
                      (group_span p (page_count doc) g).1
                      (group_span p (page_count doc) g).2)
              (py_range 0 n) (k `div` p) e1) as (e2 & He2);
    [apply elem_of_seqZ; nia | assumption |].
  rewrite He2. simpl. eauto.
Qed.

Lemma session_app_empty_r (s : anthropic_ocr.Session) : session_app s empty_session = s.
Proof. destruct s. unfold session_app. simpl. by rewrite !app_nil_r. Qed.

(** Processing a file never raises, and what it adds does not depend on the
    session it is added to. *)
Lemma process_upload_alone (quality pdf_quality : string)
    (s : anthropic_ocr.Session) (file : UploadedFile) :
  anthropic_ocr.process_upload quality pdf_quality s file
  = (alone_trace quality pdf_quality file,
     Ok (session_app s (alone_session quality pdf_quality file))).
Proof.
  unfold alone_trace, alone_session, alone, anthropic_ocr.process_upload.
  case_bool_decide.
  - rewrite pdf_to_images_run. destruct (fitz_open file) as [doc|e].
    + destruct (anthropic_ocr.pdf_to_images_body file doc quality pdf_quality)
        as [[imgs caps]|e]; reflexivity.
    + reflexivity.
  - destruct (anthropic_ocr.process_image file quality) as [pl|e]; cbn;
      first [reflexivity | by rewrite session_app_empty_r].
Qed.

Lemma process_upload_loop (quality pdf_quality : string) (files : list UploadedFile)
    (s : anthropic_ocr.Session) :
  for_each files (anthropic_ocr.process_upload quality pdf_quality) s
  = (concat (alone_trace quality pdf_quality <$> files),
     Ok (foldl session_app s (alone_session quality pdf_quality <$> files))).
Proof.
  revert s. induction files as [|file files IH]; intros s; [reflexivity|].
  cbn [for_each]. rewrite process_upload_alone. cbn. rewrite IH. reflexivity.
Qed.

(** *** The variant of src/testing/img_pdf_v2.py *)

Lemma v2_convert_group_eq (f : UploadedFile) (doc : Document) (p total : Z)
    (acc : list img_pdf_v2.NamedImage) (i : Z) :
  img_pdf_v2.convert_group f doc p total acc i
  = (ni ← v2_named_group f doc p total i; Ok (acc ++ [ni])).
Proof.
  unfold img_pdf_v2.convert_group, v2_named_group. rewrite skips_never.
  destruct (img_pdf_v2.combine_group doc i (Z.min (i + p) total)); reflexivity.
Qed.

Lemma v2_convert_group_loop (f : UploadedFile) (doc : Document) (p total : Z)
    (starts : list Z) (acc : list img_pdf_v2.NamedImage) :
  for_each starts (img_pdf_v2.convert_group f doc p total) acc
  = (nis ← try_map (v2_named_group f doc p total) starts; Ok (acc ++ nis)).
Proof.
  revert acc. induction starts as [|i starts IH]; intros acc; cbn [for_each try_map].
  - csimpl. by rewrite app_nil_r.
  - rewrite v2_convert_group_eq.
    destruct (v2_named_group f doc p total i) as [ni|e]; csimpl; [|reflexivity].
    rewrite IH. destruct (try_map _ starts); csimpl; [|reflexivity].
    by rewrite <- app_assoc.
Qed.

Lemma v2_paste_page_loop (doc : Document) (first_rect_height : float)
    (row_height : Z) (l : list (Z * Z)) (canvas : Image) :
  img_pdf_v2.int_times_zoom first_rect_height = Ok row_height →
  for_each l (img_pdf_v2.paste_page doc first_rect_height) canvas
  = (imgs ← try_map (λ jp, rasterize_page doc (PyFloat.of_int 2) jp.2) l;
     Ok (v2_paste_rows row_height canvas (zip l imgs))).
Proof.
  intros Hrh. revert canvas. induction l as [|[j k] l IH]; intros canvas;
    cbn [for_each try_map snd]; [reflexivity|].
  change (img_pdf_v2.paste_page doc first_rect_height canvas (j, k))
    with (img ← rasterize_page doc (PyFloat.of_int 2) k;
          row_height ← img_pdf_v2.int_times_zoom first_rect_height;
          Ok (paste canvas img (0, j * row_height) None)).
  destruct (rasterize_page doc (PyFloat.of_int 2) k) as [img|e]; csimpl; [|reflexivity].
  rewrite Hrh. csimpl.
  rewrite IH. destruct (try_map _ l); reflexivity.
Qed.

(** When [int(rect.height * zoom * current_pages)] is defined, so is
    [int(rect.height * zoom)]: the row height inside the loop never raises. *)
Lemma v2_row_height_defined (first_page : Page) (current_pages combined_height : Z) :
  v2_combined_height first_page current_pages = Some combined_height →
  ∃ row_height, img_pdf_v2.int_times_zoom (rect_height first_page) = Ok row_height.
Proof.
  unfold v2_combined_height, img_pdf_v2.int_times_zoom.
  destruct (PyFloat.mul (rect_height first_page) (PyFloat.of_int 2)) as [s|s| |s m e];
    destruct (PyFloat.of_int current_pages) as [s'|s'| |s' m' e'];
    unfold PyFloat.to_int, PyFloat.mul; cbn; intros Hch;
    try discriminate; eauto.
Qed.

Lemma v2_paste_rows_size (row_height : Z) (rows : list ((Z * Z) * Image))
    (canvas : Image) :
  mode (v2_paste_rows row_height canvas rows) = mode canvas ∧
  width (v2_paste_rows row_height canvas rows) = width canvas ∧
  height (v2_paste_rows row_height canvas rows) = height canvas.
Proof.
  revert canvas. induction rows as [|row rows IH]; intros canvas; [done|].
  simpl. destruct (IH (paste canvas row.2 (0, row.1.1 * row_height) None))
    as (Hm & Hw & Hh).
  unfold v2_paste_rows in *. rewrite Hm, Hw, Hh.
  by rewrite paste_mode, paste_width, paste_height.
Qed.

(** The composite of src/testing/img_pdf_v2.py takes its size from the
    rectangle of the first page of the group and pastes every page at the
    left edge, a fixed row height below the one before. *)
Lemma v2_combine_group_spec (doc : Document) (i end_idx : Z) (out : Image) :
  img_pdf_v2.combine_group doc i end_idx = Ok out →
  ∃ first_page combined_width combined_height row_height canvas imgs,
    doc_getitem doc i = Ok first_page ∧
    img_pdf_v2.int_times_zoom (rect_width first_page) = Ok combined_width ∧
    v2_combined_height first_page (end_idx - i) = Some combined_height ∧
    img_pdf_v2.int_times_zoom (rect_height first_page) = Ok row_height ∧
    Image_new "RGB" (combined_width, combined_height) white = Ok canvas ∧
    Forall2 (λ k img, rasterize_page doc (PyFloat.of_int 2) k = Ok img)
      (py_range i end_idx) imgs ∧
    out = v2_paste_rows row_height canvas (zip (py_enumerate (py_range i end_idx)) imgs) ∧
    mode out = "RGB" ∧ width out = combined_width ∧ height out = combined_height.
Proof.
  unfold img_pdf_v2.combine_group.
  destruct (doc_getitem doc i) as [first_page|] eqn:Hfirst; [|discriminate]. csimpl.
  destruct (img_pdf_v2.int_times_zoom (rect_width first_page)) as [cw|] eqn:Hcw';
    [|discriminate]. csimpl.
  fold (v2_combined_height first_page (end_idx - i)).
  destruct (v2_combined_height first_page (end_idx - i)) as [ch|] eqn:Hch';
    [|discriminate].
  csimpl.
  destruct (Image_new "RGB" (cw, ch) white) as [canvas|] eqn:Hnew; [|discriminate].
  csimpl.
  destruct (v2_row_height_defined first_page (end_idx - i) ch Hch') as (rh & Hrh).
  rewrite (v2_paste_page_loop doc (rect_height first_page) rh) by exact Hrh.
  destruct (try_map _ (py_enumerate (py_range i end_idx))) as [imgs|] eqn:Hm;
    [|discriminate].
  csimpl. intros [= <-].
  destruct (Image_new_size _ _ _ _ _ Hnew) as (Hcm & Hcw & Hch).
  destruct (v2_paste_rows_size rh (zip (py_enumerate (py_range i end_idx)) imgs) canvas)
    as (Hm' & Hw' & Hh').
  exists first_page, cw, ch, rh, canvas, imgs.
  do 5 (split; [assumption || reflexivity|]).
  split; [|repeat split; congruence].
  apply try_map_ok_iff in Hm. unfold py_enumerate in Hm.
  assert (Hlen : length (seqZ 0 (Z.of_nat (length (py_range i end_idx))))
                 = length (py_range i end_idx))
    by (rewrite length_seqZ; lia).
  revert Hm Hlen. generalize (seqZ 0 (Z.of_nat (length (py_range i end_idx)))).
  generalize (py_range i end_idx). clear.
  intros l. revert imgs. induction l as [|k l IH]; intros imgs js Hm Hlen.
  - destruct js; [|discriminate]. simpl in Hm. inversion Hm. constructor.
  - destruct js as [|j js]; [discriminate|]. simpl in Hm.
    inversion Hm as [|? ? ? ? Hk Hrest]; subst. constructor; [exact Hk|].
    apply (IH _ js); [exact Hrest | simpl in Hlen; lia].
Qed.

Lemma v2_body_spec (f : UploadedFile) (doc : Document) (quality_level : Z)
    (imgs : list img_pdf_v2.NamedImage) :
  img_pdf_v2.convert_pdf_to_images_body f doc quality_level = Ok imgs →
  ∃ groups,
    img_pdf_v2.emitted_groups (page_count doc)
      (img_pdf_v2.get_pages_per_image quality_level) = Ok groups ∧
    Forall2 (λ g ni, ∃ c, img_pdf_v2.combine_group doc g.1 g.2 = Ok c ∧
                          img_pdf_v2.ni_data ni = save_jpeg c 95) groups imgs.
Proof.
  unfold img_pdf_v2.convert_pdf_to_images_body, img_pdf_v2.emitted_groups.
  destruct (py_range_step 0 (page_count doc) _) as [starts|]; [|discriminate].
  csimpl. rewrite v2_convert_group_loop.
  destruct (try_map _ starts) as [nis|] eqn:Hm; [|discriminate].
  csimpl. intros [= <-]. eexists. split; [reflexivity|].
  rewrite filter_all by (intros; apply skips_never).
  apply try_map_ok_iff in Hm. apply Forall2_fmap_l.
  eapply Forall2_impl; [exact Hm|]. intros i ni. unfold v2_named_group. simpl.
  destruct (img_pdf_v2.combine_group doc i _) as [c|]; [|discriminate].
  csimpl. intros [= <-]. eauto.
Qed.

End pipeline.

(** ** The claims about the document pipeline *)

(** C1, loop by loop: for [total ≥ 1] pages and [p ≥ 1] pages per group,
    [pdf_to_images] of src/anthropic_ocr.py and [convert_pdf_to_images] of
    src/testing/img_pdf_v2.py walk through the same groups: there are
    [ceil(total/p)] of them, group [k] spans the pages
    [k*p .. min((k+1)*p, total) - 1], their page ranges laid end to end are
    exactly [0 .. total - 1], every group has between 1 and [p] pages and only
    the last can have fewer than [p]; a run that succeeds yields one payload
    per group, the composite of the pages of that group.  The loop of
    src/testing/st_img_4o_pdf.py takes up the [total // p] full groups
    only (lines 53-55 admit a group only when it is full); a document with
    fewer than [p] pages yields the empty list. *)
Theorem page_grouping (total p : Z) :
  1 ≤ total → 1 ≤ p →
  ∃ groups n,
    anthropic_ocr.page_groups total p = Ok groups ∧
    img_pdf_v2.emitted_groups total p = Ok groups ∧
    Z.of_nat (length groups) = n ∧ (n - 1) * p < total ≤ n * p ∧
    (∀ k, 0 ≤ k < n →
       groups !! Z.to_nat k = Some (k * p, Z.min ((k + 1) * p) total)) ∧
    concat ((λ g, py_range g.1 g.2) <$> groups) = py_range 0 total ∧
    (∀ k s e, groups !! k = Some (s, e) →
       1 ≤ e - s ≤ p ∧ (e - s < p → S k = length groups)) ∧
    st_img_4o_pdf.admitted_groups total p
      = Ok ((λ k, (k * p, k * p + p)) <$> seqZ 0 (total `div` p)) ∧
    (∀ (pil : PIL) (f : UploadedFile) quality_level pdf_images,
       convert_from_path f = Ok pdf_images →
       Z.of_nat (length pdf_images) = total →
       st_img_4o_pdf.get_pages_per_image quality_level = p →
       total < p →
       st_img_4o_pdf.convert_pdf_to_images f quality_level = Ok []) ∧
    (∀ (pil : PIL) (f : UploadedFile) (doc : Document) quality pdf_quality
       images captions,
       page_count doc = total →
       anthropic_ocr.get_pages_per_image pdf_quality = Ok p →
       anthropic_ocr.pdf_to_images_body f doc quality pdf_quality
         = Ok (images, captions) →
       ∃ z, anthropic_ocr.get_zoom_factor quality = Ok z ∧
         Forall2 (λ g pl, anthropic_ocr.group_payload doc z g.1 g.2 = Ok pl)
           groups images) ∧
    (∀ (pil : PIL) (f : UploadedFile) (doc : Document) quality_level imgs,
       page_count doc = total →
       img_pdf_v2.get_pages_per_image quality_level = p →
       img_pdf_v2.convert_pdf_to_images_body f doc quality_level = Ok imgs →
       Forall2 (λ g ni, ∃ c, img_pdf_v2.combine_group doc g.1 g.2 = Ok c ∧
                             img_pdf_v2.ni_data ni = save_jpeg c 95) groups imgs).
Proof.
  intros Ht Hp.
  destruct (page_groups_spec total p Ht Hp)
    as (groups & n & Hg & Hlen & Hn & Hk & Hcat & Hsize).
  exists groups, n.
  split; [exact Hg|]. split; [by rewrite emitted_groups_eq|].
  split; [exact Hlen|]. split; [exact Hn|]. split; [exact Hk|].
  split; [exact Hcat|]. split; [exact Hsize|].
  split; [by apply admitted_groups_eq|]. split; [|split].
  - intros pil f quality_level pdf_images Hconv Hcount Hpp Hshort.
    apply (st_convert_short f quality_level pdf_images Hconv). lia.
  - intros pil f doc quality pdf_quality images captions Hcount Hpp Hbody.
    apply pdf_to_images_body_spec in Hbody
      as (z & p' & groups' & Hz & Hp' & Hg' & Hall & _).
    exists z. split; [exact Hz|].
    rewrite Hcount in Hg'. congruence.
  - intros pil f doc quality_level imgs Hcount Hpp Hbody.
    apply v2_body_spec in Hbody as (groups' & Hg' & Hall).
    rewrite Hcount, Hpp, emitted_groups_eq in Hg' by lia. congruence.
Qed.

Lemma page_grouping_witness :
  1 ≤ 10 ∧ 1 ≤ 4 ∧
  ∃ groups,
    anthropic_ocr.page_groups 10 4 = Ok groups ∧
    img_pdf_v2.emitted_groups 10 4 = Ok groups ∧
    groups = [(0, 4); (4, 8); (8, 10)].
Proof.
  split; [lia|]. split; [lia|].
  destruct (page_grouping 10 4) as (groups & n & Hg & Hv2 & _); [lia | lia |].
  exists groups. split; [exact Hg|]. split; [exact Hv2|].
  assert (Heval : anthropic_ocr.page_groups 10 4 = Ok [(0, 4); (4, 8); (8, 10)])
    by (vm_compute; reflexivity).
  congruence.
Defined.

(** A three-page document at quality level 3 of src/testing/st_img_4o_pdf.py,
    that is four pages per image: the claimed grouping has the one group
    [0 .. 2]; the loop processes no group and the function returns the empty
    list. *)
Lemma page_grouping_counterexample :
  st_img_4o_pdf.get_pages_per_image 3 = 4 ∧
  anthropic_ocr.page_groups 3 4 = Ok [(0, 3)] ∧
  st_img_4o_pdf.admitted_groups 3 4 = Ok [] ∧
  st_img_4o_pdf.convert_pdf_to_images three_pages 3 = Ok [] ∧
  ¬ (∃ groups,
       st_img_4o_pdf.admitted_groups 3 4 = Ok groups ∧
       concat ((λ g, py_range g.1 g.2) <$> groups) = py_range 0 3).
Proof.
  split; [vm_compute; reflexivity|]. split; [vm_compute; reflexivity|].
  split; [vm_compute; reflexivity|]. split; [vm_compute; reflexivity|].
  intros (groups & Hg & Hcat).
  assert (Heval : st_img_4o_pdf.admitted_groups 3 4 = Ok []) by (vm_compute; reflexivity).
  rewrite Heval in Hg. injection Hg as <-. vm_compute in Hcat. discriminate.
Qed.

Section claims.
Context `{PIL}.

(** C2, builder by builder: on a non-empty list of images
    [combine_images_vertically] of src/anthropic_ocr.py returns one RGB image
    whose width is the largest of the widths and whose height is the sum of
    the heights; the [k]-th image lies in it at the horizontal offset
    [(max_width - width) // 2] and at the vertical offset that is the sum of
    the heights before it (converted to RGB; as it is when it is RGB
    already), and every pixel outside the pasted images is white.
    The composite that [convert_pdf_to_images] of src/testing/img_pdf_v2.py
    builds in line is sized from the rectangle of the first page of the group,
    [int(rect.width * 2)] by [int(rect.height * 2 * n)], and its pages are
    pasted at the left edge, [int(rect.height * 2)] apart. *)
Theorem composite_builder (images : list Image) :
  images ≠ [] →
  (∃ combined,
     anthropic_ocr.combine_images_vertically images = Ok (Some combined) ∧
     mode combined = "RGB" ∧
     (∀ img, img ∈ images → width img ≤ width combined) ∧
     (∃ img, img ∈ images ∧ width img = width combined) ∧
     height combined = sumZ (height <$> images) ∧
     (∀ k img x y, images !! k = Some img →
        0 ≤ x < width img → 0 ≤ y < height img →
        getpixel combined
          ((width combined - width img) `div` 2 + x,
           sumZ (height <$> take k images) + y)
          = getpixel (convert img "RGB") (x, y)) ∧
     (∀ k img x y, images !! k = Some img → mode img = "RGB" →
        0 ≤ x < width img → 0 ≤ y < height img →
        getpixel combined
          ((width combined - width img) `div` 2 + x,
           sumZ (height <$> take k images) + y)
          = getpixel img (x, y)) ∧
     (∀ x y, 0 ≤ x < width combined → 0 ≤ y < height combined →
        (∀ k img, images !! k = Some img →
           in_box ((width combined - width img) `div` 2)
             (sumZ (height <$> take k images)) (width img) (height img) x y = false) →
        getpixel combined (x, y) = white)) ∧
  (∀ (doc : Document) (i end_idx : Z) (out : Image),
     img_pdf_v2.combine_group doc i end_idx = Ok out →
     ∃ first_page combined_width combined_height row_height canvas imgs,
       doc_getitem doc i = Ok first_page ∧
       img_pdf_v2.int_times_zoom (rect_width first_page) = Ok combined_width ∧
       v2_combined_height first_page (end_idx - i) = Some combined_height ∧
       img_pdf_v2.int_times_zoom (rect_height first_page) = Ok row_height ∧
       Image_new "RGB" (combined_width, combined_height) white = Ok canvas ∧
       Forall2 (λ k img, rasterize_page doc (PyFloat.of_int 2) k = Ok img)
         (py_range i end_idx) imgs ∧
       out = v2_paste_rows row_height canvas
               (zip (py_enumerate (py_range i end_idx)) imgs) ∧
       mode out = "RGB" ∧ width out = combined_width ∧ height out = combined_height).
Proof.
  intros Hne. split.
  - destruct (combine_images_vertically_ok images Hne)
      as (combined & Hc & Hm & Hle & Hatt & Hh & Hin & Hout).
    exists combined. do 5 (split; [assumption|]). split; [exact Hin|].
    split; [|exact Hout].
    intros k img x y Hk Hrgb Hx Hy.
    transitivity (getpixel (convert img "RGB") (x, y)); [by apply Hin|].
    by rewrite <- Hrgb, convert_same.
  - apply v2_combine_group_spec.
Qed.

(** C6: a run of [pdf_to_images] of src/anthropic_ocr.py that succeeds
    returns one caption per page group, in order: for the group of the pages
    [start .. end - 1] it is the file name, [" - Page "] and [start + 1] when
    the group has one page, and the file name, [" - Pages "], [start + 1],
    ["-"] and [end] otherwise.  The function of
    src/new_test/fix_rgba_filedata_error.py, in which every page is a group,
    captions page [k] with [" - Page "] and [k + 1]. *)
Theorem captions_of_groups (f : UploadedFile) (doc : Document)
    (quality pdf_quality : string) :
  fitz_open f = Ok doc →
  (∀ images captions,
     anthropic_ocr.pdf_to_images_body f doc quality pdf_quality = Ok (images, captions) →
     outcome (anthropic_ocr.pdf_to_images f quality pdf_quality) = Ok (images, captions) ∧
     ∃ p groups,
       anthropic_ocr.get_pages_per_image pdf_quality = Ok p ∧
       anthropic_ocr.page_groups (page_count doc) p = Ok groups ∧
       length images = length groups ∧
       captions = (λ g, spec_caption (name f) g.1 g.2) <$> groups) ∧
  (∀ images captions,
     fix_rgba_filedata_error.pdf_to_images_body f doc quality = Ok (images, captions) →
     outcome (fix_rgba_filedata_error.pdf_to_images f quality) = Ok (images, captions) ∧
     length images = Z.to_nat (page_count doc) ∧
     captions = (λ k, spec_caption (name f) k (k + 1)) <$> py_range 0 (page_count doc)).
Proof.
  intros Hopen. split; intros images captions Hbody.
  - split; [by rewrite pdf_to_images_run, Hopen, Hbody|].
    apply pdf_to_images_body_spec in Hbody as (z & p & groups & _ & Hp & Hg & Hall & Hcap).
    exists p, groups. repeat split; try assumption.
    symmetry. by eapply Forall2_length.
  - split; [by rewrite fix_rgba_pdf_to_images_run, Hopen, Hbody|].
    apply fix_rgba_pdf_to_images_body_spec in Hbody as (z & _ & Hall & Hcap).
    split; [|assumption].
    apply Forall2_length in Hall. rewrite <- Hall. unfold py_range.
    rewrite length_seqZ. f_equal. lia.
Qed.

Lemma fails_to_convert_run (f : UploadedFile) (quality pdf_quality : string) :
  fails_to_convert f quality pdf_quality →
  ∃ t msg,
    anthropic_ocr.pdf_to_images f quality pdf_quality = (t, Ok ([], [])) ∧
    st_errors t = [msg] ∧
    (t = [EvStError msg] ∨ t = [EvOpen (name f); EvStError msg]).
Proof.
  intros [(e & Hopen)|(doc & z & p & k & e & Hopen & Hz & Hp & Hk & Hfail)];
    rewrite pdf_to_images_run, Hopen.
  - eexists _, _. split; [reflexivity|]. split; [reflexivity|]. by left.
  - destruct (pdf_to_images_body_raises f doc quality pdf_quality z p k e)
      as (e' & He'); try assumption.
    rewrite He'. eexists _, _. split; [reflexivity|]. split; [reflexivity|]. by right.
Qed.

(** C3: when a document cannot be opened or one of its pages cannot be
    rasterized, [pdf_to_images] returns no payload and no caption and shows
    exactly one error; in a batch that contains the document, the session ends
    up with the payloads and captions of the other files, each as it is
    processed on its own, in order, and the trace of the batch is the traces
    of the files one after the other. *)
Theorem page_failure_aborts_document (f : UploadedFile) (quality pdf_quality : string) :
  type f = "application/pdf" →
  fails_to_convert f quality pdf_quality →
  ∃ t msg,
    anthropic_ocr.pdf_to_images f quality pdf_quality = (t, Ok ([], [])) ∧
    st_errors t = [msg] ∧
    ∀ (s : anthropic_ocr.Session) (before after : list UploadedFile),
      anthropic_ocr.process_uploads quality pdf_quality s (before ++ f :: after)
      = (concat (alone_trace quality pdf_quality <$> before) ++ t
           ++ concat (alone_trace quality pdf_quality <$> after),
         Ok (foldl session_app empty_session
               (alone_session quality pdf_quality <$> (before ++ after)))).
Proof.
  intros Htype Hfail.
  destruct (fails_to_convert_run f quality pdf_quality Hfail) as (t & msg & Hrun & Herr & _).
  exists t, msg. split; [exact Hrun|]. split; [exact Herr|].
  intros s before after.
  assert (Halone : alone_trace quality pdf_quality f = t ∧
                   alone_session quality pdf_quality f = empty_session).
  { unfold alone_trace, alone_session, alone, anthropic_ocr.process_upload.
    rewrite Htype, bool_decide_eq_true_2 by done. rewrite Hrun. cbn.
    by rewrite app_nil_r. }
  destruct Halone as [Htr Hse].
  unfold anthropic_ocr.process_uploads.
  destruct (before ++ f :: after) as [|f0 rest] eqn:Hfiles;
    [by destruct before|].
  rewrite <- Hfiles. rewrite process_upload_loop.
  rewrite !fmap_app, !fmap_cons, concat_app, !foldl_app. csimpl.
  rewrite Htr, Hse, session_app_empty_r. reflexivity.
Qed.

(** C7, path by path: [pdf_to_images] closes the document it
    opened when the conversion succeeds.  When the conversion raises after the
    document was opened, the handler reports the error and returns; nothing
    closes the document, which stays open.  The same holds of the function in
    src/new_test/fix_rgba_filedata_error.py. *)
Theorem pdf_to_images_handle (f : UploadedFile) (doc : Document)
    (quality pdf_quality : string) :
  fitz_open f = Ok doc →
  (∀ r, anthropic_ocr.pdf_to_images_body f doc quality pdf_quality = Ok r →
     open_handles (trace (anthropic_ocr.pdf_to_images f quality pdf_quality)) = []) ∧
  (∀ e, anthropic_ocr.pdf_to_images_body f doc quality pdf_quality = Raise e →
     open_handles (trace (anthropic_ocr.pdf_to_images f quality pdf_quality)) = [name f]) ∧
  (∀ r, fix_rgba_filedata_error.pdf_to_images_body f doc quality = Ok r →
     open_handles (trace (fix_rgba_filedata_error.pdf_to_images f quality)) = []) ∧
  (∀ e, fix_rgba_filedata_error.pdf_to_images_body f doc quality = Raise e →
     open_handles (trace (fix_rgba_filedata_error.pdf_to_images f quality)) = [name f]).
Proof.
  intros Hopen.
  split; [|split; [|split]]; intros r Hbody;
    rewrite ?pdf_to_images_run, ?fix_rgba_pdf_to_images_run, Hopen, Hbody;
    cbn; by rewrite ?bool_decide_eq_true_2.
Qed.

End claims.

(** ** The claims on the sample inputs *)

Lemma composite_builder_witness :
  [photo; dot] ≠ [] ∧
  ∃ combined,
    anthropic_ocr.combine_images_vertically [photo; dot] = Ok (Some combined) ∧
    height combined = 11 ∧
    getpixel combined (44, 10) = [0; 0; 0] ∧
    getpixel combined (43, 10) = white.
Proof.
  split; [discriminate|].
  destruct (composite_builder [photo; dot]) as [(c & Hc & _ & _ & _ & Hh & _) _];
    [discriminate|].
  exists c. split; [exact Hc|]. split; [rewrite Hh; reflexivity|].
  assert (Heval : ∃ c', anthropic_ocr.combine_images_vertically [photo; dot] = Ok (Some c') ∧
            getpixel c' (44, 10) = [0; 0; 0] ∧ getpixel c' (43, 10) = white).
  { eexists. split; [reflexivity|]. split; reflexivity. }
  destruct Heval as (c' & Hc' & Hp1 & Hp2).
  assert (c' = c) as -> by congruence. by split.
Defined.

(** Two pages of different sizes in one group of src/testing/img_pdf_v2.py:
    the pixmaps measure 20 by 20 and 40 by 60, so the claimed composite is 40
    wide and 80 high; the composite built is 20 wide and 40 high. *)
Lemma composite_builder_counterexample :
  match img_pdf_v2.combine_group mixed_pages 0 2,
        rasterize_page mixed_pages (PyFloat.of_int 2) 0,
        rasterize_page mixed_pages (PyFloat.of_int 2) 1 with
  | Ok out, Ok img0, Ok img1 =>
      width out = 20 ∧ Z.max (width img0) (width img1) = 40 ∧
      height out = 40 ∧ height img0 + height img1 = 80 ∧
      width out ≠ Z.max (width img0) (width img1) ∧
      height out ≠ height img0 + height img1
  | _, _, _ => False
  end.
Proof. vm_compute. repeat split; congruence. Qed.

Lemma captions_of_groups_witness :
  fitz_open ten_pages = Ok {| doc_pages := replicate 10 (sample_page 10 10) |} ∧
  ∃ images captions,
    outcome (anthropic_ocr.pdf_to_images ten_pages "Medium" "Medium")
      = Ok (images, captions) ∧
    captions = ["report.pdf - Pages 1-4"; "report.pdf - Pages 5-8";
                "report.pdf - Pages 9-10"].
Proof.
  split; [reflexivity|].
  destruct (anthropic_ocr.pdf_to_images_body ten_pages
              {| doc_pages := replicate 10 (sample_page 10 10) |} "Medium" "Medium")
    as [[images captions]|e] eqn:Hbody.
  - destruct (captions_of_groups ten_pages
                {| doc_pages := replicate 10 (sample_page 10 10) |} "Medium" "Medium"
                eq_refl) as [Ha _].
    destruct (Ha images captions Hbody) as (Hout & p & groups & Hp & Hg & _ & Hcap).
    exists images, captions. split; [exact Hout|].
    vm_compute in Hp. injection Hp as <-.
    vm_compute in Hg. injection Hg as <-.
    rewrite Hcap. vm_compute. reflexivity.
  - exfalso. assert (Hok := f_equal is_ok Hbody). vm_compute in Hok. discriminate.
Defined.

Lemma page_failure_aborts_document_witness :
  type third_page_broken = "application/pdf" ∧
  fails_to_convert third_page_broken "Medium" "Medium" ∧
  ∃ t msg,
    anthropic_ocr.pdf_to_images third_page_broken "Medium" "Medium" = (t, Ok ([], [])) ∧
    st_errors t = [msg] ∧
    match outcome (anthropic_ocr.process_uploads "Medium" "Medium" empty_session
                     [ten_pages; third_page_broken; image_upload "photo.png" photo]) with
    | Ok s =>
        anthropic_ocr.image_captions s
        = ["report.pdf - Pages 1-4"; "report.pdf - Pages 5-8";
           "report.pdf - Pages 9-10"; "photo.png"]
    | Raise _ => False
    end.
Proof.
  assert (Hfail : fails_to_convert third_page_broken "Medium" "Medium").
  { right.
    exists {| doc_pages := [sample_page 10 10; sample_page 10 10; broken_page;
                            sample_page 10 10] |},
      (PyFloat.literal 45 100), 4, 2, (LibError "cannot render page").
    split; [reflexivity|]. split; [reflexivity|]. split; [reflexivity|].
    split; [vm_compute; split; congruence|]. reflexivity. }
  split; [reflexivity|]. split; [exact Hfail|].
  destruct (page_failure_aborts_document third_page_broken "Medium" "Medium"
              eq_refl Hfail) as (t & msg & Hrun & Herr & Hbatch).
  exists t, msg. split; [exact Hrun|]. split; [exact Herr|].
  specialize (Hbatch empty_session [ten_pages] [image_upload "photo.png" photo]).
  simpl app in Hbatch. rewrite Hbatch. vm_compute. reflexivity.
Defined.

Lemma pdf_to_images_handle_witness :
  fitz_open third_page_broken
    = Ok {| doc_pages := [sample_page 10 10; sample_page 10 10; broken_page;
                          sample_page 10 10] |} ∧
  open_handles (trace (anthropic_ocr.pdf_to_images third_page_broken "Medium" "Medium"))
    = ["broken.pdf"] ∧
  open_handles (trace (fix_rgba_filedata_error.pdf_to_images third_page_broken "Medium"))
    = ["broken.pdf"].
Proof.
  split; [reflexivity|].
  destruct (pdf_to_images_handle third_page_broken
              {| doc_pages := [sample_page 10 10; sample_page 10 10; broken_page;
                               sample_page 10 10] |} "Medium" "Medium" eq_refl)
    as (_ & Habort & _ & Habort').
  split.
  - apply (Habort (LibError "cannot render page")). vm_compute. reflexivity.
  - apply (Habort' (LibError "cannot render page")). vm_compute. reflexivity.
Defined.


Lemma to_rgb_idempotent_witness :
  mode photo = "RGB" ∧
  anthropic_ocr.has_alpha photo = false ∧ anthropic_ocr.to_rgb photo = Ok photo.
Proof.
  split; [reflexivity|]. apply (proj1 (to_rgb_idempotent photo)). reflexivity.
Defined.

Lemma to_rgb_spec_witness :
  ∃ out, anthropic_ocr.to_rgb sticker = Ok out ∧ mode out = "RGB" ∧
    width out = 2 ∧ height out = 1 ∧
    getpixel out (0, 0) = white ∧ getpixel out (1, 0) = [40; 50; 60].
Proof.
  destruct (to_rgb_spec sticker) as (out & Hout & Hm & Hw & Hh & Halpha & _).
  destruct Halpha as (bg & _ & _ & Ht & Ho); [by left|].
  exists out. split; [exact Hout|]. split; [exact Hm|].
  split; [exact Hw|]. split; [exact Hh|]. split.
  - apply Ht; [simpl; lia | simpl; lia | reflexivity].
  - rewrite Ho; [reflexivity | simpl; lia | simpl; lia | reflexivity].
Defined.

(** * The rest of the pipeline *)

(** ** Quality names *)

(** [py_repr] on the strings of one character is what the interpreter
    prints, for each of the 256 characters; and it chooses the quotes as the
    interpreter does: ["a'b"] goes between double quotes, and a text with
    both kinds of quote between single quotes, its single quotes escaped. *)
Lemma py_repr_interpreter :
  (λ n, nat_of_ascii <$> String.list_ascii_of_string
                           (py_repr (String (ascii_of_nat n) EmptyString)))
    <$> seq 0 256 = interpreter_repr ∧
  py_repr "a'b" = String double_quote ("a'b" +:+ String double_quote "") ∧
  py_repr (String "a" (String single_quote (String double_quote "c")))
  = String single_quote
      (String "a" (String backslash (String single_quote
         (String double_quote (String "c" (String single_quote ""))))))  ∧
  py_repr "Very High" = "'Very High'".
Proof. vm_compute. repeat split. Qed.

Lemma lookup_outside_options {V} (quality : string) (v1 v2 v3 v4 v5 : V) :
  quality ∉ slider_options →
  (<["Very High" := v1]> (<["High" := v2]> (<["Medium" := v3]>
     (<["Low" := v4]> (<["Very Low" := v5]> (∅ : gmap string V)))))) !! quality = None.
Proof.
  intros Hout.
  rewrite !lookup_insert_ne; [apply lookup_empty|..];
    intros <-; apply Hout; unfold slider_options; set_solver.
Qed.

Lemma slider_options_level (quality : string) :
  quality ∈ slider_options → ∃ q, quality = level_name q.
Proof.
  unfold slider_options. rewrite !elem_of_cons, elem_of_nil.
  intros [->|[->|[->|[->|[->|[]]]]]];
    [exists VeryLow | exists Low | exists Medium | exists High | exists VeryHigh];
    reflexivity.
Qed.

Section quality_names.
Context `{PIL}.

(** X1: The two tables of src/anthropic_ocr.py and the zoom table of
    src/new_test/fix_rgba_filedata_error.py are defined on the five options
    of the sliders and on nothing else: for any other string the lookup
    raises [KeyError] with that string.  In [pdf_to_images] the lookup comes
    after the document is opened, so there the error is reported by the
    handler, with the key as [repr] writes it, and nothing is returned. *)
Theorem quality_names (quality : string) :
  (quality ∈ slider_options →
     is_ok (anthropic_ocr.get_zoom_factor quality) = true ∧
     is_ok (anthropic_ocr.get_pages_per_image quality) = true ∧
     is_ok (fix_rgba_filedata_error.get_zoom_factor quality) = true) ∧
  (quality ∉ slider_options →
     anthropic_ocr.get_zoom_factor quality = Raise (KeyError quality) ∧
     anthropic_ocr.get_pages_per_image quality = Raise (KeyError quality) ∧
     fix_rgba_filedata_error.get_zoom_factor quality = Raise (KeyError quality) ∧
     ∀ (f : UploadedFile) (doc : Document) (pdf_quality : string),
       fitz_open f = Ok doc →
       anthropic_ocr.pdf_to_images f quality pdf_quality
       = ([EvOpen (name f);
           EvStError ("Error processing PDF " +:+ name f +:+ ": "
                      +:+ py_repr quality)],
          Ok ([], []))).
Proof.
  split.
  - intros Hin. apply slider_options_level in Hin as [q ->].
    rewrite get_zoom_factor_level, get_pages_per_image_level,
      fix_rgba_get_zoom_factor_level. done.
  - intros Hout.
    assert (Hz : anthropic_ocr.get_zoom_factor quality = Raise (KeyError quality)).
    { unfold anthropic_ocr.get_zoom_factor, dict_getitem,
        anthropic_ocr.zoom_quality_map.
      by rewrite lookup_outside_options. }
    split; [exact Hz|]. split; [|split].
    + unfold anthropic_ocr.get_pages_per_image, dict_getitem,
        anthropic_ocr.pages_quality_map.
      by rewrite lookup_outside_options.
    + unfold fix_rgba_filedata_error.get_zoom_factor, dict_getitem,
        fix_rgba_filedata_error.zoom_quality_map.
      by rewrite lookup_outside_options.
    + intros f doc pdf_quality Hopen.
      rewrite pdf_to_images_run, Hopen.
      unfold anthropic_ocr.pdf_to_images_body. rewrite Hz. reflexivity.
Qed.

End quality_names.

(** ** Documents whose pages all rasterize *)

Lemma try_map_total {A B} (f : A → result B) (l : list A) :
  (∀ a, a ∈ l → is_ok (f a) = true) →
  ∃ bs, try_map f l = Ok bs ∧ length bs = length l.
Proof.
  induction l as [|a l IH]; intros Hall; [by exists []|].
  destruct IH as (bs & Hbs & Hlen).
  { intros a' Ha'. apply Hall. by apply list_elem_of_further. }
  pose proof (Hall a (list_elem_of_here _ _)) as Ha.
  simpl. destruct (f a) as [b|e]; [|discriminate].
  rewrite Hbs. exists (b :: bs). simpl. by rewrite Hlen.
Qed.

Section success.
Context `{PIL}.

Lemma group_payload_total (doc : Document) (z : float) (s e : Z) :
  s < e →
  (∀ k, s ≤ k < e → is_ok (rasterize_page doc z k) = true) →
  is_ok (anthropic_ocr.group_payload doc z s e) = true.
Proof.
  intros Hse Hall. unfold anthropic_ocr.group_payload. rewrite render_page_loop.
  destruct (try_map_total (rasterize_page doc z) (py_range s e)) as (imgs & Himgs & Hlen).
  { intros k Hk. apply Hall. apply elem_of_seqZ in Hk. lia. }
  rewrite Himgs. csimpl.
  destruct (combine_images_vertically_ok imgs) as (combined & Hc & _).
  { intros ->. unfold py_range in Hlen. rewrite length_seqZ in Hlen. simpl in Hlen. lia. }
  rewrite Hc. reflexivity.
Qed.

Lemma pdf_to_images_body_total (f : UploadedFile) (doc : Document)
    (quality pdf_quality : string) (z : float) (p : Z) :
  anthropic_ocr.get_zoom_factor quality = Ok z →
  anthropic_ocr.get_pages_per_image pdf_quality = Ok p →
  (∀ k, 0 ≤ k < page_count doc → is_ok (rasterize_page doc z k) = true) →
  ∃ images captions n,
    anthropic_ocr.pdf_to_images_body f doc quality pdf_quality = Ok (images, captions) ∧
    Z.of_nat (length images) = n ∧ Z.of_nat (length captions) = n ∧
    (n - 1) * p < page_count doc ≤ n * p.
Proof.
  intros Hz Hp Hall. pose proof (get_pages_per_image_range _ _ Hp) as Hrange.
  unfold anthropic_ocr.pdf_to_images_body. rewrite Hz, Hp. csimpl.
  destruct (ceil_truediv_spec (page_count doc) p) as (n & Hn & Hbound); [lia|].
  rewrite Hn. csimpl. rewrite convert_group_loop.
  assert (Hn0 : 0 ≤ n) by (unfold page_count in *; nia).
  destruct (try_map_total
              (λ g, anthropic_ocr.group_payload doc z
                      (group_span p (page_count doc) g).1
                      (group_span p (page_count doc) g).2)
              (py_range 0 n)) as (pls & Hpls & Hlen).
  { intros g Hg. apply elem_of_seqZ in Hg. simpl.
    apply group_payload_total; [nia|]. intros k Hk. apply Hall. nia. }
  rewrite Hpls. csimpl. eexists _, _, n. split; [reflexivity|].
  rewrite length_fmap, Hlen. unfold py_range. rewrite length_seqZ.
  repeat split; lia.
Qed.

(** X2: When the quality names are options of the sliders and every page of the
    document rasterizes, [pdf_to_images] of src/anthropic_ocr.py succeeds: it
    shows no error, closes the document, and returns as many payloads as
    captions, one for each of the [ceil(page_count / pages_per_image)] groups;
    none for a document without pages. *)
Theorem pdf_to_images_succeeds (f : UploadedFile) (doc : Document)
    (quality pdf_quality : string) (z : float) (p : Z) :
  fitz_open f = Ok doc →
  anthropic_ocr.get_zoom_factor quality = Ok z →
  anthropic_ocr.get_pages_per_image pdf_quality = Ok p →
  (∀ k, 0 ≤ k < page_count doc → is_ok (rasterize_page doc z k) = true) →
  ∃ images captions n,
    anthropic_ocr.pdf_to_images f quality pdf_quality
    = ([EvOpen (name f); EvClose (name f)], Ok (images, captions)) ∧
    Z.of_nat (length images) = n ∧ Z.of_nat (length captions) = n ∧
    (n - 1) * p < page_count doc ≤ n * p ∧
    (page_count doc = 0 → images = [] ∧ captions = []).
Proof.
  intros Hopen Hz Hp Hall.
  destruct (pdf_to_images_body_total f doc quality pdf_quality z p Hz Hp Hall)
    as (images & captions & n & Hbody & Hi & Hc & Hbound).
  exists images, captions, n. rewrite pdf_to_images_run, Hopen, Hbody.
  split; [reflexivity|]. split; [exact Hi|]. split; [exact Hc|].
  split; [exact Hbound|].
  intros Hzero. pose proof (get_pages_per_image_range _ _ Hp) as Hrange.
  assert (n = 0) as -> by nia.
  destruct images; [|discriminate]. destruct captions; [|discriminate]. done.
Qed.

(** X3: The same of [pdf_to_images] of src/new_test/fix_rgba_filedata_error.py,
    which returns one payload and one caption for every page. *)
Theorem fix_rgba_pdf_to_images_succeeds (f : UploadedFile) (doc : Document)
    (quality : string) (z : float) :
  fitz_open f = Ok doc →
  fix_rgba_filedata_error.get_zoom_factor quality = Ok z →
  (∀ k, 0 ≤ k < page_count doc → is_ok (rasterize_page doc z k) = true) →
  ∃ images captions,
    fix_rgba_filedata_error.pdf_to_images f quality
    = ([EvOpen (name f); EvClose (name f)], Ok (images, captions)) ∧
    Z.of_nat (length images) = page_count doc ∧
    Z.of_nat (length captions) = page_count doc.
Proof.
  intros Hopen Hz Hall.
  rewrite fix_rgba_pdf_to_images_run, Hopen.
  unfold fix_rgba_filedata_error.pdf_to_images_body. rewrite Hz. csimpl.
  rewrite convert_page_loop.
  destruct (try_map_total (rasterize_page doc z) (py_range 0 (page_count doc)))
    as (imgs & Himgs & Hlen).
  { intros k Hk. apply Hall. apply elem_of_seqZ in Hk. lia. }
  rewrite Himgs. csimpl. eexists _, _. split; [reflexivity|].
  rewrite !length_fmap, Hlen. unfold py_range. rewrite length_seqZ.
  unfold page_count. lia.
Qed.

End success.

Lemma pdf_to_images_succeeds_witness :
  ∃ images captions,
    anthropic_ocr.pdf_to_images ten_pages "Medium" "Medium"
    = ([EvOpen "report.pdf"; EvClose "report.pdf"], Ok (images, captions)) ∧
    length images = 3%nat ∧ length captions = 3%nat.
Proof.
  destruct (pdf_to_images_succeeds ten_pages
              {| doc_pages := replicate 10 (sample_page 10 10) |}
              "Medium" "Medium" (PyFloat.literal 45 100) 4)
    as (images & captions & n & Hrun & Hi & Hc & Hbound & _).
  - reflexivity.
  - reflexivity.
  - reflexivity.
  - intros k Hk.
    assert (Hcases : k = 0 ∨ k = 1 ∨ k = 2 ∨ k = 3 ∨ k = 4 ∨ k = 5 ∨ k = 6
                     ∨ k = 7 ∨ k = 8 ∨ k = 9) by (change (0 ≤ k < 10) in Hk; lia).
    repeat (destruct Hcases as [->|Hcases]; [vm_compute; reflexivity|]).
    subst k. vm_compute. reflexivity.
  - exists images, captions. split; [exact Hrun|].
    change (page_count _) with 10 in Hbound.
    assert (n = 3) as -> by lia. lia.
Defined.

Lemma fix_rgba_pdf_to_images_succeeds_witness :
  ∃ images captions,
    fix_rgba_filedata_error.pdf_to_images three_pages "High"
    = ([EvOpen "scan.pdf"; EvClose "scan.pdf"], Ok (images, captions)) ∧
    length images = 3%nat ∧ length captions = 3%nat.
Proof.
  destruct (fix_rgba_pdf_to_images_succeeds three_pages
              {| doc_pages := replicate 3 (sample_page 10 10) |}
              "High" (PyFloat.literal 5 10))
    as (images & captions & Hrun & Hi & Hc).
  - reflexivity.
  - reflexivity.
  - intros k Hk.
    assert (Hcases : k = 0 ∨ k = 1 ∨ k = 2) by (change (0 ≤ k < 3) in Hk; lia).
    repeat (destruct Hcases as [->|Hcases]; [vm_compute; reflexivity|]).
    subst k. vm_compute. reflexivity.
  - exists images, captions. split; [exact Hrun|].
    change (page_count _) with 3 in Hi, Hc. lia.
Defined.

(** ** More pages per image, fewer images *)

Lemma ceil_truediv_antitone (total p1 p2 n1 n2 : Z) :
  0 ≤ total → 1 ≤ p2 ≤ p1 →
  ceil_truediv total p1 = Ok n1 → ceil_truediv total p2 = Ok n2 → 0 ≤ n1 ≤ n2.
Proof.
  intros Ht Hp H1 H2.
  destruct (ceil_truediv_spec total p1) as (m1 & Hm1 & Hb1); [lia|].
  destruct (ceil_truediv_spec total p2) as (m2 & Hm2 & Hb2); [lia|].
  assert (m1 = n1) as -> by congruence. assert (m2 = n2) as -> by congruence.
  assert (0 ≤ n1) by nia. assert (0 ≤ n2) by nia.
  split; [assumption|].
  destruct (Z.le_gt_cases n1 n2) as [Hle|Hgt]; [assumption|]. exfalso.
  assert (n2 * p2 ≤ (n1 - 1) * p1) by (apply Z.mul_le_mono_nonneg; lia).
  lia.
Qed.

(** X4: The number of images a document gives grows with the PDF quality: at a
    higher position of the slider [pdf_to_images] of src/anthropic_ocr.py
    walks through at least as many page groups as at a lower one, and at
    "Very High" through one for every page. *)
Theorem page_groups_monotone (total_pages : Z) (q1 q2 : QualityLevel) :
  0 ≤ total_pages → (level_rank q1 ≤ level_rank q2)%nat →
  ∃ p1 p2 groups1 groups2,
    anthropic_ocr.get_pages_per_image (level_name q1) = Ok p1 ∧
    anthropic_ocr.get_pages_per_image (level_name q2) = Ok p2 ∧
    anthropic_ocr.page_groups total_pages p1 = Ok groups1 ∧
    anthropic_ocr.page_groups total_pages p2 = Ok groups2 ∧
    (length groups1 ≤ length groups2)%nat ∧
    (q2 = VeryHigh → Z.of_nat (length groups2) = total_pages).
Proof.
  intros Ht Hrank.
  exists (spec_pages_table q1), (spec_pages_table q2).
  assert (Hp : 1 ≤ spec_pages_table q2 ≤ spec_pages_table q1)
    by (destruct q1, q2; simpl in *; lia).
  destruct (ceil_truediv_spec total_pages (spec_pages_table q1)) as (n1 & Hn1 & Hb1);
    [lia|].
  destruct (ceil_truediv_spec total_pages (spec_pages_table q2)) as (n2 & Hn2 & Hb2);
    [lia|].
  pose proof (ceil_truediv_antitone _ _ _ _ _ Ht Hp Hn1 Hn2) as Hle.
  unfold anthropic_ocr.page_groups. rewrite Hn1, Hn2. csimpl.
  eexists _, _. rewrite !get_pages_per_image_level.
  do 4 (split; [reflexivity|]).
  rewrite !length_fmap. unfold py_range. rewrite !length_seqZ.
  split; [lia|]. intros ->. simpl in Hb2. lia.
Qed.

Lemma page_groups_monotone_witness :
  ∃ groups1 groups2,
    anthropic_ocr.page_groups 10 6 = Ok groups1 ∧
    anthropic_ocr.page_groups 10 2 = Ok groups2 ∧
    length groups1 = 2%nat ∧ length groups2 = 5%nat.
Proof.
  destruct (page_groups_monotone 10 Low High)
    as (p1 & p2 & groups1 & groups2 & Hp1 & Hp2 & Hg1 & Hg2 & _); [lia | simpl; lia |].
  vm_compute in Hp1, Hp2. injection Hp1 as <-. injection Hp2 as <-.
  exists groups1, groups2. split; [exact Hg1|]. split; [exact Hg2|].
  vm_compute in Hg1, Hg2. injection Hg1 as <-. injection Hg2 as <-.
  split; reflexivity.
Defined.

(** ** Images too small for a level *)

Lemma smallest_side_scale (q : QualityLevel) (n : Z) :
  q ≠ VeryHigh → 1 ≤ n →
  (n < smallest_side q → anthropic_ocr.scale_dim n (spec_zoom_table q) = Ok 0) ∧
  (n < fix_rgba_smallest_side q →
     anthropic_ocr.scale_dim n (fix_rgba_zoom_table q) = Ok 0).
Proof.
  intros Hq Hn. split; intros Hlt; destruct q; simpl in Hlt; try done;
    (assert (Hcases : n = 1 ∨ n = 2 ∨ n = 3 ∨ n = 4 ∨ n = 5) by lia;
     repeat (destruct Hcases as [->|Hcases]; [first [lia | vm_compute; reflexivity]|]);
     subst n; first [lia | vm_compute; reflexivity]).
Qed.

Lemma smallest_side_reached (q : QualityLevel) :
  anthropic_ocr.scale_dim (smallest_side q) (spec_zoom_table q) = Ok 1 ∧
  anthropic_ocr.scale_dim (fix_rgba_smallest_side q) (fix_rgba_zoom_table q) = Ok 1.
Proof. destruct q; split; vm_compute; reflexivity. Qed.

Section tiny_images.
Context `{PIL}.

Lemma process_image_with_tiny zoom_of (image_file : UploadedFile) (img : Image)
    (q : QualityLevel) (z : float) :
  Image_open image_file = Ok img → q ≠ VeryHigh → zoom_of (level_name q) = Ok z →
  1 ≤ width img → 1 ≤ height img →
  anthropic_ocr.scale_dim (width img) z = Ok 0
  ∨ anthropic_ocr.scale_dim (height img) z = Ok 0 →
  ∃ e, anthropic_ocr.process_image_with zoom_of image_file (level_name q) = Raise e.
Proof.
  intros Hopen Hq Hz Hw Hh Hzero.
  destruct (to_rgb_ok img) as (rgb & Hrgb & _ & Hrw & Hrh).
  unfold anthropic_ocr.process_image_with. rewrite Hopen. csimpl. rewrite Hrgb. csimpl.
  case_bool_decide as Hvh; [by apply level_name_very_high in Hvh|].
  rewrite Hz. csimpl. rewrite Hrw, Hrh.
  destruct (anthropic_ocr.scale_dim (width img) z) as [nw|e] eqn:Hnw; csimpl; [|eauto].
  destruct (anthropic_ocr.scale_dim (height img) z) as [nh|e] eqn:Hnh; csimpl; [|eauto].
  destruct (resize_empty rgb nw nh) as (e & He).
  - destruct Hzero as [[= ->]|[= ->]]; lia.
  - intros [= -> ->]. destruct Hzero as [[= Hz0]|[= Hz0]]; lia.
  - rewrite He. csimpl. eauto.
Qed.

(** X5: An image with a side too short for the level cannot be processed at it:
    [int(side * zoom)] is 0 for a side of 1 pixel at "High", of up to 2 at
    "Medium", up to 3 at "Low" and up to 4 at "Very Low" (one pixel more is
    enough for a side of 1 in the result), Pillow refuses the size, and
    [process_image] of src/anthropic_ocr.py raises; the upload loop shows the
    error under the name of the file and adds nothing to the session.  The
    copy in src/new_test/fix_rgba_filedata_error.py does so for a side of up
    to 1, 3, 3 and 5 pixels. *)
Theorem tiny_images_fail (image_file : UploadedFile) (img : Image) (q : QualityLevel) :
  Image_open image_file = Ok img → q ≠ VeryHigh →
  1 ≤ width img → 1 ≤ height img →
  (width img < smallest_side q ∨ height img < smallest_side q →
     ∃ e,
       anthropic_ocr.process_image image_file (level_name q) = Raise e ∧
       ∀ pdf_quality s,
         type image_file ≠ "application/pdf" →
         anthropic_ocr.process_upload (level_name q) pdf_quality s image_file
         = ([EvStError ("Error processing file " +:+ name image_file +:+ ": "
                        +:+ str_exn e)], Ok s)) ∧
  (width img < fix_rgba_smallest_side q ∨ height img < fix_rgba_smallest_side q →
     ∃ e, fix_rgba_filedata_error.process_image image_file (level_name q) = Raise e) ∧
  anthropic_ocr.scale_dim (smallest_side q) (spec_zoom_table q) = Ok 1 ∧
  anthropic_ocr.scale_dim (fix_rgba_smallest_side q) (fix_rgba_zoom_table q) = Ok 1.
Proof.
  intros Hopen Hq Hw Hh.
  split; [|split; [|apply smallest_side_reached]].
  - intros Hsmall.
    destruct (process_image_with_tiny anthropic_ocr.get_zoom_factor image_file img q
                (spec_zoom_table q)) as (e & He); try assumption.
    { apply get_zoom_factor_level. }
    { destruct Hsmall as [Hs|Hs]; [left | right];
        by apply (smallest_side_scale q _ Hq). }
    exists e. split; [exact He|]. intros pdf_quality s Htype.
    unfold anthropic_ocr.process_upload.
    rewrite bool_decide_eq_false_2 by exact Htype.
    unfold anthropic_ocr.process_image. rewrite He. reflexivity.
  - intros Hsmall.
    apply (process_image_with_tiny fix_rgba_filedata_error.get_zoom_factor
             image_file img q (fix_rgba_zoom_table q)); try assumption.
    { apply fix_rgba_get_zoom_factor_level. }
    destruct Hsmall as [Hs|Hs]; [left | right];
      by apply (smallest_side_scale q _ Hq).
Qed.

End tiny_images.

Lemma tiny_images_fail_witness :
  ∃ e, anthropic_ocr.process_image (image_upload "dot.png" dot) "High" = Raise e.
Proof.
  destruct (tiny_images_fail (image_upload "dot.png" dot) dot High)
    as [Hfail _]; [reflexivity | discriminate | simpl; lia | simpl; lia |].
  destruct Hfail as (e & He & _); [left; simpl; lia|].
  by exists e.
Defined.

(** ** The upload loops of [main] *)

Lemma st_errors_app (t1 t2 : list event) :
  st_errors (t1 ++ t2) = st_errors t1 ++ st_errors t2.
Proof. unfold st_errors. apply omap_app. Qed.

Section upload_loops.
Context `{PIL}.

Lemma pdf_to_images_balanced (f : UploadedFile) (quality pdf_quality : string) :
  ∃ t images captions,
    anthropic_ocr.pdf_to_images f quality pdf_quality = (t, Ok (images, captions)) ∧
    length images = length captions ∧ (length (st_errors t) ≤ 1)%nat.
Proof.
  rewrite pdf_to_images_run. destruct (fitz_open f) as [doc|e].
  - destruct (anthropic_ocr.pdf_to_images_body f doc quality pdf_quality)
      as [[images captions]|e] eqn:Hbody.
    + apply pdf_to_images_body_spec in Hbody as (z & p & groups & _ & _ & _ & Hall & ->).
      eexists _, _, _. split; [reflexivity|]. split; [|simpl; lia].
      rewrite length_fmap. symmetry. by eapply Forall2_length.
    + eexists _, _, _. split; [reflexivity|]. split; [reflexivity | simpl; lia].
  - eexists _, _, _. split; [reflexivity|]. split; [reflexivity | simpl; lia].
Qed.

Lemma fix_rgba_pdf_to_images_balanced (f : UploadedFile) (quality : string) :
  ∃ t images captions,
    fix_rgba_filedata_error.pdf_to_images f quality = (t, Ok (images, captions)) ∧
    length images = length captions ∧ (length (st_errors t) ≤ 1)%nat.
Proof.
  rewrite fix_rgba_pdf_to_images_run. destruct (fitz_open f) as [doc|e].
  - destruct (fix_rgba_filedata_error.pdf_to_images_body f doc quality)
      as [[images captions]|e] eqn:Hbody.
    + apply fix_rgba_pdf_to_images_body_spec in Hbody as (z & _ & Hall & ->).
      eexists _, _, _. split; [reflexivity|]. split; [|simpl; lia].
      rewrite length_fmap. symmetry. by eapply Forall2_length.
    + eexists _, _, _. split; [reflexivity|]. split; [reflexivity | simpl; lia].
  - eexists _, _, _. split; [reflexivity|]. split; [reflexivity | simpl; lia].
Qed.

Lemma process_upload_step (quality pdf_quality : string)
    (s : anthropic_ocr.Session) (file : UploadedFile) :
  ∃ t s',
    anthropic_ocr.process_upload quality pdf_quality s file = (t, Ok s') ∧
    (balanced s → balanced s') ∧ (length (st_errors t) ≤ 1)%nat.
Proof.
  unfold anthropic_ocr.process_upload, balanced. case_bool_decide.
  - destruct (pdf_to_images_balanced file quality pdf_quality)
      as (t & images & captions & Hrun & Hlen & Herr).
    rewrite Hrun. cbn. eexists _, _. split; [reflexivity|].
    rewrite !app_nil_r. simpl. rewrite !length_app. split; [lia | exact Herr].
  - destruct (anthropic_ocr.process_image file quality) as [pl|e]; cbn;
      eexists _, _; (split; [reflexivity|]); simpl; rewrite ?length_app; simpl;
      split; lia.
Qed.

Lemma fix_rgba_process_upload_step (quality : string)
    (s : anthropic_ocr.Session) (file : UploadedFile) :
  ∃ t s',
    fix_rgba_filedata_error.process_upload quality s file = (t, Ok s') ∧
    (balanced s → balanced s') ∧ (length (st_errors t) ≤ 1)%nat.
Proof.
  unfold fix_rgba_filedata_error.process_upload, balanced. case_bool_decide.
  - destruct (fix_rgba_pdf_to_images_balanced file quality)
      as (t & images & captions & Hrun & Hlen & Herr).
    rewrite Hrun. cbn. eexists _, _. split; [reflexivity|].
    rewrite !app_nil_r. simpl. rewrite !length_app. split; [lia | exact Herr].
  - destruct (fix_rgba_filedata_error.process_image file quality) as [pl|e]; cbn;
      eexists _, _; (split; [reflexivity|]); simpl; rewrite ?length_app; simpl;
      split; lia.
Qed.

(** A loop whose every round returns, keeps the sessions balanced and shows
    at most one error does so as a whole. *)
Lemma upload_rounds (step : anthropic_ocr.Session → UploadedFile → M anthropic_ocr.Session)
    (files : list UploadedFile) (s : anthropic_ocr.Session) :
  (∀ s file, ∃ t s',
     step s file = (t, Ok s') ∧ (balanced s → balanced s') ∧
     (length (st_errors t) ≤ 1)%nat) →
  ∃ t s',
    for_each files step s = (t, Ok s') ∧ (balanced s → balanced s') ∧
    (length (st_errors t) ≤ length files)%nat.
Proof.
  intros Hstep. revert s. induction files as [|file files IH]; intros s.
  - exists [], s. split; [reflexivity|]. split; [done | simpl; lia].
  - destruct (Hstep s file) as (t1 & s1 & Hrun1 & Hbal1 & Herr1).
    destruct (IH s1) as (t2 & s2 & Hrun2 & Hbal2 & Herr2).
    exists (t1 ++ t2), s2. cbn [for_each]. rewrite Hrun1. cbn. rewrite Hrun2.
    split; [reflexivity|]. split; [auto|].
    rewrite st_errors_app, length_app. simpl. lia.
Qed.

(** X6: The upload loop of [main], in src/anthropic_ocr.py and in
    src/new_test/fix_rgba_filedata_error.py: whatever the files are, the loop
    never raises and shows at most one error for each file; with no file
    the session is left as it is, otherwise it is built anew and ends with
    exactly one caption for every image, so that the display loop, which
    zips the two lists, shows them all. *)
Theorem upload_loop_invariants (quality pdf_quality : string)
    (s : anthropic_ocr.Session) (uploaded_files : list UploadedFile) :
  (∃ t s',
     anthropic_ocr.process_uploads quality pdf_quality s uploaded_files = (t, Ok s') ∧
     (length (st_errors t) ≤ length uploaded_files)%nat ∧
     (uploaded_files = [] → s' = s) ∧
     (uploaded_files ≠ [] →
        length (anthropic_ocr.processed_images s')
        = length (anthropic_ocr.image_captions s') ∧
        length (zip (anthropic_ocr.processed_images s') (anthropic_ocr.image_captions s'))
        = length (anthropic_ocr.processed_images s'))) ∧
  (∃ t s',
     fix_rgba_filedata_error.process_uploads quality s uploaded_files = (t, Ok s') ∧
     (length (st_errors t) ≤ length uploaded_files)%nat ∧
     (uploaded_files = [] → s' = s) ∧
     (uploaded_files ≠ [] →
        length (anthropic_ocr.processed_images s')
        = length (anthropic_ocr.image_captions s') ∧
        length (zip (anthropic_ocr.processed_images s') (anthropic_ocr.image_captions s'))
        = length (anthropic_ocr.processed_images s'))).
Proof.
  split.
  - unfold anthropic_ocr.process_uploads.
    destruct uploaded_files as [|file files].
    { exists [], s. repeat split; done. }
    destruct (upload_rounds (anthropic_ocr.process_upload quality pdf_quality)
                (file :: files)
                {| anthropic_ocr.processed_images := [];
                   anthropic_ocr.image_captions := [] |}
                (process_upload_step quality pdf_quality))
      as (t & s' & Hrun & Hbal & Herr).
    exists t, s'. split; [exact Hrun|]. split; [exact Herr|].
    split; [discriminate|]. intros _.
    assert (Hlen : balanced s') by (by apply Hbal).
    split; [exact Hlen|]. rewrite length_zip. unfold balanced in Hlen. lia.
  - unfold fix_rgba_filedata_error.process_uploads.
    destruct uploaded_files as [|file files].
    { exists [], s. repeat split; done. }
    destruct (upload_rounds (fix_rgba_filedata_error.process_upload quality)
                (file :: files)
                {| anthropic_ocr.processed_images := [];
                   anthropic_ocr.image_captions := [] |}
                (fix_rgba_process_upload_step quality))
      as (t & s' & Hrun & Hbal & Herr).
    exists t, s'. split; [exact Hrun|]. split; [exact Herr|].
    split; [discriminate|]. intros _.
    assert (Hlen : balanced s') by (by apply Hbal).
    split; [exact Hlen|]. rewrite length_zip. unfold balanced in Hlen. lia.
Qed.

End upload_loops.

(** ** The variants under src/testing *)

Lemma v2_pages_per_image_range (quality_level : Z) :
  1 ≤ img_pdf_v2.get_pages_per_image quality_level ≤ 8.
Proof.
  unfold img_pdf_v2.get_pages_per_image.
  destruct (img_pdf_v2.pages_map !! quality_level) as [v|] eqn:Hl; [|simpl; lia].
  unfold img_pdf_v2.pages_map in Hl.
  repeat (apply lookup_insert_Some in Hl as [[_ <-]|[_ Hl]]; [simpl; lia|]).
  by rewrite lookup_empty in Hl.
Qed.

Lemma st_pages_per_image_range (quality_level : Z) :
  1 ≤ st_img_4o_pdf.get_pages_per_image quality_level ≤ 8.
Proof. apply v2_pages_per_image_range. Qed.

Section testing_variants.
Context `{PIL}.

Lemma v2_convert_run (f : UploadedFile) (quality_level : Z) :
  img_pdf_v2.convert_pdf_to_images f quality_level =
  match fitz_open f with
  | Raise e => ([EvStError ("Error processing PDF: " +:+ str_exn e)], Ok [])
  | Ok doc =>
      match img_pdf_v2.convert_pdf_to_images_body f doc quality_level with
      | Ok r => ([EvOpen (name f); EvClose (name f)], Ok r)
      | Raise e =>
          ([EvOpen (name f); EvStError ("Error processing PDF: " +:+ str_exn e)], Ok [])
      end
  end.
Proof.
  unfold img_pdf_v2.convert_pdf_to_images, open_document.
  destruct (fitz_open f) as [doc|e]; [|reflexivity]. cbn.
  destruct (img_pdf_v2.convert_pdf_to_images_body f doc quality_level); reflexivity.
Qed.

(** X7: [convert_pdf_to_images] of src/testing/img_pdf_v2.py, on a file
    that opens, returns a list on both paths.  It closes the document when
    the conversion succeeds; when the conversion raises after the document
    was opened it shows one error and returns the empty list, and the
    document stays open: [close()] is the last statement of the [try] block
    and the handler does not call it. *)
Theorem v2_convert_pdf_to_images_paths (f : UploadedFile) (doc : Document)
    (quality_level : Z) :
  fitz_open f = Ok doc →
  (∀ r, img_pdf_v2.convert_pdf_to_images_body f doc quality_level = Ok r →
     img_pdf_v2.convert_pdf_to_images f quality_level
     = ([EvOpen (name f); EvClose (name f)], Ok r) ∧
     open_handles (trace (img_pdf_v2.convert_pdf_to_images f quality_level)) = []) ∧
  (∀ e, img_pdf_v2.convert_pdf_to_images_body f doc quality_level = Raise e →
     img_pdf_v2.convert_pdf_to_images f quality_level
     = ([EvOpen (name f); EvStError ("Error processing PDF: " +:+ str_exn e)], Ok []) ∧
     open_handles (trace (img_pdf_v2.convert_pdf_to_images f quality_level)) = [name f]).
Proof.
  intros Hopen. split; intros r Hbody; rewrite v2_convert_run, Hopen, Hbody;
    (split; [reflexivity|]); cbn; by rewrite ?bool_decide_eq_true_2.
Qed.

Lemma for_each_raises_first {A S} (body : S → A → result S) (a : A) (l : list A)
    (s : S) (e : exn) :
  body s a = Raise e → for_each (a :: l) body s = Raise e.
Proof. intros Hb. cbn [for_each]. by rewrite Hb. Qed.

(** X8: [convert_pdf_to_images] of src/testing/st_img_4o_pdf.py never yields an
    image.  The module imports neither [Image] nor [io]: on a document with
    at least as many pages as a group takes, the first group stops at
    [Image.new] with a [NameError], which nothing catches; a shorter
    document has no full group and gives the empty list. *)
Theorem st_convert_never_yields (f : UploadedFile) (quality_level : Z) :
  (∀ processed_images,
     st_img_4o_pdf.convert_pdf_to_images f quality_level = Ok processed_images →
     processed_images = []) ∧
  (∀ pdf_images,
     convert_from_path f = Ok pdf_images →
     st_img_4o_pdf.get_pages_per_image quality_level ≤ Z.of_nat (length pdf_images) →
     st_img_4o_pdf.convert_pdf_to_images f quality_level
     = Raise (NameError "name 'Image' is not defined")).
Proof.
  pose proof (st_pages_per_image_range quality_level) as Hp.
  assert (Hfull : ∀ pdf_images,
            convert_from_path f = Ok pdf_images →
            st_img_4o_pdf.get_pages_per_image quality_level
              ≤ Z.of_nat (length pdf_images) →
            st_img_4o_pdf.convert_pdf_to_images f quality_level
            = Raise (NameError "name 'Image' is not defined")).
  { intros pdf_images Hconv Hlen. unfold st_img_4o_pdf.convert_pdf_to_images.
    rewrite Hconv. csimpl.
    set (p := st_img_4o_pdf.get_pages_per_image quality_level) in *.
    set (total := Z.of_nat (length pdf_images)) in *.
    destruct (ceil_truediv_spec total p) as (n & Hn & Hbound); [lia|].
    rewrite (py_range_step_ceil total p n) by (lia || done). csimpl.
    assert (Hn1 : 1 ≤ n) by nia.
    rewrite (seqZ_cons 0 n) by lia. csimpl.
    apply for_each_raises_first. unfold st_img_4o_pdf.convert_group.
    rewrite Z.mul_0_l.
    rewrite (proj2 (is_full_iff 0 p total)) by lia.
    destruct pdf_images as [|first rest]; [simpl in total; lia|]. reflexivity. }
  split; [|exact Hfull].
  intros processed_images Hok.
  destruct (convert_from_path f) as [pdf_images|e] eqn:Hconv.
  - destruct (Z.le_gt_cases (st_img_4o_pdf.get_pages_per_image quality_level)
                (Z.of_nat (length pdf_images))) as [Hle|Hgt].
    + rewrite (Hfull pdf_images eq_refl Hle) in Hok. discriminate.
    + destruct pdf_images as [|first rest].
      * unfold st_img_4o_pdf.convert_pdf_to_images in Hok. rewrite Hconv in Hok.
        csimpl in Hok.
        rewrite (py_range_step_ceil _ _ 0) in Hok
          by (lia || (apply ceil_truediv_unique; lia)).
        csimpl in Hok. by inversion Hok.
      * rewrite (st_convert_short f quality_level (first :: rest) Hconv) in Hok
          by (simpl length in *; lia).
        congruence.
  - unfold st_img_4o_pdf.convert_pdf_to_images in Hok. rewrite Hconv in Hok.
    discriminate.
Qed.

End testing_variants.

Lemma v2_convert_pdf_to_images_paths_witness :
  img_pdf_v2.convert_pdf_to_images third_page_broken 3
  = ([EvOpen "broken.pdf"; EvStError "Error processing PDF: cannot render page"], Ok []) ∧
  open_handles (trace (img_pdf_v2.convert_pdf_to_images third_page_broken 3))
  = ["broken.pdf"].
Proof.
  destruct (v2_convert_pdf_to_images_paths third_page_broken
              {| doc_pages := [sample_page 10 10; sample_page 10 10; broken_page;
                               sample_page 10 10] |} 3 eq_refl) as [_ Habort].
  apply (Habort (LibError "cannot render page")). vm_compute. reflexivity.
Defined.

(** ** File names of the composites *)

Lemma before_last_dot_none (l : list ascii) :
  "."%char ∉ l → before_last_dot l = None.
Proof.
  induction l as [|c l IH]; intros Hout; [reflexivity|].
  apply not_elem_of_cons in Hout as [Hc Hl]. simpl. rewrite IH by exact Hl.
  by rewrite bool_decide_eq_false_2 by congruence.
Qed.

Lemma before_last_dot_app (stem ext : list ascii) :
  "."%char ∉ ext → before_last_dot (stem ++ "."%char :: ext) = Some stem.
Proof.
  intros Hout. induction stem as [|c stem IH]; simpl.
  - by rewrite before_last_dot_none.
  - by rewrite IH.
Qed.

Lemma list_ascii_of_string_app (s1 s2 : string) :
  String.list_ascii_of_string (s1 +:+ s2)
  = String.list_ascii_of_string s1 ++ String.list_ascii_of_string s2.
Proof. induction s1 as [|c s1 IH]; simpl; [reflexivity | by rewrite IH]. Qed.

(** [rsplit('.', 1)[0]] removes the last extension and nothing else; a name
    without a dot is kept whole. *)
Lemma rsplit_dot_head_spec (stem ext : string) :
  "."%char ∉ String.list_ascii_of_string ext →
  rsplit_dot_head (stem +:+ "." +:+ ext) = stem ∧ rsplit_dot_head ext = ext.
Proof.
  intros Hout. unfold rsplit_dot_head. split.
  - rewrite list_ascii_of_string_app. simpl.
    rewrite before_last_dot_app by exact Hout.
    apply String.string_of_list_ascii_of_string.
  - by rewrite before_last_dot_none.
Qed.

Section file_names.
Context `{PIL}.

(** X9: A round of the loop of [convert_pdf_to_images] of
    src/testing/img_pdf_v2.py that returns has added exactly one composite,
    named after the file: for a file [stem.ext], where [ext] has no dot, the
    composite of the pages [i .. end_idx - 1] is
    [stem_pages_<i+1>-<end_idx>.jpg], so that [report.final.pdf] gives
    [report.final_pages_1-4.jpg]; a file name without a dot is taken whole. *)
Theorem v2_file_names (pdf_file : UploadedFile) (pdf_document : Document)
    (pages_per_image total_pages i : Z)
    (processed_images processed_images' : list img_pdf_v2.NamedImage) :
  img_pdf_v2.convert_group pdf_file pdf_document pages_per_image total_pages
    processed_images i = Ok processed_images' →
  ∃ entry,
    processed_images' = processed_images ++ [entry] ∧
    (∀ stem ext,
       "."%char ∉ String.list_ascii_of_string ext →
       name pdf_file = stem +:+ "." +:+ ext →
       img_pdf_v2.ni_name entry
       = stem +:+ "_pages_" +:+ pretty (i + 1) +:+ "-"
           +:+ pretty (Z.min (i + pages_per_image) total_pages) +:+ ".jpg") ∧
    ("."%char ∉ String.list_ascii_of_string (name pdf_file) →
       img_pdf_v2.ni_name entry
       = name pdf_file +:+ "_pages_" +:+ pretty (i + 1) +:+ "-"
           +:+ pretty (Z.min (i + pages_per_image) total_pages) +:+ ".jpg").
Proof.
  rewrite v2_convert_group_eq. unfold v2_named_group.
  destruct (img_pdf_v2.combine_group _ _ _) as [c|e]; [|discriminate].
  csimpl. intros [= <-]. eexists. split; [reflexivity|]. simpl. split.
  - intros stem ext Hout ->.
    by rewrite (proj1 (rsplit_dot_head_spec stem ext Hout)).
  - intros Hout.
    by rewrite (proj2 (rsplit_dot_head_spec "" (name pdf_file) Hout)).
Qed.

End file_names.

Lemma v2_file_names_witness :
  ∃ entry,
    img_pdf_v2.convert_group dotted_name
      {| doc_pages := replicate 3 (sample_page 10 10) |} 4 3 [] 0 = Ok [entry] ∧
    img_pdf_v2.ni_name entry = "report.final_pages_1-3.jpg".
Proof.
  destruct (img_pdf_v2.convert_group dotted_name
              {| doc_pages := replicate 3 (sample_page 10 10) |} 4 3 [] 0)
    as [out|e] eqn:Hround.
  - destruct (v2_file_names dotted_name
                {| doc_pages := replicate 3 (sample_page 10 10) |} 4 3 0 [] out Hround)
      as (entry & -> & Hname & _).
    exists entry. split; [reflexivity|].
    apply (Hname "report.final" "pdf"); [|reflexivity].
    intros Hin. apply list_elem_of_In in Hin. simpl in Hin. intuition discriminate.
  - exfalso. assert (Hok := f_equal is_ok Hround). vm_compute in Hok. discriminate.
Defined.

(** ** The sidebar of src/testing/img_pdf_v2.py *)





Lemma list_getitem_nonneg {A} (l : list A) (i : Z) :
  0 ≤ i →
  list_getitem l i = match l !! Z.to_nat i with
                     | Some a => Ok a
                     | None => Raise (IndexError "list index out of range")
                     end.
Proof.
  intros Hi. unfold list_getitem.
  rewrite (proj2 (Z.ltb_ge i 0)) by lia.
  rewrite (proj2 (Z.leb_le 0 i)) by lia. simpl.
  destruct (Z.ltb_spec i (Z.of_nat (length l))) as [Hlt|Hge]; [reflexivity|].
  rewrite lookup_ge_None_2 by lia. reflexivity.
Qed.

Section sidebar.
Context `{PIL}.









End sidebar.

(** * The chat *)

(** ** base64 *)

Lemma b2a_table_check :
  forallb (λ v, bool_decide (base64.a2b (base64.b2a v) = Some v
                             ∧ base64.b2a v ≠ "="%char)) (seqZ 0 64) = true.
Proof. vm_compute. reflexivity. Qed.

(** A six-bit value is read back from its character, which is never the
    padding character. *)
Lemma a2b_b2a (v : Z) :
  0 ≤ v < 64 → base64.a2b (base64.b2a v) = Some v ∧ base64.b2a v ≠ "="%char.
Proof.
  intros Hv.
  assert (Hin : In v (seqZ 0 64)) by (apply list_elem_of_In, elem_of_seqZ; lia).
  apply (proj1 (forallb_forall _ _) b2a_table_check) in Hin.
  by apply bool_decide_eq_true in Hin.
Qed.

Lemma byte_val_range (b : Byte.byte) : 0 ≤ base64.byte_val b < 256.
Proof.
  unfold base64.byte_val. pose proof (Byte.to_N_bounded b). lia.
Qed.

Lemma to_byte_val (b : Byte.byte) (v : Z) :
  v = base64.byte_val b → base64.to_byte v = Some b.
Proof.
  intros ->. unfold base64.to_byte, base64.byte_val.
  rewrite N2Z.id. apply Byte.of_to_N.
Qed.

(** The arithmetic of a group: the four six-bit values of a 24-bit number,
    and the bytes they give back. *)
Lemma sextet_ranges (m : Z) :
  0 ≤ m < 16777216 →
  0 ≤ m `div` 262144 < 64 ∧ 0 ≤ (m `div` 4096) `mod` 64 < 64 ∧
  0 ≤ (m `div` 64) `mod` 64 < 64 ∧ 0 ≤ m `mod` 64 < 64.
Proof. intros Hm. Z.div_mod_to_equations. lia. Qed.

Lemma regroup_1 (x0 m : Z) :
  0 ≤ x0 < 256 → m = x0 * 65536 →
  (m `div` 262144 * 64 + (m `div` 4096) `mod` 64) `div` 16 = x0.
Proof. intros H0 Hm. Z.div_mod_to_equations. lia. Qed.

Lemma regroup_2 (x0 x1 m : Z) :
  0 ≤ x0 < 256 → 0 ≤ x1 < 256 → m = x0 * 65536 + x1 * 256 →
  let n := m `div` 262144 * 4096 + (m `div` 4096) `mod` 64 * 64
           + (m `div` 64) `mod` 64 in
  n `div` 1024 = x0 ∧ (n `div` 4) `mod` 256 = x1.
Proof. intros H0 H1 Hm. cbv zeta. Z.div_mod_to_equations. lia. Qed.

Lemma regroup_3 (x0 x1 x2 m : Z) :
  0 ≤ x0 < 256 → 0 ≤ x1 < 256 → 0 ≤ x2 < 256 →
  m = x0 * 65536 + x1 * 256 + x2 →
  let n := m `div` 262144 * 262144 + (m `div` 4096) `mod` 64 * 4096
           + (m `div` 64) `mod` 64 * 64 + m `mod` 64 in
  n `div` 65536 = x0 ∧ (n `div` 256) `mod` 256 = x1 ∧ n `mod` 256 = x2.
Proof. intros H0 H1 H2 Hm. cbv zeta. Z.div_mod_to_equations. lia. Qed.

Lemma b64decode_group (c0 c1 c2 c3 : ascii) (s : list ascii) :
  base64.b64decode (c0 :: c1 :: c2 :: c3 :: s) =
  (v0 ← base64.a2b c0;
   v1 ← base64.a2b c1;
   if bool_decide (c3 = "="%char ∧ s = []) then
     if bool_decide (c2 = "="%char) then
       b0 ← base64.to_byte ((v0 * 64 + v1) `div` 16);
       Some [b0]
     else
       v2 ← base64.a2b c2;
       let n := v0 * 4096 + v1 * 64 + v2 in
       b0 ← base64.to_byte (n `div` 1024);
       b1 ← base64.to_byte ((n `div` 4) `mod` 256);
       Some [b0; b1]
   else
     v2 ← base64.a2b c2;
     v3 ← base64.a2b c3;
     let n := v0 * 262144 + v1 * 4096 + v2 * 64 + v3 in
     b0 ← base64.to_byte (n `div` 65536);
     b1 ← base64.to_byte ((n `div` 256) `mod` 256);
     b2 ← base64.to_byte (n `mod` 256);
     rest ← base64.b64decode s;
     Some (b0 :: b1 :: b2 :: rest)).
Proof. reflexivity. Qed.

(** One step of the option monad on a value at hand. *)
Ltac bind_some :=
  match goal with
  | |- context [mbind ?f (Some ?x)] =>
      change (mbind f (Some x)) with (f x); cbv beta zeta
  end.

Lemma b64decode_b64encode_le (n : nat) (s : list Byte.byte) :
  (length s ≤ n)%nat → base64.b64decode (base64.b64encode s) = Some s.
Proof.
  revert s. induction n as [|n IH]; intros s Hlen.
  { destruct s; [reflexivity | simpl in Hlen; lia]. }
  destruct s as [|b0 [|b1 [|b2 s]]]; [reflexivity|..].
  - pose proof (byte_val_range b0) as H0.
    set (m := base64.byte_val b0 * 65536).
    change (base64.b64encode [b0])
      with [base64.b2a (m `div` 262144); base64.b2a ((m `div` 4096) `mod` 64);
            "="%char; "="%char].
    destruct (sextet_ranges m) as (R0 & R1 & _); [subst m; lia|].
    destruct (a2b_b2a _ R0) as [D0 _], (a2b_b2a _ R1) as [D1 _].
    rewrite b64decode_group, D0. bind_some. rewrite D1. bind_some.
    rewrite !bool_decide_eq_true_2 by done.
    by rewrite (to_byte_val b0 _ (regroup_1 _ m H0 eq_refl)).
  - pose proof (byte_val_range b0) as H0. pose proof (byte_val_range b1) as H1.
    set (m := base64.byte_val b0 * 65536 + base64.byte_val b1 * 256).
    change (base64.b64encode [b0; b1])
      with [base64.b2a (m `div` 262144); base64.b2a ((m `div` 4096) `mod` 64);
            base64.b2a ((m `div` 64) `mod` 64); "="%char].
    destruct (sextet_ranges m) as (R0 & R1 & R2 & _); [subst m; lia|].
    destruct (a2b_b2a _ R0) as [D0 _], (a2b_b2a _ R1) as [D1 _],
      (a2b_b2a _ R2) as [D2 N2].
    destruct (regroup_2 (base64.byte_val b0) (base64.byte_val b1) m H0 H1 eq_refl)
      as [E0 E1].
    rewrite b64decode_group, D0. bind_some. rewrite D1. bind_some.
    rewrite (bool_decide_eq_true_2 (_ ∧ _)) by done.
    rewrite bool_decide_eq_false_2 by exact N2.
    rewrite D2. bind_some.
    rewrite (to_byte_val b0 _ E0). bind_some.
    by rewrite (to_byte_val b1 _ E1).
  - pose proof (byte_val_range b0) as H0. pose proof (byte_val_range b1) as H1.
    pose proof (byte_val_range b2) as H2.
    set (m := base64.byte_val b0 * 65536 + base64.byte_val b1 * 256
              + base64.byte_val b2).
    change (base64.b64encode (b0 :: b1 :: b2 :: s))
      with (base64.b2a (m `div` 262144) :: base64.b2a ((m `div` 4096) `mod` 64)
            :: base64.b2a ((m `div` 64) `mod` 64) :: base64.b2a (m `mod` 64)
            :: base64.b64encode s).
    destruct (sextet_ranges m) as (R0 & R1 & R2 & R3); [subst m; lia|].
    destruct (a2b_b2a _ R0) as [D0 _], (a2b_b2a _ R1) as [D1 _],
      (a2b_b2a _ R2) as [D2 _], (a2b_b2a _ R3) as [D3 N3].
    destruct (regroup_3 (base64.byte_val b0) (base64.byte_val b1)
                (base64.byte_val b2) m H0 H1 H2 eq_refl) as (E0 & E1 & E2).
    rewrite b64decode_group, D0. bind_some. rewrite D1. bind_some.
    rewrite bool_decide_eq_false_2 by (intros [Heq _]; exact (N3 Heq)).
    rewrite D2. bind_some. rewrite D3. bind_some.
    rewrite (to_byte_val b0 _ E0). bind_some.
    rewrite (to_byte_val b1 _ E1). bind_some.
    rewrite (to_byte_val b2 _ E2). bind_some.
    rewrite IH by (simpl in Hlen; lia). reflexivity.
Qed.

Lemma b64encode_length_le (n : nat) (s : list Byte.byte) :
  (length s ≤ n)%nat →
  Z.of_nat (length (base64.b64encode s)) = 4 * ((Z.of_nat (length s) + 2) `div` 3).
Proof.
  revert s. induction n as [|n IH]; intros s Hlen.
  { destruct s; [reflexivity | simpl in Hlen; lia]. }
  destruct s as [|b0 [|b1 [|b2 s]]]; [reflexivity..|].
  change (base64.b64encode (b0 :: b1 :: b2 :: s))
    with (base64.sextets (base64.byte_val b0 * 65536 + base64.byte_val b1 * 256
                          + base64.byte_val b2) ++ base64.b64encode s).
  rewrite length_app. simpl length.
  rewrite Nat2Z.inj_add, IH by (simpl in Hlen; lia).
  Z.div_mod_to_equations. lia.
Qed.

Lemma length_string_of_list_ascii (l : list ascii) :
  String.length (String.string_of_list_ascii l) = length l.
Proof. induction l as [|c l IH]; simpl; [reflexivity | by rewrite IH]. Qed.

(** X11: The base64 text [encode_image] makes of an image decodes back to the
    bytes of the image: nothing is lost on the way to the API.  Its length is
    four characters for every three bytes, rounded up.  A buffer and the
    bytes it holds are encoded alike, so the position of the cursor the
    pipeline rewinds with [seek(0)] plays no part, and the three copies of the
    function (src/anthropic_ocr.py, src/new_test/fix_rgba_filedata_error.py,
    src/testing/img_pdf_v2.py) give the same text. *)
Theorem encode_image_round_trip (image_bytes : ImageBytes) :
  base64.b64decode (String.list_ascii_of_string (anthropic_ocr.encode_image image_bytes))
  = Some (raw_bytes image_bytes) ∧
  Z.of_nat (String.length (anthropic_ocr.encode_image image_bytes))
  = 4 * ((Z.of_nat (length (raw_bytes image_bytes)) + 2) `div` 3) ∧
  anthropic_ocr.encode_image (BytesIO (raw_bytes image_bytes))
  = anthropic_ocr.encode_image (Bytes (raw_bytes image_bytes)) ∧
  fix_rgba_filedata_error.encode_image image_bytes
  = anthropic_ocr.encode_image image_bytes ∧
  img_pdf_v2.encode_image (raw_bytes image_bytes)
  = anthropic_ocr.encode_image image_bytes ∧
  (∀ other,
     anthropic_ocr.encode_image other = anthropic_ocr.encode_image image_bytes →
     raw_bytes other = raw_bytes image_bytes).
Proof.
  assert (Hdec : ∀ x,
            base64.b64decode
              (String.list_ascii_of_string (anthropic_ocr.encode_image x))
            = Some (raw_bytes x)).
  { intros x.
    assert (Hx : anthropic_ocr.encode_image x
                 = String.string_of_list_ascii (base64.b64encode (raw_bytes x)))
      by (by destruct x).
    rewrite Hx, String.list_ascii_of_string_of_list_ascii.
    by apply (b64decode_b64encode_le (length (raw_bytes x))). }
  split; [apply Hdec|]. split; [|split; [|split; [|split]]].
  - assert (Hx : anthropic_ocr.encode_image image_bytes
                 = String.string_of_list_ascii
                     (base64.b64encode (raw_bytes image_bytes)))
      by (by destruct image_bytes).
    rewrite Hx, length_string_of_list_ascii.
    by apply (b64encode_length_le (length (raw_bytes image_bytes))).
  - reflexivity.
  - by destruct image_bytes.
  - by destruct image_bytes.
  - intros other Heq. pose proof (Hdec other) as Ho. rewrite Heq, Hdec in Ho.
    by injection Ho.
Qed.

(** [base64.b64encode(b"Ma")] is [b"TWE="]: the two bytes are 0x4d and
    0x61. *)
Lemma encode_image_round_trip_witness :
  anthropic_ocr.encode_image (BytesIO [Byte.x4d; Byte.x61]) = "TWE=" ∧
  base64.b64decode (String.list_ascii_of_string "TWE=") = Some [Byte.x4d; Byte.x61].
Proof.
  split; [reflexivity|].
  apply (proj1 (encode_image_round_trip (BytesIO [Byte.x4d; Byte.x61]))).
Defined.

(** ** The chat *)

Lemma foldl_snoc_fmap {A B} (f : A → B) (l : list A) (acc : list B) :
  foldl (λ acc a, acc ++ [f a]) acc l = acc ++ (f <$> l).
Proof.
  revert acc. induction l as [|a l IH]; intros acc; simpl.
  - by rewrite app_nil_r.
  - by rewrite IH, <- app_assoc.
Qed.

Lemma list_getitem_first {A} (a : A) (l : list A) : list_getitem (a :: l) 0 = Ok a.
Proof. by rewrite list_getitem_nonneg. Qed.

Lemma upload_loop_total `{PIL} (quality pdf_quality : string)
    (s : anthropic_ocr.Session) (uploaded_files : list UploadedFile) :
  ∃ t s', anthropic_ocr.process_uploads quality pdf_quality s uploaded_files = (t, Ok s').
Proof.
  unfold anthropic_ocr.process_uploads. destruct uploaded_files as [|file files].
  - by exists [], s.
  - rewrite process_upload_loop. eauto.
Qed.

Section chat.
Context `{PIL}.
Variable jpeg_bytes : Payload → list Byte.byte.

Lemma request_content_eq (images : list Payload) (first : ChatMessage)
    (rest : list ChatMessage) :
  anthropic_ocr.request_content jpeg_bytes images (first :: rest)
  = Ok (TextBlock anthropic_ocr.system_message :: TextBlock (msg_content first)
        :: (anthropic_ocr.image_content jpeg_bytes <$> images)
        ++ ((λ m, TextBlock (msg_content m)) <$> rest)).
Proof.
  unfold anthropic_ocr.request_content. rewrite list_getitem_first. csimpl.
  by rewrite !foldl_snoc_fmap, <- app_assoc.
Qed.

(** X12: [analyze_images] of src/anthropic_ocr.py.  Without images it answers
    at once and asks nothing.  With images and an empty history it raises
    [IndexError] before any request.  Otherwise it makes one request whose
    single message, of role user, holds the system text, the text of the first
    message of the history, every image as a base64 JPEG block, and then the
    text of every later message of the history, replies of the assistant
    included; and whatever the API does it returns a text: the handlers turn
    an answer without content into an error text as well. *)
Theorem analyze_images_request (create : CreateParams → CreateOutcome)
    (images : list Payload) (messages : list ChatMessage) :
  (images = [] →
     anthropic_ocr.analyze_images jpeg_bytes create images messages
     = Ok "Please upload at least one image.") ∧
  (images ≠ [] → messages = [] →
     anthropic_ocr.analyze_images jpeg_bytes create images messages
     = Raise (IndexError "list index out of range")) ∧
  (∀ first rest, images ≠ [] → messages = first :: rest →
     let content :=
       TextBlock anthropic_ocr.system_message :: TextBlock (msg_content first)
       :: (anthropic_ocr.image_content jpeg_bytes <$> images)
       ++ ((λ m, TextBlock (msg_content m)) <$> rest) in
     let request :=
       {| create_model := "claude-3-sonnet-20240229";
          create_max_tokens := 4096;
          create_temperature := PyFloat.literal 7 10;
          create_messages := [{| param_role := "user"; param_content := content |}] |} in
     length content = (1 + length images + length messages)%nat ∧
     ∃ reply,
       anthropic_ocr.analyze_images jpeg_bytes create images messages = Ok reply ∧
       (∀ text others, create request = Created (ResponseText text :: others) →
          reply = text) ∧
       (create request = Created [] →
          reply = "Error processing request: list index out of range") ∧
       (∀ msg, create request = APIError msg →
          reply = "Error making request to Anthropic API: " +:+ msg) ∧
       (∀ msg, create request = OtherException msg →
          reply = "Error processing request: " +:+ msg)).
Proof.
  split; [by intros ->|]. split.
  - intros Hne ->. by destruct images.
  - intros first rest Hne -> content request. split.
    { unfold content. simpl. rewrite length_app, !length_fmap. lia. }
    exists (anthropic_ocr.request_reply create content). split.
    { unfold anthropic_ocr.analyze_images. destruct images; [done|].
      by rewrite request_content_eq. }
    unfold anthropic_ocr.request_reply.
    change (anthropic_ocr.create_params content) with request.
    split; [intros text others Hanswer; by rewrite Hanswer|].
    split; [intros Hanswer; by rewrite Hanswer|].
    split; intros msg Hanswer; by rewrite Hanswer.
Qed.

Lemma analyze_images_returns (create : CreateParams → CreateOutcome)
    (images : list Payload) (messages : list ChatMessage) :
  messages ≠ [] →
  is_ok (anthropic_ocr.analyze_images jpeg_bytes create images messages) = true.
Proof.
  intros Hne. unfold anthropic_ocr.analyze_images.
  destruct images; [reflexivity|]. destruct messages as [|first rest]; [done|].
  by rewrite request_content_eq.
Qed.

Lemma paired_nil : paired [].
Proof. by exists []. Qed.

Lemma paired_snoc (history : list ChatMessage) (question answer : string) :
  paired history →
  paired ((history ++ [{| msg_role := "user"; msg_content := question |}])
          ++ [{| msg_role := "assistant"; msg_content := answer |}]).
Proof.
  intros (turns & ->). exists (turns ++ [(question, answer)]).
  rewrite fmap_app, concat_app. simpl. by rewrite <- app_assoc.
Qed.

Lemma main_step (create : CreateParams → CreateOutcome) (api_key : option string)
    (quality pdf_quality : string) (uploaded_files : list UploadedFile)
    (prompt : option string) (clear_clicked : bool) (state : anthropic_ocr.AppState) :
  ∃ t state',
    anthropic_ocr.main jpeg_bytes create api_key quality pdf_quality uploaded_files
      prompt clear_clicked state = (t, Ok state') ∧
    (paired (anthropic_ocr.messages state) → paired (anthropic_ocr.messages state')) ∧
    (anthropic_ocr.messages state' = anthropic_ocr.messages state ∨
     anthropic_ocr.messages state' = [] ∨
     ∃ question answer,
       truthy prompt = Some question ∧
       anthropic_ocr.processed_images (anthropic_ocr.session state') ≠ [] ∧
       anthropic_ocr.messages state'
       = anthropic_ocr.messages state
           ++ [{| msg_role := "user"; msg_content := question |};
               {| msg_role := "assistant"; msg_content := answer |}]).
Proof.
  unfold anthropic_ocr.main.
  destruct (upload_loop_total quality pdf_quality (anthropic_ocr.session state)
              uploaded_files) as (t & session & Hup).
  rewrite Hup. cbn.
  assert (Hclear : ∀ st,
            (paired (anthropic_ocr.messages st) →
             paired (anthropic_ocr.messages
                       (anthropic_ocr.clear_chat_history clear_clicked st))) ∧
            (anthropic_ocr.messages (anthropic_ocr.clear_chat_history clear_clicked st)
               = anthropic_ocr.messages st ∨
             anthropic_ocr.messages (anthropic_ocr.clear_chat_history clear_clicked st)
               = []) ∧
            anthropic_ocr.session (anthropic_ocr.clear_chat_history clear_clicked st)
              = anthropic_ocr.session st).
  { intros st. unfold anthropic_ocr.clear_chat_history.
    destruct clear_clicked; simpl; auto using paired_nil. }
  destruct (truthy prompt) as [question|].
  - destruct (anthropic_ocr.processed_images session) as [|img imgs] eqn:Himgs.
    { cbn. eexists _, _. split; [reflexivity|]. simpl. auto. }
    destruct (truthy api_key) as [key|].
    + set (history := anthropic_ocr.messages state
                      ++ [{| msg_role := "user"; msg_content := question |}]).
      pose proof (analyze_images_returns create (img :: imgs) history) as Hret.
      destruct (anthropic_ocr.analyze_images jpeg_bytes create (img :: imgs) history)
        as [answer|e]; [|by discriminate Hret; destruct (anthropic_ocr.messages state)].
      cbn. eexists _, _. split; [reflexivity|].
      destruct (Hclear {| anthropic_ocr.messages :=
                            history ++ [{| msg_role := "assistant";
                                           msg_content := answer |}];
                          anthropic_ocr.session := session |})
        as (Hp & Hm & Hs).
      simpl in Hp, Hm, Hs. split.
      * intros Hpaired. apply Hp. by apply paired_snoc.
      * destruct Hm as [Hm|Hm]; [|auto]. right. right.
        exists question, answer. split; [reflexivity|].
        rewrite Hs, Himgs. split; [done|]. rewrite Hm. unfold history.
        by rewrite <- app_assoc.
    + cbn. eexists _, _. split; [reflexivity|]. simpl. auto.
  - cbn. eexists _, _. split; [reflexivity|].
    destruct (Hclear {| anthropic_ocr.messages := anthropic_ocr.messages state;
                        anthropic_ocr.session := session |}) as (Hp & Hm & _).
    simpl in Hp, Hm. split; [exact Hp|]. destruct Hm; auto.
Qed.

(** X13: Runs of [main] of src/anthropic_ocr.py, one after the other on the
    session of a new visit, whatever the uploads, the inputs and the answers
    of the API are: no run raises, and after every run the chat history is a
    sequence of questions of the user each followed by one message of the
    assistant, which is the reply or the text of an error.  A run leaves the
    history as it is, empties it, or adds one such pair, and it adds one only
    when there is a processed image. *)
Theorem main_keeps_history_paired (runs : list Run) :
  ∃ t state,
    for_each runs (run_main jpeg_bytes) new_visit = (t, Ok state) ∧
    paired (anthropic_ocr.messages state) ∧
    ∀ (r : Run) (state : anthropic_ocr.AppState),
      ∃ t' state',
        run_main jpeg_bytes state r = (t', Ok state') ∧
        (anthropic_ocr.messages state' = anthropic_ocr.messages state ∨
         anthropic_ocr.messages state' = [] ∨
         ∃ question answer,
           truthy (run_prompt r) = Some question ∧
           anthropic_ocr.processed_images (anthropic_ocr.session state') ≠ [] ∧
           anthropic_ocr.messages state'
           = anthropic_ocr.messages state
               ++ [{| msg_role := "user"; msg_content := question |};
                   {| msg_role := "assistant"; msg_content := answer |}]).
Proof.
  assert (Hstep : ∀ (r : Run) (state : anthropic_ocr.AppState),
            ∃ t' state',
              run_main jpeg_bytes state r = (t', Ok state') ∧
              (paired (anthropic_ocr.messages state) →
               paired (anthropic_ocr.messages state')) ∧
              (anthropic_ocr.messages state' = anthropic_ocr.messages state ∨
               anthropic_ocr.messages state' = [] ∨
               ∃ question answer,
                 truthy (run_prompt r) = Some question ∧
                 anthropic_ocr.processed_images (anthropic_ocr.session state') ≠ [] ∧
                 anthropic_ocr.messages state'
                 = anthropic_ocr.messages state
                     ++ [{| msg_role := "user"; msg_content := question |};
                         {| msg_role := "assistant"; msg_content := answer |}])).
  { intros r state. apply main_step. }
  assert (Hloop : ∀ state, paired (anthropic_ocr.messages state) →
            ∃ t state',
              for_each runs (run_main jpeg_bytes) state = (t, Ok state') ∧
              paired (anthropic_ocr.messages state')).
  { induction runs as [|r runs IH]; intros state Hpaired.
    - by exists [], state.
    - destruct (Hstep r state) as (t1 & state1 & Hrun1 & Hkeep & _).
      destruct (IH state1 (Hkeep Hpaired)) as (t2 & state2 & Hrun2 & Hpaired2).
      exists (t1 ++ t2), state2. cbn [for_each]. rewrite Hrun1. cbn.
      by rewrite Hrun2. }
  destruct (Hloop new_visit paired_nil) as (t & state & Hrun & Hpaired).
  exists t, state. split; [exact Hrun|]. split; [exact Hpaired|].
  intros r state0. destruct (Hstep r state0) as (t' & state' & Hrun' & _ & Hcases).
  by exists t', state'.
Qed.

End chat.

(** ** The chat through the OpenAI endpoint *)

Section openai.
Context {I : Type}.
Variable encode : I → string.
Variables no_images_reply system_prompt : string.
Variable max_tokens : Z.
Variable api_key : option string.
Variable post : PostRequest → PostOutcome.

Lemma api_messages_of_eq (images : list I) (first : ChatMessage)
    (rest : list ChatMessage) :
  api_messages_of encode system_prompt images (first :: rest)
  = Ok ({| api_role := "system"; api_content := Plain system_prompt |}
        :: {| api_role := "user";
              api_content := Parts (TextBlock (msg_content first)
                                    :: (image_url_part encode <$> images)) |}
        :: ((λ m, {| api_role := msg_role m; api_content := Plain (msg_content m) |})
              <$> rest)).
Proof.
  unfold api_messages_of. rewrite list_getitem_first. csimpl.
  by rewrite !foldl_snoc_fmap.
Qed.

Lemma analyze_images_with_eq (images : list I) (first : ChatMessage)
    (rest : list ChatMessage) :
  images ≠ [] →
  analyze_images_with encode no_images_reply system_prompt max_tokens api_key post
    images (first :: rest)
  = handle_reply
      (reply_content post
         {| post_url := "https://api.openai.com/v1/chat/completions";
            post_content_type := "application/json";
            post_authorization := "Bearer " +:+ default "None" api_key;
            post_model := "gpt-4o";
            post_messages :=
              {| api_role := "system"; api_content := Plain system_prompt |}
              :: {| api_role := "user";
                    api_content := Parts (TextBlock (msg_content first)
                                          :: (image_url_part encode <$> images)) |}
              :: ((λ m, {| api_role := msg_role m;
                           api_content := Plain (msg_content m) |}) <$> rest);
            post_max_tokens := max_tokens |}).
Proof.
  intros Hne. unfold analyze_images_with. destruct images; [done|].
  by rewrite api_messages_of_eq.
Qed.

Lemma analyze_images_with_guards (images : list I) (messages : list ChatMessage) :
  (images = [] →
     analyze_images_with encode no_images_reply system_prompt max_tokens api_key post
       images messages = Returned (JStr no_images_reply)) ∧
  (images ≠ [] → messages = [] →
     analyze_images_with encode no_images_reply system_prompt max_tokens api_key post
       images messages = Escaped ListIndexError).
Proof.
  split; [by intros ->|]. intros Hne ->. by destruct images.
Qed.

Lemma handle_reply_escapes (r : attempt Json) (e : api_exn) :
  handle_reply r = Escaped e →
  e = ListIndexError ∨ e = StringIndexError ∨ e = TypeError.
Proof. destruct r as [v|[]]; simpl; intros [= <-]; auto. Qed.

Lemma analyze_images_with_escapes (images : list I) (messages : list ChatMessage)
    (e : api_exn) :
  analyze_images_with encode no_images_reply system_prompt max_tokens api_key post
    images messages = Escaped e →
  e = ListIndexError ∨ e = StringIndexError ∨ e = TypeError.
Proof.
  unfold analyze_images_with. destruct images; [discriminate|].
  destruct (api_messages_of _ _ _ _).
  - apply handle_reply_escapes.
  - intros [= <-]. auto.
Qed.

End openai.

Lemma reply_content_answer (post : PostRequest → PostOutcome) (request : PostRequest)
    (r : Response) (data : Json) :
  post request = Responded r → http_error r = None → json r = inr data →
  reply_content post request
  = (choices ← json_getitem data (Key "choices");
     choice ← json_getitem choices (Index 0);
     message ← json_getitem choice (Key "message");
     json_getitem message (Key "content")).
Proof. intros Hpost Herr Hjson. unfold reply_content. by rewrite Hpost, Herr, Hjson. Qed.

(** X14: The request of [analyze_images] in the variants that ask the OpenAI
    endpoint (src/new_test/fix_rgba_filedata_error.py and
    src/testing/img_pdf_v2.py).  Without images the function answers at once;
    with images and an empty history it raises [IndexError].  Otherwise it
    posts one payload: the system prompt, then one message of role user with
    the text of the first message of the history and every image as a
    [data:image/jpeg;base64,] URL, then every later message of the history
    with its own role and text.  The first message is sent as user whatever
    its role is. *)
Theorem openai_request (api_key : option string) (post : PostRequest → PostOutcome)
    (first : ChatMessage) (rest : list ChatMessage) :
  (∀ images : list ImageBytes,
     images ≠ [] →
     fix_rgba_filedata_error.analyze_images api_key post images (first :: rest)
     = handle_reply
         (reply_content post
            {| post_url := "https://api.openai.com/v1/chat/completions";
               post_content_type := "application/json";
               post_authorization := "Bearer " +:+ default "None" api_key;
               post_model := "gpt-4o";
               post_messages :=
                 {| api_role := "system";
                    api_content :=
                      Plain "You are an AI assistant analyzing images and engaging in conversation about them." |}
                 :: {| api_role := "user";
                       api_content :=
                         Parts (TextBlock (msg_content first)
                                :: ((λ img, ImageUrlBlock
                                              ("data:image/jpeg;base64,"
                                               +:+ fix_rgba_filedata_error.encode_image img))
                                      <$> images)) |}
                 :: ((λ m, {| api_role := msg_role m;
                              api_content := Plain (msg_content m) |}) <$> rest);
               post_max_tokens := 5000 |})) ∧
  (∀ images : list (list Byte.byte),
     images ≠ [] →
     img_pdf_v2.analyze_images api_key post images (first :: rest)
     = handle_reply
         (reply_content post
            {| post_url := "https://api.openai.com/v1/chat/completions";
               post_content_type := "application/json";
               post_authorization := "Bearer " +:+ default "None" api_key;
               post_model := "gpt-4o";
               post_messages :=
                 {| api_role := "system";
                    api_content :=
                      Plain "You are an AI assistant analyzing images and PDFs, engaging in conversation about them." |}
                 :: {| api_role := "user";
                       api_content :=
                         Parts (TextBlock (msg_content first)
                                :: ((λ img, ImageUrlBlock
                                              ("data:image/jpeg;base64,"
                                               +:+ img_pdf_v2.encode_image img))
                                      <$> images)) |}
                 :: ((λ m, {| api_role := msg_role m;
                              api_content := Plain (msg_content m) |}) <$> rest);
               post_max_tokens := 300 |})) ∧
  (∀ messages,
     fix_rgba_filedata_error.analyze_images api_key post [] messages
     = Returned (JStr "Please upload at least one image.") ∧
     img_pdf_v2.analyze_images api_key post [] messages
     = Returned (JStr "Please upload at least one image or PDF.")) ∧
  (∀ (images : list ImageBytes) (buffers : list (list Byte.byte)),
     images ≠ [] → buffers ≠ [] →
     fix_rgba_filedata_error.analyze_images api_key post images []
     = Escaped ListIndexError ∧
     img_pdf_v2.analyze_images api_key post buffers [] = Escaped ListIndexError).
Proof.
  split; [|split; [|split]].
  - intros images Hne. by apply analyze_images_with_eq.
  - intros images Hne. by apply analyze_images_with_eq.
  - intros messages. split; by apply analyze_images_with_guards.
  - intros images buffers Hi Hb. split; by apply analyze_images_with_guards.
Qed.

(** X15: what [analyze_images] of src/new_test/fix_rgba_filedata_error.py
    makes of the answer of the endpoint.  A failure of the request, an error
    status and a body that is not JSON come back as the text of an error, and
    so does a missing key.  When the body is
    [{"choices": [{"message": {"content": v}}, ...]}] the function returns
    [v].  But [except KeyError] does not catch what subscripting raises on a
    body of another shape: an empty list of choices raises [IndexError] out
    of the function, and [None] in the place of the list raises [TypeError].
    Nothing but an [IndexError] or a [TypeError] escapes. *)
Theorem openai_reply (api_key : option string) (images : list ImageBytes)
    (first : ChatMessage) (rest : list ChatMessage) :
  images ≠ [] →
  (∀ post e,
     fix_rgba_filedata_error.analyze_images api_key post images (first :: rest)
     = Escaped e →
     e = ListIndexError ∨ e = StringIndexError ∨ e = TypeError) ∧
  (∀ msg,
     fix_rgba_filedata_error.analyze_images api_key (λ _, PostRaised msg) images
       (first :: rest)
     = Returned (JStr ("Error making request to OpenAI API: " +:+ msg))) ∧
  (∀ msg body,
     fix_rgba_filedata_error.analyze_images api_key
       (λ _, Responded {| http_error := Some msg; json := body |}) images
       (first :: rest)
     = Returned (JStr ("Error making request to OpenAI API: " +:+ msg))) ∧
  (∀ msg,
     fix_rgba_filedata_error.analyze_images api_key
       (λ _, Responded {| http_error := None; json := inl msg |}) images
       (first :: rest)
     = Returned (JStr ("Error making request to OpenAI API: " +:+ msg))) ∧
  (∀ items others fields message_items v,
     obj_lookup "choices" items = Some (JArr (JObj fields :: others)) →
     obj_lookup "message" fields = Some (JObj message_items) →
     obj_lookup "content" message_items = Some v →
     fix_rgba_filedata_error.analyze_images api_key
       (λ _, Responded {| http_error := None; json := inr (JObj items) |}) images
       (first :: rest)
     = Returned v) ∧
  (∀ items,
     obj_lookup "choices" items = None →
     fix_rgba_filedata_error.analyze_images api_key
       (λ _, Responded {| http_error := None; json := inr (JObj items) |}) images
       (first :: rest)
     = Returned (JStr "Error parsing API response: 'choices'")) ∧
  (∀ items,
     obj_lookup "choices" items = Some (JArr []) →
     fix_rgba_filedata_error.analyze_images api_key
       (λ _, Responded {| http_error := None; json := inr (JObj items) |}) images
       (first :: rest)
     = Escaped ListIndexError) ∧
  (∀ items,
     obj_lookup "choices" items = Some JNull →
     fix_rgba_filedata_error.analyze_images api_key
       (λ _, Responded {| http_error := None; json := inr (JObj items) |}) images
       (first :: rest)
     = Escaped TypeError).
Proof.
  intros Hne. split.
  { intros post e. apply analyze_images_with_escapes. }
  repeat split; intros; unfold fix_rgba_filedata_error.analyze_images;
    rewrite analyze_images_with_eq by exact Hne; unfold reply_content; simpl;
    repeat match goal with
           | Hl : obj_lookup _ _ = _ |- _ => rewrite Hl; clear Hl; simpl
           end;
    reflexivity.
Qed.

(** ** On the sample inputs *)

Lemma st_convert_never_yields_witness :
  st_img_4o_pdf.convert_pdf_to_images ten_pages 3
  = Raise (NameError "name 'Image' is not defined").
Proof.
  apply (proj2 (st_convert_never_yields ten_pages 3)
           (replicate 10 (sample_image "RGB" 20 20 (λ _ _, white)))).
  - reflexivity.
  - vm_compute. congruence.
Defined.


Lemma analyze_images_request_witness :
  anthropic_ocr.analyze_images sample_jpeg_bytes empty_answer [save_jpeg photo 95]
    [question]
  = Ok "Error processing request: list index out of range".
Proof.
  destruct (analyze_images_request sample_jpeg_bytes empty_answer [save_jpeg photo 95]
              [question]) as (_ & _ & Hrequest).
  destruct (Hrequest question []) as (_ & reply & Hreply & _ & Hempty & _);
    [discriminate | reflexivity |].
  rewrite Hreply. f_equal. by apply Hempty.
Defined.

Lemma main_keeps_history_paired_witness :
  ∃ t state,
    for_each [first_run] (run_main sample_jpeg_bytes) new_visit = (t, Ok state) ∧
    anthropic_ocr.messages state
    = [question; {| msg_role := "assistant"; msg_content := "A photo." |}].
Proof.
  destruct (main_keeps_history_paired sample_jpeg_bytes [first_run])
    as (t & state & Hrun & _ & _).
  exists t, state. split; [exact Hrun|].
  assert (Hm := f_equal (λ r, match outcome r with
                              | Ok st => anthropic_ocr.messages st
                              | Raise _ => []
                              end) Hrun).
  simpl in Hm. rewrite <- Hm. vm_compute. reflexivity.
Defined.

Lemma openai_reply_witness :
  fix_rgba_filedata_error.analyze_images (Some "key") no_choices
    [BytesIO [Byte.x4d; Byte.x61]] [question]
  = Escaped ListIndexError.
Proof.
  destruct (openai_reply (Some "key") [BytesIO [Byte.x4d; Byte.x61]] question [])
    as (_ & _ & _ & _ & _ & _ & Hempty & _); [discriminate|].
  apply (Hempty [("choices", JArr [])]). reflexivity.
Defined.

(** A quality name in lower case is not an option, nor is one with an
    apostrophe, which the message shows between double quotes. *)
Lemma quality_names_witness :
  anthropic_ocr.get_zoom_factor "very high" = Raise (KeyError "very high") ∧
  anthropic_ocr.pdf_to_images ten_pages "very high" "High"
  = ([EvOpen "report.pdf";
      EvStError "Error processing PDF report.pdf: 'very high'"], Ok ([], [])) ∧
  anthropic_ocr.pdf_to_images ten_pages "it's high" "High"
  = ([EvOpen "report.pdf";
      EvStError ("Error processing PDF report.pdf: "
                 +:+ String double_quote ("it's high" +:+ String double_quote ""))],
     Ok ([], [])).
Proof.
  destruct (quality_names "very high") as [_ Hout].
  destruct Hout as (Hzoom & _ & _ & Hrun).
  { intros Hin. apply list_elem_of_In in Hin. simpl in Hin. intuition discriminate. }
  split; [exact Hzoom|]. split.
  { apply (Hrun ten_pages {| doc_pages := replicate 10 (sample_page 10 10) |} "High").
    reflexivity. }
  destruct (quality_names "it's high") as [_ Hout'].
  destruct Hout' as (_ & _ & _ & Hrun').
  { intros Hin. apply list_elem_of_In in Hin. simpl in Hin. intuition discriminate. }
  apply (Hrun' ten_pages {| doc_pages := replicate 10 (sample_page 10 10) |} "High").
  reflexivity.
Defined.

(** A batch of a document, a document with a page that cannot be rendered
    and a photo: one error, and a caption for each of the four images. *)
Lemma upload_loop_invariants_witness :
  ∃ t s,
    anthropic_ocr.process_uploads "Medium" "Medium" empty_session
      [ten_pages; third_page_broken; image_upload "photo.png" photo] = (t, Ok s) ∧
    length (st_errors t) = 1%nat ∧
    length (anthropic_ocr.processed_images s) = 4%nat ∧
    length (anthropic_ocr.image_captions s) = 4%nat.
Proof.
  destruct (upload_loop_invariants "Medium" "Medium" empty_session
              [ten_pages; third_page_broken; image_upload "photo.png" photo])
    as [(t & s & Hrun & _ & _ & Hbalanced) _].
  destruct Hbalanced as [Hlen _]; [discriminate|].
  exists t, s. split; [exact Hrun|].
  assert (Ht := f_equal (λ r, length (st_errors (trace r))) Hrun).
  assert (Hs := f_equal (λ r, match outcome r with
                              | Ok s => length (anthropic_ocr.image_captions s)
                              | Raise _ => 0%nat
                              end) Hrun).
  simpl in Ht, Hs. rewrite Hlen, <- Ht, <- Hs. vm_compute. repeat split.
Defined.

(** The payload of a second turn: the first question goes with the image,
    the answer and the next question follow with their roles. *)
Lemma openai_request_witness :
  fix_rgba_filedata_error.analyze_images (Some "key") no_choices
      [BytesIO [Byte.x4d; Byte.x61]]
      [question; {| msg_role := "assistant"; msg_content := "A photo." |};
       {| msg_role := "user"; msg_content := "And on page 3?" |}]
    = handle_reply
        (reply_content no_choices
           {| post_url := "https://api.openai.com/v1/chat/completions";
              post_content_type := "application/json";
              post_authorization := "Bearer key";
              post_model := "gpt-4o";
              post_messages :=
                [{| api_role := "system";
                    api_content :=
                      Plain "You are an AI assistant analyzing images and engaging in conversation about them." |};
                 {| api_role := "user";
                    api_content :=
                      Parts [TextBlock "What is on page 2?";
                             ImageUrlBlock "data:image/jpeg;base64,TWE="] |};
                 {| api_role := "assistant"; api_content := Plain "A photo." |};
                 {| api_role := "user"; api_content := Plain "And on page 3?" |}];
              post_max_tokens := 5000 |}).
Proof.
  destruct (openai_request (Some "key") no_choices question
              [{| msg_role := "assistant"; msg_content := "A photo." |};
               {| msg_role := "user"; msg_content := "And on page 3?" |}])
    as (Hrequest & _).
  rewrite Hrequest by discriminate. reflexivity.
Defined.
